(** * Batch service-assignment rotation: round-robin preview and commit

    A shallow embedding of the two batch-scheduling pages of the
    application:

    - the calendar page (multi-select month grid), [CalendarBatch];
    - the weekday-rule page (start date, end date, day of week),
      [WeekdayBatch].

    Both pages derive a preview list with the same round-robin loop and
    commit it through [createBatchServiceAssignments] of
    [lib/services/serviceScheduling.ts]. *)

From Stdlib Require Import Ascii String.
From stdpp Require Import base numbers list sorting strings gmap.
From stdpp Require Import pretty.

Set Warnings "-clear-no-such-hyp".


(** ** Data model *)

(** [interface Member { id: string; name: string }] *)
Record Member := { id : string; name : string }.

(** [interface PreviewAssignment { date; memberId; memberName }] *)
Record PreviewAssignment :=
  { date : string; memberId : string; memberName : string }.

(** The row shape passed to [createBatchServiceAssignments]; the optional
    fields [sermon_title] and [notes] are never set by the batch pages. *)
Record ServiceAssignment :=
  { org_id : string;
    service_type_id : string;
    member_id : string;
    service_date : string;
    status : string }.

Global Instance Member_eq_dec : EqDecision Member.
Proof. solve_decision. Defined.
Global Instance PreviewAssignment_eq_dec : EqDecision PreviewAssignment.
Proof. solve_decision. Defined.
Global Instance ServiceAssignment_eq_dec : EqDecision ServiceAssignment.
Proof. solve_decision. Defined.

(** ** JavaScript helpers *)

(** [!s] on a string: only the empty string is falsy. *)
Definition falsy (s : string) : bool := String.eqb s "".

(** [a || b] on strings. *)
Definition or_else (a b : string) : string := if falsy a then b else a.

(** [members.find((m) => m.id === memberId)]: the first match, if any. *)
Definition find_member (members : list Member) (memberId0 : string)
  : option Member :=
  List.find (fun m => String.eqb (id m) memberId0) members.

(** [member?.name || "未知"]: a missing member, and a member whose name is
    the empty string, both fall back to the placeholder. *)
Definition placeholder : string := "未知".

Definition display_name (member : option Member) : string :=
  match member with
  | Some m => or_else (name m) placeholder
  | None => placeholder
  end.

(** [Array.prototype.sort()] without comparator, on an array of strings:
    ascending by code unit.  The strings handled here are ISO dates
    (ASCII), where code-unit order is the byte order of [String.le]. *)
Definition Array_sort (a : list string) : list string :=
  merge_sort String.le a.

(** ** The round-robin loop

    The body of [dates.forEach((date, index) => { ... result.push(...) })],
    identical in both pages.  [selectedMemberIds[memberIndex]] is read with
    a default: the index is [index % length], always in range when the
    roster is non-empty, and both pages return before the loop when it is
    empty. *)
Definition assign (selectedMemberIds : list string) (members : list Member)
    (index : nat) (date0 : string) : PreviewAssignment :=
  let memberIndex := index mod length selectedMemberIds in
  let memberId0 := nth memberIndex selectedMemberIds "" in
  let member := find_member members memberId0 in
  {| date := date0; memberId := memberId0; memberName := display_name member |}.

Definition rotate (dates : list string) (selectedMemberIds : list string)
    (members : list Member) : list PreviewAssignment :=
  imap (assign selectedMemberIds members) dates.

(** How many entries of a preview list are assigned to member [m]. *)
Definition occurrences (m : string) (out : list PreviewAssignment) : nat :=
  length (filter (λ p, memberId p = m) out).

(** The distribution of turns in a preview [out] of [n] dates: an equal
    share when [n] is a multiple of the roster length, and otherwise one
    more turn for each of the first [n mod len(roster)] roster members than
    for each of the others.  The last part gives the exact number of turns
    of the member at roster position [j]. *)
Definition balanced (roster : list string) (n : nat)
    (out : list PreviewAssignment) : Prop :=
  (n mod length roster = 0 →
   ∀ m, m ∈ roster → occurrences m out = n / length roster)
  ∧ (0 < n mod length roster →
     ∀ j k mj mk, roster !! j = Some mj → roster !! k = Some mk →
       j < n mod length roster → n mod length roster ≤ k →
       occurrences mj out = occurrences mk out + 1)
  ∧ (∀ j m, roster !! j = Some m →
       occurrences m out
       = n / length roster
         + (if decide (j < n mod length roster) then 1 else 0)).

(** ** ECMAScript [Date]

    A [Date] object is its time value: milliseconds since the epoch, UTC.
    A date whose time value is [NaN] ("Invalid Date") is [None].  The
    local-time accessors ([getDate], [getDay], [setDate]) go through the
    host's time zone; [toISOString] and the parsing of a date-only ISO
    string are in UTC.  The host zone is a fixed offset [LocalTZA]
    (milliseconds east of UTC); zones with daylight-saving transitions are
    outside this model. *)

Local Open Scope Z_scope.

Definition msPerDay : Z := 86400000.

Definition Day (t : Z) : Z := t `div` msPerDay.
Definition TimeWithinDay (t : Z) : Z := t `mod` msPerDay.
Definition WeekDay (t : Z) : Z := (Day t + 4) `mod` 7.
Definition MakeDate (day time : Z) : Z := day * msPerDay + time.

(** Proleptic Gregorian calendar, by 400-year eras of 146097 days that
    start on 1 March; day 0 is 1970-01-01.  [civil_of_day] yields the year,
    the month (0 = January) and the day of the month (from 1). *)
Definition civil_of_day (z : Z) : Z * Z * Z :=
  let z := z + 719468 in
  let era := z `div` 146097 in
  let doe := z `mod` 146097 in
  let yoe := (doe - doe `div` 1460 + doe `div` 36524 - doe `div` 146096)
               `div` 365 in
  let doy := doe - (365 * yoe + yoe `div` 4 - yoe `div` 100) in
  let mp := (5 * doy + 2) `div` 153 in
  let d := doy - (153 * mp + 2) `div` 5 + 1 in
  let m := if bool_decide (mp < 10) then mp + 2 else mp - 10 in
  let y := yoe + era * 400 + (if bool_decide (m ≤ 1) then 1 else 0) in
  (y, m, d).

(** Day number of the first day of month [mn] (0..11) of year [ym]. *)
Definition day_of_month_start (ym mn : Z) : Z :=
  let y := ym - (if bool_decide (mn ≤ 1) then 1 else 0) in
  let era := y `div` 400 in
  let yoe := y `mod` 400 in
  let mp := if bool_decide (mn ≤ 1) then mn + 10 else mn - 2 in
  let doy := (153 * mp + 2) `div` 5 in
  let doe := yoe * 365 + yoe `div` 4 - yoe `div` 100 + doy in
  era * 146097 + doe - 719468.

Definition YearFromTime (t : Z) : Z := (civil_of_day (Day t)).1.1.
Definition MonthFromTime (t : Z) : Z := (civil_of_day (Day t)).1.2.
Definition DateFromTime (t : Z) : Z := (civil_of_day (Day t)).2.

(** [MakeDay(year, month, date)]: the day number of the first of the month,
    plus [date - 1]; months outside 0..11 carry into the year. *)
Definition MakeDay (year month date0 : Z) : Z :=
  day_of_month_start (year + month `div` 12) (month `mod` 12) + date0 - 1.

Definition DaysInMonth (year month : Z) : Z :=
  MakeDay year (month + 1) 1 - MakeDay year month 1.

(** *** Decimal digits *)

Definition digit_char (n : Z) : ascii :=
  ascii_of_nat (48 + Z.to_nat (n `mod` 10)).

Fixpoint pad (width : nat) (n : Z) (acc : string) : string :=
  match width with
  | O => acc
  | S w => pad w (n `div` 10) (String (digit_char n) acc)
  end.

Definition digit_value (c : ascii) : option Z :=
  let n := Z.of_nat (nat_of_ascii c) in
  if bool_decide (48 ≤ n ≤ 57) then Some (n - 48) else None.

Definition number2 (a b : ascii) : option Z :=
  x ← digit_value a; y ← digit_value b; Some (10 * x + y).

Definition number4 (a b c d : ascii) : option Z :=
  x ← number2 a b; y ← number2 c d; Some (100 * x + y).

(** *** [new Date(s)] for a date-only string

    The value of an [<input type="date">] is either the empty string or
    [YYYY-MM-DD]; the latter is read as midnight UTC.  Anything else is
    treated as an invalid date.  The two date fields supply no other
    string; on other strings the engines differ (some read a day past the
    end of the month, as in [2025-02-30], as a day of the next month), and
    the properties of [generateDates] below are stated for the empty
    string and for the dates this function accepts. *)
Definition Date_parse (s : string) : option Z :=
  match s with
  | String y1 (String y2 (String y3 (String y4 (String "-"
      (String m1 (String m2 (String "-" (String d1 (String d2 ""))))))))) =>
      y ← number4 y1 y2 y3 y4;
      m ← number2 m1 m2;
      d ← number2 d1 d2;
      if bool_decide (1 ≤ m ≤ 12 ∧ 1 ≤ d ≤ DaysInMonth y (m - 1))
      then Some (MakeDate (MakeDay y (m - 1) d) 0)
      else None
  | _ => None
  end.

(** *** [toISOString] and [.split("T")[0]] *)

Definition iso_year (y : Z) : string :=
  if bool_decide (0 ≤ y ≤ 9999) then pad 4 y ""
  else String (if bool_decide (0 ≤ y) then "+" else "-")%char
              (pad 6 (Z.abs y) "").

Definition iso_date (t : Z) : string :=
  iso_year (YearFromTime t) +:+ "-" +:+ pad 2 (MonthFromTime t + 1) ""
    +:+ "-" +:+ pad 2 (DateFromTime t) "".

Definition iso_time (t : Z) : string :=
  let ms := TimeWithinDay t in
  pad 2 (ms `div` 3600000) "" +:+ ":" +:+ pad 2 ((ms `div` 60000) `mod` 60) ""
    +:+ ":" +:+ pad 2 ((ms `div` 1000) `mod` 60) ""
    +:+ "." +:+ pad 3 (ms `mod` 1000) "".

Definition toISOString (t : Z) : string :=
  iso_date t +:+ "T" +:+ iso_time t +:+ "Z".

(** [s.split("T")[0]]: the part of [s] before the first ["T"]. *)
Fixpoint split_T_0 (s : string) : string :=
  match s with
  | "" => ""
  | String c s' => if Ascii.eqb c "T" then "" else String c (split_T_0 s')
  end.

Section HostTimeZone.

(** Offset of the host's local time from UTC, in milliseconds. *)
Variable LocalTZA : Z.

Definition LocalTime (t : Z) : Z := t + LocalTZA.
Definition UTC (t : Z) : Z := t - LocalTZA.

Definition getDate (t : Z) : Z := DateFromTime (LocalTime t).
Definition getDay (t : Z) : Z := WeekDay (LocalTime t).

(** [d.setDate(dt)]: replace the day of the month of the local date. *)
Definition setDate (t : Z) (dt : Z) : Z :=
  let lt := LocalTime t in
  UTC (MakeDate (MakeDay (YearFromTime lt) (MonthFromTime lt) dt)
                (TimeWithinDay lt)).

End HostTimeZone.

Local Close Scope Z_scope.

(** ** The hosted store

    [createBatchServiceAssignments] sends one insert of the whole array to
    the [service_assignments] table and throws the store's error, if any.
    The store itself is outside the repository: its answer to a request is
    an input of the model, and an accepted insert appends all rows of the
    request to the table while a rejected one leaves the table as it is. *)

Inductive InsertReply :=
  | Inserted
  | InsertError (message : string).

(** What a run of [handleSubmit] did to the outside world. *)
Record World :=
  { service_assignments : list ServiceAssignment;  (* the persisted table *)
    insert_requests : list (list ServiceAssignment); (* bulk inserts sent *)
    router_pushes : list string }.                 (* navigations *)

Definition createBatchServiceAssignments (reply : InsertReply)
    (assignments : list ServiceAssignment) (w : World)
  : World * option string :=
  let sent :=
    {| service_assignments := service_assignments w;
       insert_requests := insert_requests w ++ [assignments];
       router_pushes := router_pushes w |} in
  match reply with
  | Inserted =>
      ({| service_assignments := service_assignments sent ++ assignments;
          insert_requests := insert_requests sent;
          router_pushes := router_pushes sent |}, None)
  | InsertError message => (sent, Some message)
  end.

Definition router_push (path : string) (w : World) : World :=
  {| service_assignments := service_assignments w;
     insert_requests := insert_requests w;
     router_pushes := router_pushes w ++ [path] |}.

(** [previewAssignments.map((p) => ({ org_id: orgId, ... }))] *)
Definition to_assignment (orgId serviceTypeId : string) (p : PreviewAssignment)
  : ServiceAssignment :=
  {| org_id := orgId;
     service_type_id := serviceTypeId;
     member_id := memberId p;
     service_date := date p;
     status := "scheduled" |}.

(** [toggleMember], identical in both pages: uncheck removes the id, check
    appends it, so the roster is in the order the boxes were checked. *)
Definition toggleMember (memberId0 : string) (selectedMemberIds : list string)
  : list string :=
  if bool_decide (memberId0 ∈ selectedMemberIds)
  then filter (λ x, x ≠ memberId0) selectedMemberIds
  else selectedMemberIds ++ [memberId0].

(** ** The calendar page: dates are toggled one by one *)

Module CalendarBatch.

(** The component state read or written by the functions below. *)
Record State :=
  { orgId : string;
    members : list Member;
    error : string;
    submitting : bool;
    serviceTypeId : string;
    selectedDates : gset string;
    selectedMemberIds : list string }.

Definition setError (e : string) (st : State) : State :=
  {| orgId := orgId st; members := members st; error := e;
     submitting := submitting st; serviceTypeId := serviceTypeId st;
     selectedDates := selectedDates st;
     selectedMemberIds := selectedMemberIds st |}.

Definition setSubmitting (b : bool) (st : State) : State :=
  {| orgId := orgId st; members := members st; error := error st;
     submitting := b; serviceTypeId := serviceTypeId st;
     selectedDates := selectedDates st;
     selectedMemberIds := selectedMemberIds st |}.

(** [toggleDate]: remove the date if it is selected, add it otherwise. *)
Definition toggleDate (date0 : string) (selectedDates0 : gset string)
  : gset string :=
  if bool_decide (date0 ∈ selectedDates0)
  then selectedDates0 ∖ {[date0]}
  else selectedDates0 ∪ {[date0]}.

(** The selection after the user has clicked the dates of [clicks], first
    to last, starting from the selection [selectedDates0]. *)
Definition toggle_all (clicks : list string) (selectedDates0 : gset string)
  : gset string :=
  foldl (λ sel date0, toggleDate date0 sel) selectedDates0 clicks.

(** [Array.from(selectedDates).sort()] *)
Definition dates (selectedDates0 : gset string) : list string :=
  Array_sort (elements selectedDates0).

(** The memoised preview, as a function of its dependency list. *)
Definition previewAssignments (serviceTypeId0 : string)
    (selectedDates0 : gset string) (selectedMemberIds0 : list string)
    (members0 : list Member) : list PreviewAssignment :=
  if falsy serviceTypeId0 || bool_decide (length selectedMemberIds0 = 0)
     || bool_decide (size selectedDates0 = 0)
  then []
  else rotate (dates selectedDates0) selectedMemberIds0 members0.

(** The preview of the current render. *)
Definition preview_of (st : State) : list PreviewAssignment :=
  previewAssignments (serviceTypeId st) (selectedDates st)
    (selectedMemberIds st) (members st).

Definition handleSubmit (reply : InsertReply) (st : State) (w : World)
  : State * World :=
  let st1 := setSubmitting true (setError "" st) in
  if falsy (serviceTypeId st) || bool_decide (length (selectedMemberIds st) = 0)
  then (setSubmitting false (setError "请选择服务类型和至少一个成员" st1), w)
  else if bool_decide (size (selectedDates st) = 0)
  then (setSubmitting false (setError "请至少选择一个日期" st1), w)
  else
    let assignments :=
      to_assignment (orgId st) (serviceTypeId st) <$> preview_of st in
    match createBatchServiceAssignments reply assignments w with
    | (w', None) => (st1, router_push "/services" w')
    | (w', Some message) =>
        (setSubmitting false (setError (or_else message "创建失败") st1), w')
    end.

End CalendarBatch.

(** ** The weekday-rule page: every given weekday of a date range *)

Module WeekdayBatch.

Section HostTimeZone.

Variable LocalTZA : Z.

(** The loop
    [for (let d = new Date(start); d <= end; d.setDate(d.getDate() + 1))].
    [fuel] bounds the number of iterations. *)
Fixpoint generateDates_loop (fuel : nat) (d end_ dayOfWeek : Z)
  : list string :=
  match fuel with
  | O => []
  | S fuel' =>
      if bool_decide (d ≤ end_)%Z then
        (if bool_decide (getDay LocalTZA d = dayOfWeek)
         then [split_T_0 (toISOString d)] else [])
        ++ generateDates_loop fuel'
             (setDate LocalTZA d (getDate LocalTZA d + 1)) end_ dayOfWeek
      else []
  end.

(** One iteration per day from [start] to [end_]; see
    [generateDates_loop_enough] below. *)
Definition days_between (start end_ : Z) : nat :=
  Z.to_nat (Day end_ - Day start + 1).

(** [generateDates(startDate, endDate, dayOfWeek)].  With an invalid date
    on either side the comparison [d <= end] is false at once. *)
Definition generateDates (startDate endDate : string) (dayOfWeek : Z)
  : list string :=
  match Date_parse startDate, Date_parse endDate with
  | Some start, Some end_ =>
      generateDates_loop (days_between start end_) start end_ dayOfWeek
  | _, _ => []
  end.

Definition previewAssignments (serviceTypeId0 : string)
    (startDate endDate : string) (dayOfWeek : Z)
    (selectedMemberIds0 : list string) (members0 : list Member)
  : list PreviewAssignment :=
  if falsy serviceTypeId0 || bool_decide (length selectedMemberIds0 = 0)
  then []
  else rotate (generateDates startDate endDate dayOfWeek)
              selectedMemberIds0 members0.

Record State :=
  { orgId : string;
    members : list Member;
    error : string;
    submitting : bool;
    serviceTypeId : string;
    startDate : string;
    endDate : string;
    dayOfWeek : Z;
    selectedMemberIds : list string;
    showPreview : bool }.

Definition setError (e : string) (st : State) : State :=
  {| orgId := orgId st; members := members st; error := e;
     submitting := submitting st; serviceTypeId := serviceTypeId st;
     startDate := startDate st; endDate := endDate st;
     dayOfWeek := dayOfWeek st; selectedMemberIds := selectedMemberIds st;
     showPreview := showPreview st |}.

Definition setSubmitting (b : bool) (st : State) : State :=
  {| orgId := orgId st; members := members st; error := error st;
     submitting := b; serviceTypeId := serviceTypeId st;
     startDate := startDate st; endDate := endDate st;
     dayOfWeek := dayOfWeek st; selectedMemberIds := selectedMemberIds st;
     showPreview := showPreview st |}.

(** The preview of the current render. *)
Definition preview_of (st : State) : list PreviewAssignment :=
  previewAssignments (serviceTypeId st) (startDate st) (endDate st)
    (dayOfWeek st) (selectedMemberIds st) (members st).

Definition handleSubmit (reply : InsertReply) (st : State) (w : World)
  : State * World :=
  let st1 := setSubmitting true (setError "" st) in
  if falsy (serviceTypeId st) || bool_decide (length (selectedMemberIds st) = 0)
  then (setSubmitting false (setError "请选择服务类型和至少一个成员" st1), w)
  else if bool_decide (length (preview_of st) = 0)
  then (setSubmitting false
          (setError "没有生成任何排班记录，请检查日期范围和星期设置" st1), w)
  else
    let assignments :=
      to_assignment (orgId st) (serviceTypeId st) <$> preview_of st in
    match createBatchServiceAssignments reply assignments w with
    | (w', None) => (st1, router_push "/services" w')
    | (w', Some message) =>
        (setSubmitting false (setError (or_else message "创建失败") st1), w')
    end.

End HostTimeZone.

End WeekdayBatch.

(** ** More of the [Date] object

    The local year and month, [setMonth], and the constructor from
    components, as the calendar page uses them. *)

Section LocalDate.
Local Open Scope Z_scope.

Variable LocalTZA : Z.

Definition getFullYear (t : Z) : Z := YearFromTime (LocalTime LocalTZA t).
Definition getMonth (t : Z) : Z := MonthFromTime (LocalTime LocalTZA t).

(** [d.setMonth(month)]: the day of the month and the time of day are
    kept; a day past the end of the new month carries into the next. *)
Definition setMonth (t month : Z) : Z :=
  let lt := LocalTime LocalTZA t in
  UTC LocalTZA
    (MakeDate (MakeDay (YearFromTime lt) month (DateFromTime lt))
              (TimeWithinDay lt)).

(** [new Date(year, month, day)]: local midnight of that day; a year in
    0..99 stands for 1900 + year. *)
Definition Date_of_components (year month day : Z) : Z :=
  let yr := if bool_decide (0 ≤ year ≤ 99) then 1900 + year else year in
  UTC LocalTZA (MakeDate (MakeDay yr month day) 0).

End LocalDate.

(** ** The initial date range of the weekday page

    [useState(() => new Date().toISOString().split("T")[0])] for the start,
    and the same after [today.setDate(today.getDate() + 28)] for the end.
    Each initialiser reads the clock for itself. *)

Definition initial_startDate (now : Z) : string :=
  split_T_0 (toISOString now).

(** [d.setDate(dt)] on a host whose offset changes: the local date is read
    with the offset in force at [t], [tz_now], and the new local time is
    turned back into a time value with the offset in force at that local
    time, [tz_then].  The two differ when daylight saving starts or ends
    in between; [setDate tz] is [setDate_across tz tz]. *)
Definition setDate_across (tz_now tz_then : Z) (t : Z) (dt : Z) : Z :=
  let lt := LocalTime tz_now t in
  UTC tz_then
    (MakeDate (MakeDay (YearFromTime lt) (MonthFromTime lt) dt)
              (TimeWithinDay lt)).

Definition initial_endDate (tz_now tz_then : Z) (now : Z) : string :=
  split_T_0
    (toISOString
       (setDate_across tz_now tz_then now (getDate tz_now now + 28))).

(** ** The month grid of the calendar page *)

Module CalendarGrid.

Section HostTimeZone.
Local Open Scope Z_scope.

Variable LocalTZA : Z.

(** The outer loop of [generateMonthDates], with [current] the running
    date: the days 1..daysInMonth of the month of [current], then the same
    from [current.setMonth(current.getMonth() + 1)]. *)
Fixpoint generateMonthDates_loop (monthCount : nat) (current : Z)
  : list string :=
  match monthCount with
  | O => []
  | S rest =>
      let year := getFullYear LocalTZA current in
      let month := getMonth LocalTZA current in
      let daysInMonth :=
        getDate LocalTZA (Date_of_components LocalTZA year (month + 1) 0) in
      ((λ day, split_T_0
                 (toISOString (Date_of_components LocalTZA year month day)))
         <$> seqZ 1 daysInMonth)
      ++ generateMonthDates_loop rest
           (setMonth LocalTZA current (getMonth LocalTZA current + 1))
  end.

(** [generateMonthDates(startMonth, monthCount)], for a valid
    [startMonth]. *)
Definition generateMonthDates (startMonth : Z) (monthCount : nat)
  : list string :=
  generateMonthDates_loop monthCount startMonth.

(** [calendarDates]: the months from the first of the current month, with
    [now] the reading of the clock. *)
Definition calendarDates (now : Z) (monthCount : nat) : list string :=
  generateMonthDates (setDate LocalTZA now 1) monthCount.

(** [String(n).padStart(2, "0")] *)
Definition padStart2 (s : string) : string :=
  match String.length s with
  | O => "00"
  | S O => String "0" s
  | _ => s
  end.

(** The key under which a date is grouped:
    [`${d.getFullYear()}-${String(d.getMonth() + 1).padStart(2, "0")}`]
    with [d = new Date(date)]; an invalid date prints as ["NaN-NaN"]. *)
Definition monthKey (date0 : string) : string :=
  match Date_parse date0 with
  | Some d =>
      pretty (getFullYear LocalTZA d) +:+ "-"
        +:+ padStart2 (pretty (getMonth LocalTZA d + 1))
  | None => "NaN-NaN"
  end.

End HostTimeZone.

(** A [Map<string, string[]>] as the list of its entries in insertion
    order. *)
Definition Map_has (k : string) (groups : list (string * list string))
  : bool :=
  bool_decide (k ∈ groups.*1).

(** [groups.get(k)!.push(v)] *)
Fixpoint Map_push (k v : string) (groups : list (string * list string))
  : list (string * list string) :=
  match groups with
  | [] => []
  | (k', vs) :: rest =>
      if bool_decide (k' = k) then (k', vs ++ [v]) :: rest
      else (k', vs) :: Map_push k v rest
  end.

(** One round of the [forEach] of [datesByMonth], for a date with key
    [k]. *)
Definition group_step (key : string → string)
    (groups : list (string * list string)) (date0 : string)
  : list (string * list string) :=
  let k := key date0 in
  let groups := if Map_has k groups then groups else groups ++ [(k, [])] in
  Map_push k date0 groups.

Definition datesByMonth (LocalTZA : Z) (calendarDates0 : list string)
  : list (string * list string) :=
  foldl (group_step (monthKey LocalTZA)) [] calendarDates0.

(** What the groups hold after the dates of [seen] have been filed under
    their keys: distinct keys, and under each key the dates of that key, in
    order, at least one. *)
Definition grouped (key : string → string) (seen : list string)
    (groups : list (string * list string)) : Prop :=
  NoDup groups.*1
  ∧ (∀ k vs, (k, vs) ∈ groups →
       vs ≠ [] ∧ vs = filter (λ d, key d = k) seen)
  ∧ (∀ d, d ∈ seen → key d ∈ groups.*1).

End CalendarGrid.

(** ** The workload table

    The table that [fetchMemberWorkloadStats] of
    [lib/services/serviceScheduling.ts] builds from the two query results
    before it derives the status of each member: one entry per active
    member, then one update per assignment.  (The status compares the
    counts with a floating-point average and is not part of this model.)
    A [Map] is the list of its entries in insertion order. *)

Module Workload.

(** A selected row of [service_assignments]: the member, the date and the
    name of the joined service type, if the join found one. *)
Record Assignment :=
  { member_id : string;
    service_date : string;
    service_type_name : option string }.

Record Entry :=
  { memberId : string;
    memberName : string;
    totalCount : nat;
    serviceTypes : list (string * nat);
    lastServiceDate : option string }.

(** [map.get(k)] *)
Fixpoint Map_get {V} (k : string) (m : list (string * V)) : option V :=
  match m with
  | [] => None
  | (k', v) :: rest => if bool_decide (k' = k) then Some v else Map_get k rest
  end.

(** [map.set(k, v)]: an existing key keeps its place and takes the new
    value, a new key goes to the end. *)
Fixpoint Map_set {V} (k : string) (v : V) (m : list (string * V))
  : list (string * V) :=
  match m with
  | [] => [(k, v)]
  | (k', v') :: rest =>
      if bool_decide (k' = k) then (k', v) :: rest
      else (k', v') :: Map_set k v rest
  end.

(** The entry of a member before any assignment is counted. *)
Definition blank (member : Member) : Entry :=
  {| memberId := id member;
     memberName := name member;
     totalCount := 0;
     serviceTypes := [];
     lastServiceDate := None |}.

(** [!workload.lastServiceDate ||
     assignment.service_date > workload.lastServiceDate] *)
Definition later (date0 : string) (last : option string) : bool :=
  match last with
  | None => true
  | Some l => falsy l || String.ltb l date0
  end.

(** The body of the second [forEach], for the entry [workload] of the
    member of assignment [a]. *)
Definition record (workload : Entry) (a : Assignment) : Entry :=
  let serviceTypeName := or_else (default "" (service_type_name a)) "未知" in
  let currentCount :=
    default 0 (Map_get serviceTypeName (serviceTypes workload)) in
  {| memberId := memberId workload;
     memberName := memberName workload;
     totalCount := S (totalCount workload);
     serviceTypes :=
       Map_set serviceTypeName (currentCount + 1) (serviceTypes workload);
     lastServiceDate :=
       if later (service_date a) (lastServiceDate workload)
       then Some (service_date a)
       else lastServiceDate workload |}.

(** One round of the second [forEach]: assignments of members without an
    entry are skipped. *)
Definition count (table : list (string * Entry)) (a : Assignment)
  : list (string * Entry) :=
  match Map_get (member_id a) table with
  | Some workload => Map_set (member_id a) (record workload a) table
  | None => table
  end.

Definition workloadMap (members : list Member)
    (assignments : list Assignment) : list (string * Entry) :=
  let init :=
    foldl (λ table member, Map_set (id member) (blank member) table)
      [] members in
  foldl count init assignments.

(** The assignments of one member, and the name under which the type of an
    assignment is counted. *)
Definition own (k : string) (assignments : list Assignment)
  : list Assignment :=
  filter (λ a, member_id a = k) assignments.

Definition type_name (a : Assignment) : string :=
  or_else (default "" (service_type_name a)) "未知".

End Workload.

(** ** Sample states *)

Definition no_requests : World :=
  {| service_assignments := []; insert_requests := []; router_pushes := [] |}.

Definition calendar_sample : CalendarBatch.State :=
  {| CalendarBatch.orgId := "org-1";
     CalendarBatch.members := [{| id := "A"; name := "Ann" |}];
     CalendarBatch.error := "";
     CalendarBatch.submitting := false;
     CalendarBatch.serviceTypeId := "sermon";
     CalendarBatch.selectedDates :=
       list_to_set ["2025-01-19"; "2025-01-05"; "2025-01-12"];
     CalendarBatch.selectedMemberIds := ["A"; "B"] |}.

Definition weekday_sample : WeekdayBatch.State :=
  {| WeekdayBatch.orgId := "org-1";
     WeekdayBatch.members := [{| id := "A"; name := "Ann" |}];
     WeekdayBatch.error := "";
     WeekdayBatch.submitting := false;
     WeekdayBatch.serviceTypeId := "sermon";
     WeekdayBatch.startDate := "2025-01-01";
     WeekdayBatch.endDate := "2025-01-31";
     WeekdayBatch.dayOfWeek := 3;
     WeekdayBatch.selectedMemberIds := ["A"; "B"];
     WeekdayBatch.showPreview := true |}.

(** Two active members and the assignments of a month: one of them is of
    a member who is not listed, one has no service type. *)
Definition workload_members : list Member :=
  [{| id := "A"; name := "Ann" |}; {| id := "B"; name := "Bob" |}].

Definition workload_assignments : list Workload.Assignment :=
  [ {| Workload.member_id := "A";
       Workload.service_date := "2025-01-12";
       Workload.service_type_name := Some "sermon" |};
    {| Workload.member_id := "C";
       Workload.service_date := "2025-01-12";
       Workload.service_type_name := Some "music" |};
    {| Workload.member_id := "A";
       Workload.service_date := "2025-01-19";
       Workload.service_type_name := None |};
    {| Workload.member_id := "A";
       Workload.service_date := "2025-01-05";
       Workload.service_type_name := Some "sermon" |} ].

(** The same pages with no roster member checked. *)
Definition calendar_no_roster : CalendarBatch.State :=
  {| CalendarBatch.orgId := "org-1";
     CalendarBatch.members := [{| id := "A"; name := "Ann" |}];
     CalendarBatch.error := "";
     CalendarBatch.submitting := false;
     CalendarBatch.serviceTypeId := "sermon";
     CalendarBatch.selectedDates := list_to_set ["2025-01-05"];
     CalendarBatch.selectedMemberIds := [] |}.

(** The calendar sample with another member directory. *)
Definition calendar_sample_renamed : CalendarBatch.State :=
  {| CalendarBatch.orgId := "org-1";
     CalendarBatch.members := [{| id := "B"; name := "Bob" |}];
     CalendarBatch.error := "";
     CalendarBatch.submitting := false;
     CalendarBatch.serviceTypeId := "sermon";
     CalendarBatch.selectedDates :=
       list_to_set ["2025-01-19"; "2025-01-05"; "2025-01-12"];
     CalendarBatch.selectedMemberIds := ["A"; "B"] |}.

(** * Properties *)

(** ** The round-robin loop *)

Section Rotate.

Context (roster : list string) (members : list Member).

Lemma length_rotate dates0 :
  length (rotate dates0 roster members) = length dates0.
Proof. apply length_imap. Qed.

Lemma rotate_dates dates0 : date <$> rotate dates0 roster members = dates0.
Proof.
  unfold rotate. rewrite fmap_imap.
  rewrite <- (list_fmap_id dates0) at 2. rewrite <- imap_const.
  by apply imap_ext.
Qed.

Lemma rotate_lookup dates0 i :
  rotate dates0 roster members !! i = assign roster members i <$> dates0 !! i.
Proof. apply list_lookup_imap. Qed.

Lemma rotate_snoc dates0 d :
  rotate (dates0 ++ [d]) roster members
  = rotate dates0 roster members ++ [assign roster members (length dates0) d].
Proof. unfold rotate. rewrite imap_app. simpl. by rewrite Nat.add_0_r. Qed.

Lemma roster_index_in_range i :
  roster ≠ [] → i mod length roster < length roster.
Proof.
  intros Hne. apply Nat.mod_upper_bound.
  destruct roster; [done | simpl; lia].
Qed.

Lemma assign_memberId i d :
  roster ≠ [] →
  roster !! (i mod length roster) = Some (memberId (assign roster members i d)).
Proof.
  intros Hne. simpl.
  destruct (nth_lookup_or_length roster (i mod length roster) "") as [H|H];
    [done|].
  pose proof (roster_index_in_range i Hne). lia.
Qed.

Lemma rotate_memberId dates0 i p :
  roster ≠ [] →
  rotate dates0 roster members !! i = Some p →
  roster !! (i mod length roster) = Some (memberId p).
Proof.
  intros Hne. rewrite rotate_lookup.
  intros (d & _ & ->)%fmap_Some. by apply assign_memberId.
Qed.

Lemma rotate_memberName dates0 p :
  p ∈ rotate dates0 roster members →
  memberName p = display_name (find_member members (memberId p)).
Proof.
  intros (i & Hi)%list_elem_of_lookup. rewrite rotate_lookup in Hi.
  by apply fmap_Some in Hi as (d & _ & ->).
Qed.

End Rotate.

(** A member absent from the directory is looked up as [None]. *)
Lemma find_member_absent members m :
  (∀ x, x ∈ members → id x ≠ m) → find_member members m = None.
Proof.
  intros Habs. unfold find_member.
  destruct (List.find _ members) as [x|] eqn:Hfind; [|done].
  apply find_some in Hfind as [Hin Heq].
  apply String.eqb_eq in Heq. apply list_elem_of_In in Hin.
  by destruct (Habs x Hin).
Qed.

Lemma falsy_false s : s ≠ "" → falsy s = false.
Proof. intros Hs. unfold falsy. by apply String.eqb_neq. Qed.

Lemma falsy_true s : falsy s = true ↔ s = "".
Proof. unfold falsy. apply String.eqb_eq. Qed.

(** Checking and unchecking members keeps the roster free of duplicates. *)
Lemma toggleMember_NoDup m roster :
  NoDup roster → NoDup (toggleMember m roster).
Proof.
  intros Hnd. unfold toggleMember. case_bool_decide as Hin.
  - by apply NoDup_filter.
  - apply NoDup_app. split; [done|]. split; [|apply NoDup_singleton].
    intros x Hx ->%list_elem_of_singleton. done.
Qed.

(** ** Counting the turns of each roster member *)

Lemma succ_div_mod (L n j : nat) :
  j < n →
  S L / n + (if decide (j < S L mod n) then 1 else 0)
  = L / n + (if decide (j < L mod n) then 1 else 0)
    + (if decide (L mod n = j) then 1 else 0).
Proof.
  intros Hj.
  assert (Hn : n ≠ 0) by lia.
  pose proof (Nat.div_mod_eq L n) as Hdm.
  pose proof (Nat.mod_upper_bound L n Hn) as Hr.
  destruct (decide (S (L mod n) < n)) as [Hlt|Hge].
  - assert (Hdiv : S L / n = L / n).
    { symmetry. apply (Nat.div_unique _ _ _ (S (L mod n))); lia. }
    assert (Hmod : S L mod n = S (L mod n)).
    { symmetry. apply (Nat.mod_unique _ _ (L / n)); lia. }
    rewrite Hdiv, Hmod. repeat case_decide; lia.
  - assert (Hdiv : S L / n = S (L / n)).
    { symmetry. apply (Nat.div_unique _ _ _ 0); lia. }
    assert (Hmod : S L mod n = 0).
    { symmetry. apply (Nat.mod_unique _ _ (S (L / n))); lia. }
    rewrite Hdiv, Hmod. repeat case_decide; lia.
Qed.

Lemma rotate_occurrences roster members dates0 j m :
  NoDup roster → roster !! j = Some m →
  occurrences m (rotate dates0 roster members)
  = length dates0 / length roster
    + (if decide (j < length dates0 mod length roster) then 1 else 0).
Proof.
  intros Hnd Hj.
  assert (Hjlt : j < length roster) by (by eapply lookup_lt_Some).
  assert (Hne : roster ≠ []) by (intros ->; simpl in Hjlt; lia).
  induction dates0 as [|d dates0 IH] using rev_ind.
  - unfold occurrences. simpl.
    rewrite Nat.Div0.div_0_l, Nat.Div0.mod_0_l; try lia.
    case_decide; lia.
  - rewrite rotate_snoc. unfold occurrences in *.
    rewrite filter_app, !length_app, IH. simpl (length [d]).
    rewrite Nat.add_1_r, (succ_div_mod _ _ j) by done.
    f_equal.
    pose proof (assign_memberId roster members (length dates0) d Hne) as Hk.
    rewrite filter_cons, filter_nil.
    destruct (decide (length dates0 mod length roster = j)) as [Heq|Hneq].
    + rewrite decide_True; [done|]. rewrite Heq in Hk. congruence.
    + rewrite decide_False; [done|]. intros Hm. apply Hneq.
      rewrite Hm in Hk. by eapply NoDup_lookup.
Qed.

(** ** Sorting the selected dates *)

Lemma Array_sort_Sorted l : Sorted String.le (Array_sort l).
Proof. apply (Sorted_merge_sort String.le). Qed.

Lemma Array_sort_Permutation l : Array_sort l ≡ₚ l.
Proof. apply (merge_sort_Permutation String.le). Qed.

(** The sorted array does not depend on the order of enumeration. *)
Lemma Array_sort_perm l1 l2 : l1 ≡ₚ l2 → Array_sort l1 = Array_sort l2.
Proof.
  intros Hp. apply (Sorted_unique String.le); auto using Array_sort_Sorted.
  by rewrite !Array_sort_Permutation.
Qed.

Lemma Array_sort_sorted l : Sorted String.le l → Array_sort l = l.
Proof.
  intros Hs. apply (Sorted_unique String.le); auto using Array_sort_Sorted.
  apply Array_sort_Permutation.
Qed.

Module CalendarFacts.
Import CalendarBatch.

Lemma dates_Permutation sel : dates sel ≡ₚ elements sel.
Proof. apply Array_sort_Permutation. Qed.

Lemma dates_Sorted sel : Sorted String.le (dates sel).
Proof. apply Array_sort_Sorted. Qed.

Lemma dates_NoDup sel : NoDup (dates sel).
Proof. rewrite dates_Permutation. apply NoDup_elements. Qed.

Lemma elem_of_dates sel d : d ∈ dates sel ↔ d ∈ sel.
Proof. rewrite dates_Permutation. apply elem_of_elements. Qed.

Lemma length_dates sel : length (dates sel) = size sel.
Proof. by rewrite dates_Permutation. Qed.

Lemma dates_list_to_set l :
  Sorted String.le l → NoDup l → dates (list_to_set l) = l.
Proof.
  intros Hs Hnd. unfold dates.
  rewrite (Array_sort_perm _ l) by (by apply elements_list_to_set).
  by apply Array_sort_sorted.
Qed.

Lemma dates_inj sel sel' : dates sel = dates sel' → sel = sel'.
Proof.
  intros Heq. apply set_eq. intros d.
  by rewrite <- !elem_of_dates, Heq.
Qed.

(** With a service type and a roster the preview is the round-robin
    loop over the sorted dates (an empty selection sorts to []). *)
Lemma calendar_preview_chosen stid sel roster members0 :
  stid ≠ "" → roster ≠ [] →
  previewAssignments stid sel roster members0
  = rotate (dates sel) roster members0.
Proof.
  intros Hs Hr. unfold previewAssignments.
  rewrite (falsy_false _ Hs), bool_decide_eq_false_2
    by (by rewrite length_zero_iff_nil).
  simpl. case_bool_decide as Hsz; [|done].
  rewrite <- length_dates in Hsz.
  by apply length_zero_iff_nil in Hsz as ->.
Qed.

(** Without a service type there is no preview. *)
Lemma preview_no_service_type sel roster members0 :
  previewAssignments "" sel roster members0 = [].
Proof. done. Qed.

Lemma toggleDate_fresh d sel : d ∉ sel → toggleDate d sel = sel ∪ {[d]}.
Proof. intros Hd. unfold toggleDate. by rewrite bool_decide_eq_false_2. Qed.

Lemma toggle_all_fresh clicks sel :
  NoDup clicks → (∀ d, d ∈ clicks → d ∉ sel) →
  toggle_all clicks sel = sel ∪ list_to_set clicks.
Proof.
  unfold toggle_all. intros Hnd. revert sel.
  induction Hnd as [|d clicks Hd Hnd IH]; intros sel Hfresh; simpl.
  - set_solver.
  - rewrite toggleDate_fresh by (apply Hfresh; left).
    rewrite IH; [set_solver|].
    intros d' Hd'. pose proof (Hfresh d'). set_solver.
Qed.

Lemma toggle_all_distinct clicks :
  NoDup clicks → toggle_all clicks ∅ = list_to_set clicks.
Proof. intros Hnd. rewrite toggle_all_fresh; set_solver. Qed.

(** The selection does not depend on the order of the clicks. *)
Lemma toggle_all_perm clicks clicks' :
  NoDup clicks → clicks' ≡ₚ clicks →
  toggle_all clicks' ∅ = toggle_all clicks ∅.
Proof.
  intros Hnd Hperm.
  rewrite !toggle_all_distinct; [|done|by rewrite Hperm].
  apply set_eq. intros d. by rewrite !elem_of_list_to_set, Hperm.
Qed.

End CalendarFacts.

Module WeekdayFacts.
Import WeekdayBatch.

Lemma weekday_preview_chosen tz stid s e w roster members0 :
  stid ≠ "" → roster ≠ [] →
  previewAssignments tz stid s e w roster members0
  = rotate (generateDates tz s e w) roster members0.
Proof.
  intros Hs Hr. unfold previewAssignments.
  by rewrite (falsy_false _ Hs), bool_decide_eq_false_2
    by (by rewrite length_zero_iff_nil).
Qed.

End WeekdayFacts.

(** ** The preview of both pages *)

(** C1, as the code has it.  With a service type chosen and a non-empty
    roster, the preview has exactly one entry per date of the date set, in
    the order of the date set, and the entry at index [i] is assigned to
    [roster[i mod len(roster)]].  On the calendar page the date set is the
    sorted selection (a sorted duplicate-free list is its own date set); on
    the weekday page it is the list of generated dates.  Without a service
    type the preview is empty, see [preview_empty_without_service_type]. *)
Theorem preview_follows_date_set_and_roster
    (stid : string) (roster : list string) (members0 : list Member) :
  stid ≠ "" → roster ≠ [] →
  (∀ dateSet : list string,
     dateSet ≠ [] → Sorted String.le dateSet → NoDup dateSet →
     let out := CalendarBatch.previewAssignments stid (list_to_set dateSet)
                  roster members0 in
     date <$> out = dateSet ∧
     ∀ i p, out !! i = Some p →
            roster !! (i mod length roster) = Some (memberId p))
  ∧ (∀ selectedDates0 : gset string,
     let out := CalendarBatch.previewAssignments stid selectedDates0
                  roster members0 in
     date <$> out = CalendarBatch.dates selectedDates0 ∧
     ∀ i p, out !! i = Some p →
            roster !! (i mod length roster) = Some (memberId p))
  ∧ (∀ LocalTZA startDate endDate dayOfWeek,
     let out := WeekdayBatch.previewAssignments LocalTZA stid startDate
                  endDate dayOfWeek roster members0 in
     date <$> out
       = WeekdayBatch.generateDates LocalTZA startDate endDate dayOfWeek ∧
     ∀ i p, out !! i = Some p →
            roster !! (i mod length roster) = Some (memberId p)).
Proof.
  intros Hs Hr. split; [|split].
  - intros dateSet _ Hsorted Hnd. simpl.
    rewrite CalendarFacts.calendar_preview_chosen,
      CalendarFacts.dates_list_to_set by done.
    split; [apply rotate_dates|]. intros i p. by apply rotate_memberId.
  - intros sel. simpl. rewrite CalendarFacts.calendar_preview_chosen by done.
    split; [apply rotate_dates|]. intros i p. by apply rotate_memberId.
  - intros tz s e w. simpl. rewrite WeekdayFacts.weekday_preview_chosen by done.
    split; [apply rotate_dates|]. intros i p. by apply rotate_memberId.
Qed.

Lemma preview_follows_date_set_and_roster_witness :
  date <$> CalendarBatch.previewAssignments "sermon"
             (list_to_set ["2025-01-05"; "2025-01-12"; "2025-01-19"])
             ["A"; "B"] []
  = ["2025-01-05"; "2025-01-12"; "2025-01-19"].
Proof.
  refine (proj1 (proj1 (preview_follows_date_set_and_roster
                          "sermon" ["A"; "B"] [] _ _)
                   ["2025-01-05"; "2025-01-12"; "2025-01-19"] _ _ _)).
  - discriminate.
  - discriminate.
  - discriminate.
  - compute_done.
  - compute_done.
Defined.

(** C1, as the specification states it, fails: with no service type
    chosen the preview of a non-empty sorted date set and a non-empty
    roster is empty, on both pages. *)
Lemma preview_empty_without_service_type :
  ["2025-01-05"; "2025-01-12"; "2025-01-19"] ≠ []
  ∧ Sorted String.le ["2025-01-05"; "2025-01-12"; "2025-01-19"]
  ∧ ["A"; "B"] ≠ []
  ∧ date <$> CalendarBatch.previewAssignments ""
               (list_to_set ["2025-01-05"; "2025-01-12"; "2025-01-19"])
               ["A"; "B"] []
    ≠ ["2025-01-05"; "2025-01-12"; "2025-01-19"]
  ∧ length (WeekdayBatch.previewAssignments 0 "" "2025-01-01" "2025-01-31" 3
              ["A"; "B"] [])
    ≠ length (WeekdayBatch.generateDates 0 "2025-01-01" "2025-01-31" 3).
Proof.
  split; [discriminate|]. split; [compute_done|].
  split; [discriminate|]. split; [discriminate|].
  vm_compute. discriminate.
Qed.

(** The scenario of the specification. *)
Example rotation_scenario :
  CalendarBatch.previewAssignments "sermon"
    (list_to_set ["2025-01-05"; "2025-01-12"; "2025-01-19"]) ["A"; "B"]
    [{| id := "A"; name := "Ann" |}; {| id := "B"; name := "Bob" |}]
  = [{| date := "2025-01-05"; memberId := "A"; memberName := "Ann" |};
     {| date := "2025-01-12"; memberId := "B"; memberName := "Bob" |};
     {| date := "2025-01-19"; memberId := "A"; memberName := "Ann" |}].
Proof. vm_compute. reflexivity. Qed.

Lemma rotate_balanced roster members0 dates0 :
  NoDup roster →
  balanced roster (length dates0) (rotate dates0 roster members0).
Proof.
  intros Hnd.
  pose proof (λ j m, rotate_occurrences roster members0 dates0 j m Hnd) as Hocc.
  split; [|split]; [| |done].
  - intros Hmod m (j & Hj)%list_elem_of_lookup.
    rewrite (Hocc j m Hj), Hmod. rewrite decide_False by lia. lia.
  - intros Hpos j k mj mk Hj Hk Hlt Hge.
    rewrite (Hocc j mj Hj), (Hocc k mk Hk).
    rewrite decide_True, decide_False by lia. lia.
Qed.

(** C2, as the code has it.  With a service type chosen and a non-empty
    roster of distinct member ids, the turns in the preview are balanced:
    when the number of dates is a multiple of the roster length every
    roster member appears exactly [len(dateSet) / len(roster)] times, and
    when the remainder is [r > 0] each of the first [r] roster members
    appears exactly once more than each of the others. *)
Theorem preview_turns_balanced
    (stid : string) (roster : list string) (members0 : list Member) :
  stid ≠ "" → roster ≠ [] → NoDup roster →
  (∀ selectedDates0 : gset string,
     balanced roster (size selectedDates0)
       (CalendarBatch.previewAssignments stid selectedDates0 roster members0))
  ∧ (∀ LocalTZA startDate endDate dayOfWeek,
     balanced roster
       (length (WeekdayBatch.generateDates LocalTZA startDate endDate
                  dayOfWeek))
       (WeekdayBatch.previewAssignments LocalTZA stid startDate endDate
          dayOfWeek roster members0)).
Proof.
  intros Hs Hr Hnd. split.
  - intros sel. rewrite CalendarFacts.calendar_preview_chosen by done.
    rewrite <- CalendarFacts.length_dates. by apply rotate_balanced.
  - intros tz s e w. rewrite WeekdayFacts.weekday_preview_chosen by done.
    by apply rotate_balanced.
Qed.

Lemma preview_turns_balanced_witness :
  balanced ["A"; "B"] (size (list_to_set ["2025-01-05"; "2025-01-12";
                                           "2025-01-19"] : gset string))
    (CalendarBatch.previewAssignments "sermon"
       (list_to_set ["2025-01-05"; "2025-01-12"; "2025-01-19"]) ["A"; "B"] []).
Proof.
  refine (proj1 (preview_turns_balanced "sermon" ["A"; "B"] [] _ _ _) _).
  - discriminate.
  - discriminate.
  - compute_done.
Defined.

(** C2, as the specification states it, fails: with no service type
    chosen, two dates and a roster of two distinct members give a preview
    in which nobody has a turn, where the claim asks for one turn each. *)
Lemma no_turns_without_service_type :
  size (list_to_set ["2025-01-05"; "2025-01-12"] : gset string) = 2
  ∧ NoDup ["A"; "B"]
  ∧ 2 mod length ["A"; "B"] = 0
  ∧ 2 / length ["A"; "B"] = 1
  ∧ occurrences "A"
      (CalendarBatch.previewAssignments ""
         (list_to_set ["2025-01-05"; "2025-01-12"]) ["A"; "B"] []) = 0
  ∧ ¬ balanced ["A"; "B"] 2
        (CalendarBatch.previewAssignments ""
           (list_to_set ["2025-01-05"; "2025-01-12"]) ["A"; "B"] []).
Proof.
  split; [compute_done|]. split; [compute_done|].
  split; [reflexivity|]. split; [reflexivity|]. split; [reflexivity|].
  intros (Heven & _). specialize (Heven eq_refl "A").
  assert (Hin : "A" ∈ ["A"; "B"]) by compute_done.
  specialize (Heven Hin). vm_compute in Heven. discriminate.
Qed.

(** C4, as the code has it.  With a service type chosen and a non-empty
    roster, a roster member id that the member directory does not hold does
    not shorten the preview: it still has one entry per date, and every
    entry of that id carries the placeholder name. *)
Theorem unknown_member_gets_placeholder
    (stid : string) (roster : list string) (members0 : list Member)
    (m : string) :
  stid ≠ "" → roster ≠ [] → m ∈ roster →
  (∀ x, x ∈ members0 → id x ≠ m) →
  (∀ selectedDates0 : gset string,
     let out := CalendarBatch.previewAssignments stid selectedDates0
                  roster members0 in
     length out = size selectedDates0 ∧
     date <$> out = CalendarBatch.dates selectedDates0 ∧
     ∀ p, p ∈ out → memberId p = m → memberName p = "未知")
  ∧ (∀ LocalTZA startDate endDate dayOfWeek,
     let out := WeekdayBatch.previewAssignments LocalTZA stid startDate
                  endDate dayOfWeek roster members0 in
     date <$> out
       = WeekdayBatch.generateDates LocalTZA startDate endDate dayOfWeek ∧
     ∀ p, p ∈ out → memberId p = m → memberName p = "未知").
Proof.
  intros Hs Hr _ Habs. split.
  - intros sel. simpl. rewrite CalendarFacts.calendar_preview_chosen by done.
    split; [by rewrite length_rotate, CalendarFacts.length_dates|].
    split; [apply rotate_dates|].
    intros p Hp <-. rewrite (rotate_memberName _ _ _ _ Hp).
    by rewrite find_member_absent.
  - intros tz s e w. simpl. rewrite WeekdayFacts.weekday_preview_chosen by done.
    split; [apply rotate_dates|].
    intros p Hp <-. rewrite (rotate_memberName _ _ _ _ Hp).
    by rewrite find_member_absent.
Qed.

Lemma unknown_member_gets_placeholder_witness :
  memberName <$> CalendarBatch.previewAssignments "sermon"
    (list_to_set ["2025-01-05"; "2025-01-12"]) ["A"; "ghost"]
    [{| id := "A"; name := "Ann" |}]
  = ["Ann"; "未知"]
  ∧ ∀ p, p ∈ CalendarBatch.previewAssignments "sermon"
               (list_to_set ["2025-01-05"; "2025-01-12"]) ["A"; "ghost"]
               [{| id := "A"; name := "Ann" |}] →
         memberId p = "ghost" → memberName p = "未知".
Proof.
  split; [vm_compute; reflexivity|].
  refine (proj2 (proj2 (proj1 (unknown_member_gets_placeholder "sermon"
            ["A"; "ghost"] [{| id := "A"; name := "Ann" |}] "ghost" _ _ _ _)
            (list_to_set ["2025-01-05"; "2025-01-12"])))).
  - discriminate.
  - discriminate.
  - compute_done.
  - intros x Hx. apply list_elem_of_singleton in Hx as ->. discriminate.
Defined.

(** C4, as the specification states it, fails: with no service type
    chosen, a roster holding an id unknown to the directory gives an empty
    preview for a non-empty date set, not a full-length one. *)
Lemma unknown_member_without_service_type :
  ["ghost"] ≠ []
  ∧ find_member [] "ghost" = None
  ∧ size (list_to_set ["2025-01-05"; "2025-01-12"] : gset string) = 2
  ∧ length (CalendarBatch.previewAssignments ""
              (list_to_set ["2025-01-05"; "2025-01-12"]) ["ghost"] []) = 0.
Proof.
  split; [discriminate|]. split; [reflexivity|].
  split; [compute_done|reflexivity].
Qed.

(** C5.  An empty date set gives the empty preview whatever the roster and
    the member directory, and an empty roster gives the empty preview
    whatever the date set and the member directory; the result is an
    ordinary empty list.  On the weekday page the date set is the list of
    generated dates. *)
Theorem empty_inputs_give_empty_preview
    (stid : string) (roster : list string) (members0 : list Member) :
  CalendarBatch.previewAssignments stid ∅ roster members0 = []
  ∧ (∀ selectedDates0,
       CalendarBatch.previewAssignments stid selectedDates0 [] members0 = [])
  ∧ (∀ LocalTZA startDate endDate dayOfWeek,
       WeekdayBatch.previewAssignments LocalTZA stid startDate endDate
         dayOfWeek [] members0 = [])
  ∧ (∀ LocalTZA startDate endDate dayOfWeek,
       WeekdayBatch.generateDates LocalTZA startDate endDate dayOfWeek = [] →
       WeekdayBatch.previewAssignments LocalTZA stid startDate endDate
         dayOfWeek roster members0 = []).
Proof.
  split; [|split; [|split]].
  - unfold CalendarBatch.previewAssignments.
    rewrite size_empty. simpl. by rewrite !orb_true_r.
  - intros sel. unfold CalendarBatch.previewAssignments. simpl.
    by rewrite orb_true_r.
  - intros tz s e w. unfold WeekdayBatch.previewAssignments. simpl.
    by rewrite orb_true_r.
  - intros tz s e w Hempty. unfold WeekdayBatch.previewAssignments.
    rewrite Hempty. by destruct (_ || _).
Qed.

Lemma empty_inputs_give_empty_preview_witness :
  WeekdayBatch.previewAssignments 0 "sermon" "2025-01-31" "2025-01-01" 3
    ["A"; "B"] [] = [].
Proof.
  refine (proj2 (proj2 (proj2 (empty_inputs_give_empty_preview
            "sermon" ["A"; "B"] []))) 0%Z "2025-01-31" "2025-01-01" 3%Z _).
  vm_compute. reflexivity.
Defined.

(** ** Commit *)

(** The rows built from a preview do not mention the display names. *)
Lemma to_assignment_rotate o stid dates0 roster members0 :
  to_assignment o stid <$> rotate dates0 roster members0
  = imap (λ i d, {| org_id := o; service_type_id := stid;
                    member_id := nth (i mod length roster) roster "";
                    service_date := d; status := "scheduled" |}) dates0.
Proof. unfold rotate. by rewrite fmap_imap. Qed.

Lemma to_assignment_members o stid dates0 roster members1 members2 :
  to_assignment o stid <$> rotate dates0 roster members1
  = to_assignment o stid <$> rotate dates0 roster members2.
Proof. by rewrite !to_assignment_rotate. Qed.

Lemma length_rotate_members dates0 roster members1 members2 :
  length (rotate dates0 roster members1)
  = length (rotate dates0 roster members2).
Proof. by rewrite !length_rotate. Qed.

Module CalendarCommit.
Import CalendarBatch.

Lemma calendar_preview_nonempty_guards st :
  preview_of st ≠ [] →
  falsy (serviceTypeId st) || bool_decide (length (selectedMemberIds st) = 0)
    = false
  ∧ bool_decide (size (selectedDates st) = 0) = false.
Proof.
  unfold preview_of, previewAssignments. intros Hne.
  destruct (falsy _ || bool_decide (length _ = 0)); [done|].
  by destruct (bool_decide (size _ = 0)).
Qed.

(** The outside world after a commit that passes validation. *)
Lemma calendar_handleSubmit_valid reply st w :
  falsy (serviceTypeId st) || bool_decide (length (selectedMemberIds st) = 0)
    = false →
  bool_decide (size (selectedDates st) = 0) = false →
  (handleSubmit reply st w).2
  = match createBatchServiceAssignments reply
            (to_assignment (orgId st) (serviceTypeId st) <$> preview_of st) w
    with
    | (w', None) => router_push "/services" w'
    | (w', Some _) => w'
    end.
Proof.
  intros H1 H2. unfold handleSubmit. rewrite H1, H2.
  by destruct reply.
Qed.

Lemma calendar_handleSubmit_invalid reply st w :
  falsy (serviceTypeId st) || bool_decide (length (selectedMemberIds st) = 0)
    || bool_decide (size (selectedDates st) = 0) = true →
  (handleSubmit reply st w).2 = w
  ∧ submitting (handleSubmit reply st w).1 = false
  ∧ (error (handleSubmit reply st w).1 = "请选择服务类型和至少一个成员"
     ∨ error (handleSubmit reply st w).1 = "请至少选择一个日期").
Proof.
  intros H. unfold handleSubmit.
  destruct (falsy _ || bool_decide (length _ = 0)); simpl in *; [auto|].
  rewrite H. auto.
Qed.

End CalendarCommit.

Module WeekdayCommit.
Section HostTimeZone.
Import WeekdayBatch.

Variable LocalTZA : Z.

Lemma weekday_preview_nonempty_guards st :
  preview_of LocalTZA st ≠ [] →
  falsy (serviceTypeId st) || bool_decide (length (selectedMemberIds st) = 0)
    = false
  ∧ bool_decide (length (preview_of LocalTZA st) = 0) = false.
Proof.
  intros Hne. split.
  - unfold preview_of, previewAssignments in Hne.
    by destruct (falsy _ || bool_decide (length _ = 0)).
  - apply bool_decide_eq_false_2. by rewrite length_zero_iff_nil.
Qed.

Lemma weekday_handleSubmit_valid reply st w :
  falsy (serviceTypeId st) || bool_decide (length (selectedMemberIds st) = 0)
    = false →
  bool_decide (length (preview_of LocalTZA st) = 0) = false →
  (handleSubmit LocalTZA reply st w).2
  = match createBatchServiceAssignments reply
            (to_assignment (orgId st) (serviceTypeId st)
               <$> preview_of LocalTZA st) w
    with
    | (w', None) => router_push "/services" w'
    | (w', Some _) => w'
    end.
Proof.
  intros H1 H2. unfold handleSubmit. rewrite H1, H2.
  by destruct reply.
Qed.

Lemma weekday_handleSubmit_invalid reply st w :
  falsy (serviceTypeId st) || bool_decide (length (selectedMemberIds st) = 0)
    || bool_decide (length (preview_of LocalTZA st) = 0) = true →
  (handleSubmit LocalTZA reply st w).2 = w
  ∧ submitting (handleSubmit LocalTZA reply st w).1 = false
  ∧ (error (handleSubmit LocalTZA reply st w).1
       = "请选择服务类型和至少一个成员"
     ∨ error (handleSubmit LocalTZA reply st w).1
       = "没有生成任何排班记录，请检查日期范围和星期设置").
Proof.
  intros H. unfold handleSubmit.
  destruct (falsy _ || bool_decide (length _ = 0)); simpl in *; [auto|].
  rewrite H. auto.
Qed.

End HostTimeZone.
End WeekdayCommit.

(** What an insert request does to the outside world. *)
Lemma createBatch_requests reply rows w :
  insert_requests (createBatchServiceAssignments reply rows w).1
  = insert_requests w ++ [rows].
Proof. by destruct reply. Qed.

Lemma commit_world_requests reply rows w :
  insert_requests
    (match createBatchServiceAssignments reply rows w with
     | (w', None) => router_push "/services" w'
     | (w', Some _) => w'
     end)
  = insert_requests w ++ [rows].
Proof. by destruct reply. Qed.

Lemma commit_world_table reply rows w :
  service_assignments
    (match createBatchServiceAssignments reply rows w with
     | (w', None) => router_push "/services" w'
     | (w', Some _) => w'
     end)
  = match reply with
    | Inserted => service_assignments w ++ rows
    | InsertError _ => service_assignments w
    end.
Proof. by destruct reply. Qed.

(** C6.  Committing a non-empty preview sends exactly one bulk insert,
    holding one row per preview entry in the order of the preview; each
    row carries the page's organisation id and service type id, the
    member id and date of its preview entry, and the status "scheduled".
    When the store accepts the insert these rows are appended to the
    table; when it rejects it the table is unchanged. *)
Theorem commit_sends_one_row_per_entry :
  (∀ reply st w,
     let preview :=
       CalendarBatch.previewAssignments (CalendarBatch.serviceTypeId st)
         (CalendarBatch.selectedDates st) (CalendarBatch.selectedMemberIds st)
         (CalendarBatch.members st) in
     let rows :=
       (λ p, {| org_id := CalendarBatch.orgId st;
                service_type_id := CalendarBatch.serviceTypeId st;
                member_id := memberId p;
                service_date := date p;
                status := "scheduled" |}) <$> preview in
     let w' := (CalendarBatch.handleSubmit reply st w).2 in
     preview ≠ [] →
     insert_requests w' = insert_requests w ++ [rows]
     ∧ length rows = length preview
     ∧ service_assignments w'
       = match reply with
         | Inserted => service_assignments w ++ rows
         | InsertError _ => service_assignments w
         end)
  ∧ (∀ LocalTZA reply st w,
     let preview :=
       WeekdayBatch.previewAssignments LocalTZA (WeekdayBatch.serviceTypeId st)
         (WeekdayBatch.startDate st) (WeekdayBatch.endDate st)
         (WeekdayBatch.dayOfWeek st) (WeekdayBatch.selectedMemberIds st)
         (WeekdayBatch.members st) in
     let rows :=
       (λ p, {| org_id := WeekdayBatch.orgId st;
                service_type_id := WeekdayBatch.serviceTypeId st;
                member_id := memberId p;
                service_date := date p;
                status := "scheduled" |}) <$> preview in
     let w' := (WeekdayBatch.handleSubmit LocalTZA reply st w).2 in
     preview ≠ [] →
     insert_requests w' = insert_requests w ++ [rows]
     ∧ length rows = length preview
     ∧ service_assignments w'
       = match reply with
         | Inserted => service_assignments w ++ rows
         | InsertError _ => service_assignments w
         end).
Proof.
  split.
  - intros reply st w preview rows w' Hne. subst w'.
    destruct (CalendarCommit.calendar_preview_nonempty_guards st Hne)
      as [H1 H2].
    rewrite (CalendarCommit.calendar_handleSubmit_valid reply st w H1 H2).
    split; [apply commit_world_requests|].
    split; [apply length_fmap|apply commit_world_table].
  - intros tz reply st w preview rows w' Hne. subst w'.
    destruct (WeekdayCommit.weekday_preview_nonempty_guards tz st Hne)
      as [H1 H2].
    rewrite (WeekdayCommit.weekday_handleSubmit_valid tz reply st w H1 H2).
    split; [apply commit_world_requests|].
    split; [apply length_fmap|apply commit_world_table].
Qed.

Lemma commit_sends_one_row_per_entry_witness :
  insert_requests
    (CalendarBatch.handleSubmit Inserted calendar_sample no_requests).2
  = [[ {| org_id := "org-1"; service_type_id := "sermon"; member_id := "A";
          service_date := "2025-01-05"; status := "scheduled" |};
       {| org_id := "org-1"; service_type_id := "sermon"; member_id := "B";
          service_date := "2025-01-12"; status := "scheduled" |};
       {| org_id := "org-1"; service_type_id := "sermon"; member_id := "A";
          service_date := "2025-01-19"; status := "scheduled" |} ]].
Proof.
  rewrite (proj1 (proj1 commit_sends_one_row_per_entry
                    Inserted calendar_sample no_requests
                    ltac:(vm_compute; discriminate))).
  vm_compute. reflexivity.
Defined.

(** A whole commit on the weekday page, on a host in China Standard Time:
    accepted by the store, and rejected with a message. *)
Example weekday_commit_accepted :
  WeekdayBatch.handleSubmit 28800000 Inserted weekday_sample no_requests
  = (WeekdayBatch.setSubmitting true weekday_sample,
     let rows :=
       [ {| org_id := "org-1"; service_type_id := "sermon"; member_id := "A";
            service_date := "2025-01-01"; status := "scheduled" |};
         {| org_id := "org-1"; service_type_id := "sermon"; member_id := "B";
            service_date := "2025-01-08"; status := "scheduled" |};
         {| org_id := "org-1"; service_type_id := "sermon"; member_id := "A";
            service_date := "2025-01-15"; status := "scheduled" |};
         {| org_id := "org-1"; service_type_id := "sermon"; member_id := "B";
            service_date := "2025-01-22"; status := "scheduled" |};
         {| org_id := "org-1"; service_type_id := "sermon"; member_id := "A";
            service_date := "2025-01-29"; status := "scheduled" |} ] in
     {| service_assignments := rows;
        insert_requests := [rows];
        router_pushes := ["/services"] |}).
Proof. vm_compute. reflexivity. Qed.

Example weekday_commit_rejected :
  (WeekdayBatch.handleSubmit 28800000 (InsertError "permission denied")
     weekday_sample no_requests).1
  = WeekdayBatch.setError "permission denied" weekday_sample
  ∧ service_assignments
      (WeekdayBatch.handleSubmit 28800000 (InsertError "permission denied")
         weekday_sample no_requests).2 = [].
Proof. split; vm_compute; reflexivity. Qed.

(** C7.  When no service type is chosen, or the roster is empty, or the
    date set is empty, [handleSubmit] leaves the outside world as it was
    (no bulk insert is sent, no row is created, no navigation), stores a
    validation message and clears the submitting flag.  On the weekday
    page the date set is the list of generated dates. *)
Theorem commit_blocked_by_validation :
  (∀ reply st w,
     CalendarBatch.serviceTypeId st = ""
     ∨ CalendarBatch.selectedMemberIds st = []
     ∨ CalendarBatch.selectedDates st = ∅ →
     (CalendarBatch.handleSubmit reply st w).2 = w
     ∧ CalendarBatch.error (CalendarBatch.handleSubmit reply st w).1 ≠ ""
     ∧ CalendarBatch.submitting (CalendarBatch.handleSubmit reply st w).1
       = false)
  ∧ (∀ LocalTZA reply st w,
     WeekdayBatch.serviceTypeId st = ""
     ∨ WeekdayBatch.selectedMemberIds st = []
     ∨ WeekdayBatch.generateDates LocalTZA (WeekdayBatch.startDate st)
         (WeekdayBatch.endDate st) (WeekdayBatch.dayOfWeek st) = [] →
     (WeekdayBatch.handleSubmit LocalTZA reply st w).2 = w
     ∧ WeekdayBatch.error (WeekdayBatch.handleSubmit LocalTZA reply st w).1
       ≠ ""
     ∧ WeekdayBatch.submitting
         (WeekdayBatch.handleSubmit LocalTZA reply st w).1 = false).
Proof.
  split.
  - intros reply st w Hbad.
    destruct (CalendarCommit.calendar_handleSubmit_invalid reply st w)
      as (Hw & Hsub & Herr).
    { destruct Hbad as [Hs | [Hr | Hd]].
      - apply falsy_true in Hs. by rewrite Hs.
      - rewrite Hr. simpl. by rewrite orb_true_r.
      - rewrite Hd, size_empty. simpl. by rewrite orb_true_r. }
    split; [done|]. split; [|done].
    destruct Herr as [-> | ->]; discriminate.
  - intros tz reply st w Hbad.
    destruct (WeekdayCommit.weekday_handleSubmit_invalid tz reply st w)
      as (Hw & Hsub & Herr).
    { destruct Hbad as [Hs | [Hr | Hd]].
      - apply falsy_true in Hs. by rewrite Hs.
      - rewrite Hr. simpl. by rewrite orb_true_r.
      - unfold WeekdayBatch.preview_of, WeekdayBatch.previewAssignments.
        rewrite Hd.
        destruct (falsy _ || bool_decide (length _ = 0)); reflexivity. }
    split; [done|]. split; [|done].
    destruct Herr as [-> | ->]; discriminate.
Qed.

Lemma commit_blocked_by_validation_witness :
  (CalendarBatch.handleSubmit Inserted calendar_no_roster no_requests).2
  = no_requests.
Proof.
  refine (proj1 (proj1 commit_blocked_by_validation
                   Inserted calendar_no_roster no_requests _)).
  right. left. reflexivity.
Defined.

(** C10.  The outside world after [handleSubmit] (the bulk inserts sent,
    the table, the navigation) does not depend on the member directory:
    two page states with the same organisation id, service type id, date
    parameters and roster leave the same world, whatever their member
    lists are. *)
Theorem commit_independent_of_member_names :
  (∀ reply st1 st2 w,
     CalendarBatch.orgId st1 = CalendarBatch.orgId st2 →
     CalendarBatch.serviceTypeId st1 = CalendarBatch.serviceTypeId st2 →
     CalendarBatch.selectedDates st1 = CalendarBatch.selectedDates st2 →
     CalendarBatch.selectedMemberIds st1 = CalendarBatch.selectedMemberIds st2 →
     (CalendarBatch.handleSubmit reply st1 w).2
     = (CalendarBatch.handleSubmit reply st2 w).2)
  ∧ (∀ LocalTZA reply st1 st2 w,
     WeekdayBatch.orgId st1 = WeekdayBatch.orgId st2 →
     WeekdayBatch.serviceTypeId st1 = WeekdayBatch.serviceTypeId st2 →
     WeekdayBatch.startDate st1 = WeekdayBatch.startDate st2 →
     WeekdayBatch.endDate st1 = WeekdayBatch.endDate st2 →
     WeekdayBatch.dayOfWeek st1 = WeekdayBatch.dayOfWeek st2 →
     WeekdayBatch.selectedMemberIds st1 = WeekdayBatch.selectedMemberIds st2 →
     (WeekdayBatch.handleSubmit LocalTZA reply st1 w).2
     = (WeekdayBatch.handleSubmit LocalTZA reply st2 w).2).
Proof.
  split.
  - intros reply [o1 m1 e1 b1 s1 d1 r1] [o2 m2 e2 b2 s2 d2 r2] w.
    simpl. intros <- <- <- <-.
    unfold CalendarBatch.handleSubmit, CalendarBatch.preview_of,
      CalendarBatch.previewAssignments. simpl.
    destruct (falsy s1 || bool_decide (length r1 = 0)); simpl; [done|].
    destruct (bool_decide (size d1 = 0)); [done|].
    rewrite (to_assignment_members _ _ _ _ m1 m2). by destruct reply.
  - intros tz reply [o1 m1 e1 b1 s1 sd1 ed1 w1 r1 p1]
      [o2 m2 e2 b2 s2 sd2 ed2 w2 r2 p2] w.
    simpl. intros <- <- <- <- <- <-.
    unfold WeekdayBatch.handleSubmit, WeekdayBatch.preview_of,
      WeekdayBatch.previewAssignments. simpl.
    destruct (falsy s1 || bool_decide (length r1 = 0)); simpl; [done|].
    rewrite (length_rotate_members _ _ m1 m2).
    destruct (bool_decide (length _ = 0)); [done|].
    rewrite (to_assignment_members _ _ _ _ m1 m2). by destruct reply.
Qed.

Lemma commit_independent_of_member_names_witness :
  (CalendarBatch.handleSubmit Inserted calendar_sample no_requests).2
  = (CalendarBatch.handleSubmit Inserted calendar_sample_renamed
       no_requests).2.
Proof.
  refine (proj1 commit_independent_of_member_names
            Inserted calendar_sample calendar_sample_renamed no_requests
            _ _ _ _); reflexivity.
Defined.

(** ** The date set of the calendar page *)

(** C8.  The date set built from the selection holds exactly the selected
    dates, in ascending order and without duplicates, whatever order the
    selection is enumerated in.  When the user clicks distinct dates
    starting from the empty selection, the date set holds exactly the
    clicked dates and is the same for every order of the clicks; clicking
    2025-03-05 and then 2025-03-02 gives [2025-03-02, 2025-03-05]. *)
Theorem date_set_sorted_whatever_the_click_order :
  (∀ selectedDates0 : gset string,
     Sorted String.le (CalendarBatch.dates selectedDates0)
     ∧ NoDup (CalendarBatch.dates selectedDates0)
     ∧ (∀ d, d ∈ CalendarBatch.dates selectedDates0 ↔ d ∈ selectedDates0)
     ∧ (∀ l, l ≡ₚ elements selectedDates0 →
             Array_sort l = CalendarBatch.dates selectedDates0))
  ∧ (∀ clicks : list string,
     NoDup clicks →
     (∀ d, d ∈ CalendarBatch.dates (CalendarBatch.toggle_all clicks ∅)
           ↔ d ∈ clicks)
     ∧ (∀ clicks', clicks' ≡ₚ clicks →
          CalendarBatch.dates (CalendarBatch.toggle_all clicks' ∅)
          = CalendarBatch.dates (CalendarBatch.toggle_all clicks ∅)))
  ∧ CalendarBatch.dates
      (CalendarBatch.toggle_all ["2025-03-05"; "2025-03-02"] ∅)
    = ["2025-03-02"; "2025-03-05"].
Proof.
  split; [|split].
  - intros sel.
    split; [apply CalendarFacts.dates_Sorted|].
    split; [apply CalendarFacts.dates_NoDup|].
    split; [apply CalendarFacts.elem_of_dates|].
    intros l Hl. by apply Array_sort_perm.
  - intros clicks Hnd. split.
    + intros d.
      rewrite CalendarFacts.elem_of_dates,
        CalendarFacts.toggle_all_distinct by done.
      apply elem_of_list_to_set.
    + intros clicks' Hperm.
      by rewrite (CalendarFacts.toggle_all_perm clicks clicks').
  - vm_compute. reflexivity.
Qed.

Lemma date_set_sorted_whatever_the_click_order_witness :
  CalendarBatch.dates
    (CalendarBatch.toggle_all ["2025-03-02"; "2025-03-05"] ∅)
  = CalendarBatch.dates
      (CalendarBatch.toggle_all ["2025-03-05"; "2025-03-02"] ∅).
Proof.
  refine (proj2 (proj1 (proj2 date_set_sorted_whatever_the_click_order)
                   ["2025-03-05"; "2025-03-02"] _)
            ["2025-03-02"; "2025-03-05"] _).
  - compute_done.
  - apply Permutation_swap.
Defined.

(** ** Dates *)

Section Calendar.
Local Open Scope Z_scope.

(** The day number of a civil date read off a day number is that day
    number again; months are in 0..11 and days of the month in 1..31. *)
Lemma civil_of_day_inverse z :
  day_of_month_start (civil_of_day z).1.1 (civil_of_day z).1.2
    + (civil_of_day z).2 - 1 = z
  ∧ 0 ≤ (civil_of_day z).1.2 ≤ 11
  ∧ 1 ≤ (civil_of_day z).2 ≤ 31.
Proof.
  unfold civil_of_day, day_of_month_start. cbn [fst snd].
  set (era := (z + 719468) `div` 146097).
  set (doe := (z + 719468) `mod` 146097).
  assert (Hz : z = era * 146097 + doe - 719468).
  { subst era doe. Z.div_mod_to_equations. lia. }
  assert (Hdoe : 0 ≤ doe < 146097).
  { subst doe. Z.div_mod_to_equations. lia. }
  clearbody era doe.
  set (yoe := (doe - doe `div` 1460 + doe `div` 36524 - doe `div` 146096)
                `div` 365).
  set (doy := doe - (365 * yoe + yoe `div` 4 - yoe `div` 100)).
  set (mp := (5 * doy + 2) `div` 153).
  set (d := doy - (153 * mp + 2) `div` 5 + 1).
  assert (Hfields :
    0 ≤ yoe < 400 ∧ 0 ≤ mp < 12 ∧ 1 ≤ d ≤ 31
    ∧ yoe * 365 + yoe `div` 4 - yoe `div` 100 + (153 * mp + 2) `div` 5
      + d - 1 = doe).
  { subst yoe doy mp d. Z.div_mod_to_equations. lia. }
  destruct Hfields as (Hyoe & Hmp & Hd & Hsum).
  clearbody d mp yoe. clear doy.
  set (m := if bool_decide (mp < 10) then mp + 2 else mp - 10).
  assert (Hm : 0 ≤ m ≤ 11 ∧
               (if bool_decide (m ≤ 1) then m + 10 else m - 2) = mp).
  { subst m. repeat case_bool_decide; lia. }
  destruct Hm as (Hm & Hmp').
  clearbody m. rewrite Hmp'.
  replace (yoe + era * 400 + (if bool_decide (m ≤ 1) then 1 else 0)
           - (if bool_decide (m ≤ 1) then 1 else 0))
    with (yoe + era * 400) by lia.
  rewrite Z.div_add, Z.mod_add, Z.div_small, Z.mod_small by lia.
  lia.
Qed.

(** [MakeDay(ym, mn, 1)] is the day whose year is [ym], whose month is [mn]
    and whose day of the month is 1. *)
Lemma civil_of_month_start y m :
  0 ≤ m ≤ 11 → civil_of_day (day_of_month_start y m) = (y, m, 1).
Proof.
  intros Hm. unfold civil_of_day, day_of_month_start.
  set (c := if bool_decide (m ≤ 1) then 1 else 0).
  set (mp := if bool_decide (m ≤ 1) then m + 10 else m - 2).
  assert (Hmp : 0 ≤ mp < 12
                ∧ (if bool_decide (mp < 10) then mp + 2 else mp - 10) = m
                ∧ 0 ≤ c ≤ 1).
  { subst mp c. repeat case_bool_decide; lia. }
  destruct Hmp as (Hmp & Hback & Hc).
  set (era := (y - c) `div` 400). set (yoe := (y - c) `mod` 400).
  assert (Hy : y - c = era * 400 + yoe ∧ 0 ≤ yoe < 400).
  { subst era yoe. Z.div_mod_to_equations. lia. }
  destruct Hy as (Hy & Hyoe). clearbody era yoe mp.
  set (doe := yoe * 365 + yoe `div` 4 - yoe `div` 100
              + (153 * mp + 2) `div` 5).
  assert (Hdoe : 0 ≤ doe < 146097).
  { subst doe. Z.div_mod_to_equations. lia. }
  replace (era * 146097 + doe - 719468 + 719468)
    with (doe + era * 146097) by lia.
  rewrite Z.div_add, Z.mod_add, (Z.div_small doe), (Z.mod_small doe) by lia.
  cbn zeta.
  assert (Hyoe' : (doe - doe `div` 1460 + doe `div` 36524
                   - doe `div` 146096) `div` 365 = yoe).
  { subst doe. Z.div_mod_to_equations. lia. }
  rewrite Hyoe'.
  assert (Hdoy : doe - (365 * yoe + yoe `div` 4 - yoe `div` 100)
                 = (153 * mp + 2) `div` 5).
  { subst doe. lia. }
  rewrite Hdoy.
  assert (Hmp' : (5 * ((153 * mp + 2) `div` 5) + 2) `div` 153 = mp).
  { Z.div_mod_to_equations. lia. }
  rewrite Hmp', Hback.
  f_equal; [f_equal|]; subst c; try lia.
Qed.

Lemma MakeDay_of_fields t k :
  MakeDay (YearFromTime t) (MonthFromTime t) (DateFromTime t + k) = Day t + k.
Proof.
  unfold MakeDay, YearFromTime, MonthFromTime, DateFromTime.
  destruct (civil_of_day_inverse (Day t)) as (Hday & Hm & _).
  rewrite Z.div_small, Z.mod_small, Z.add_0_r by lia. lia.
Qed.

Lemma MakeDate_Day t k :
  MakeDate (Day t + k) (TimeWithinDay t) = t + k * msPerDay.
Proof.
  unfold MakeDate, Day, TimeWithinDay, msPerDay.
  Z.div_mod_to_equations. lia.
Qed.

(** In a zone of fixed offset, [d.setDate(d.getDate() + 1)] moves [d]
    forward by exactly one day. *)
Lemma setDate_next_day tz t :
  setDate tz t (getDate tz t + 1) = t + msPerDay.
Proof.
  unfold setDate, getDate. rewrite MakeDay_of_fields, MakeDate_Day.
  unfold UTC, LocalTime. lia.
Qed.

Lemma Day_of_midnight z : Day (z * msPerDay) = z.
Proof. unfold Day, msPerDay. by rewrite Z.div_mul. Qed.

Lemma Day_add_day t : Day (t + msPerDay) = Day t + 1.
Proof.
  unfold Day. replace (t + msPerDay) with (t + 1 * msPerDay) by lia.
  by rewrite Z.div_add.
Qed.

End Calendar.

(** *** The date part of [toISOString] *)

Section IsoStrings.
Local Open Scope Z_scope.

Lemma split_T_0_before a b :
  split_T_0 a = a → split_T_0 (a +:+ String "T" b) = a.
Proof.
  induction a as [|c a IH]; [done|].
  change (String c a +:+ String "T" b) with (String c (a +:+ String "T" b)).
  simpl. destruct (Ascii.eqb c "T"); [done|].
  intros [= Ha]. by rewrite IH.
Qed.

Lemma split_T_0_app a b :
  split_T_0 a = a → split_T_0 b = b → split_T_0 (a +:+ b) = a +:+ b.
Proof.
  intros Ha Hb. induction a as [|c a IH]; [done|].
  change (String c a +:+ b) with (String c (a +:+ b)).
  simpl in *. destruct (Ascii.eqb c "T"); [done|].
  injection Ha as Ha. by rewrite IH.
Qed.

Lemma digit_char_not_T n : Ascii.eqb (digit_char n) "T" = false.
Proof.
  unfold digit_char.
  assert (Hk : (Z.to_nat (n `mod` 10) < 10)%nat).
  { pose proof (Z.mod_pos_bound n 10). lia. }
  revert Hk. generalize (Z.to_nat (n `mod` 10)). intros k Hk.
  do 10 (destruct k as [|k]; [reflexivity|]). lia.
Qed.

Lemma split_T_0_pad w n acc :
  split_T_0 acc = acc → split_T_0 (pad w n acc) = pad w n acc.
Proof.
  revert n acc. induction w as [|w IH]; intros n acc Hacc; [done|].
  cbn [pad]. apply IH. cbn [split_T_0].
  by rewrite digit_char_not_T, Hacc.
Qed.

Lemma split_T_0_iso_year y : split_T_0 (iso_year y) = iso_year y.
Proof.
  unfold iso_year. case_bool_decide.
  - by apply split_T_0_pad.
  - case_bool_decide; cbn [split_T_0]; simpl Ascii.eqb; cbn iota;
      f_equal; by apply split_T_0_pad.
Qed.

Lemma split_T_0_iso_date t : split_T_0 (iso_date t) = iso_date t.
Proof.
  unfold iso_date.
  apply split_T_0_app; [apply split_T_0_iso_year|].
  apply (split_T_0_app "-"); [done|].
  apply split_T_0_app; [by apply split_T_0_pad|].
  apply (split_T_0_app "-"); [done|].
  by apply split_T_0_pad.
Qed.

(** [d.toISOString().split("T")[0]] is the UTC date of [d]. *)
Lemma split_T_0_toISOString t : split_T_0 (toISOString t) = iso_date t.
Proof.
  unfold toISOString.
  change (iso_date t +:+ "T" +:+ iso_time t +:+ "Z")
    with (iso_date t +:+ String "T" (iso_time t +:+ "Z")).
  apply split_T_0_before, split_T_0_iso_date.
Qed.

End IsoStrings.

(** ** The weekday rule *)

Module GenerateDatesFacts.
Section HostTimeZone.
Import WeekdayBatch.
Local Open Scope Z_scope.

Variable LocalTZA : Z.

Lemma generateDates_loop_past fuel d end_ w :
  end_ < d → generateDates_loop LocalTZA fuel d end_ w = [].
Proof.
  intros Hlt. destruct fuel; [done|]. simpl.
  by rewrite bool_decide_eq_false_2 by lia.
Qed.

Lemma days_between_succ d end_ :
  d ≤ end_ →
  days_between d end_ = S (days_between (d + msPerDay) end_).
Proof.
  intros Hle. unfold days_between. rewrite Day_add_day.
  assert (Day d ≤ Day end_).
  { unfold Day, msPerDay. by apply Z.div_le_mono. }
  lia.
Qed.

(** The loop runs to its end: it leaves by [d > end], not for lack of
    fuel, and more fuel changes nothing. *)
Lemma generateDates_loop_enough fuel d end_ w :
  (days_between d end_ ≤ fuel)%nat →
  generateDates_loop LocalTZA fuel d end_ w
  = generateDates_loop LocalTZA (days_between d end_) d end_ w.
Proof.
  revert d. induction fuel as [|fuel IH]; intros d Hfuel.
  - by replace (days_between d end_) with 0%nat by lia.
  - destruct (decide (d ≤ end_)) as [Hle|Hgt].
    + rewrite (days_between_succ d end_ Hle) in *. simpl.
      rewrite bool_decide_eq_true_2 by done.
      rewrite setDate_next_day. f_equal. apply IH. lia.
    + by rewrite !generateDates_loop_past by lia.
Qed.

(** From midnight to midnight the loop visits each day once, tests the
    weekday of its local time and prints its UTC date. *)
Lemma generateDates_loop_days w de n ds :
  n = Z.to_nat (de - ds + 1) →
  generateDates_loop LocalTZA n (ds * msPerDay) (de * msPerDay) w
  = (λ z, iso_date (z * msPerDay))
      <$> filter (λ z, getDay LocalTZA (z * msPerDay) = w)
            (seqZ ds (de - ds + 1)).
Proof.
  revert ds. induction n as [|n IH]; intros ds Hn.
  - by rewrite seqZ_nil by lia.
  - rewrite seqZ_cons by lia. simpl.
    rewrite bool_decide_eq_true_2 by (unfold msPerDay; lia).
    rewrite setDate_next_day, split_T_0_toISOString.
    replace (ds * msPerDay + msPerDay) with (Z.succ ds * msPerDay) by lia.
    rewrite IH by lia.
    replace (Z.pred (de - ds + 1)) with (de - Z.succ ds + 1) by lia.
    rewrite filter_cons. by case_decide; case_bool_decide.
Qed.

Lemma Date_parse_midnight s t : Date_parse s = Some t → t = Day t * msPerDay.
Proof.
  unfold Date_parse. intros Hp.
  repeat (match type of Hp with
          | match ?x with _ => _ end = Some _ => destruct x; try done
          end).
  simplify_option_eq.
  unfold MakeDate. rewrite Z.add_0_r. by rewrite Day_of_midnight.
Qed.

(** [generateDates] on valid dates, for any fixed offset. *)
Lemma generateDates_days startDate0 endDate0 w ts te :
  Date_parse startDate0 = Some ts → Date_parse endDate0 = Some te →
  generateDates LocalTZA startDate0 endDate0 w
  = (λ z, iso_date (z * msPerDay))
      <$> filter (λ z, getDay LocalTZA (z * msPerDay) = w)
            (seqZ (Day ts) (Day te - Day ts + 1)).
Proof.
  intros Hs He. unfold generateDates. rewrite Hs, He.
  rewrite (Date_parse_midnight _ _ Hs) at 2.
  rewrite (Date_parse_midnight _ _ He) at 2.
  by apply generateDates_loop_days.
Qed.

(** With an invalid date on either side there are no dates. *)
Lemma generateDates_invalid startDate0 endDate0 w :
  Date_parse startDate0 = None ∨ Date_parse endDate0 = None →
  generateDates LocalTZA startDate0 endDate0 w = [].
Proof.
  unfold generateDates. intros [-> | ->]; [done|].
  by destruct (Date_parse startDate0).
Qed.

(** East of Greenwich (and in UTC) the local day of a UTC midnight is the
    same day; west of Greenwich it is the day before. *)
Lemma getDay_east z :
  0 ≤ LocalTZA < msPerDay →
  getDay LocalTZA (z * msPerDay) = WeekDay (z * msPerDay).
Proof.
  intros Htz. unfold getDay, WeekDay, LocalTime, Day, msPerDay in *.
  f_equal. f_equal. Z.div_mod_to_equations. lia.
Qed.

Lemma getDay_west z :
  - msPerDay ≤ LocalTZA < 0 →
  getDay LocalTZA (z * msPerDay) = WeekDay ((z - 1) * msPerDay).
Proof.
  intros Htz. unfold getDay, WeekDay, LocalTime, Day, msPerDay in *.
  f_equal. f_equal. Z.div_mod_to_equations. lia.
Qed.

(** East of Greenwich the result is the list of the days of the range
    that fall on the chosen weekday. *)
Lemma generateDates_east startDate0 endDate0 w ts te :
  0 ≤ LocalTZA < msPerDay →
  Date_parse startDate0 = Some ts → Date_parse endDate0 = Some te →
  generateDates LocalTZA startDate0 endDate0 w
  = (λ z, iso_date (z * msPerDay))
      <$> filter (λ z, WeekDay (z * msPerDay) = w)
            (seqZ (Day ts) (Day te - Day ts + 1)).
Proof.
  intros Htz Hs He. rewrite (generateDates_days _ _ _ _ _ Hs He).
  f_equal. apply list_filter_iff. intros z. by rewrite getDay_east.
Qed.

(** West of Greenwich the weekday tested is that of the day before the
    date that is printed. *)
Lemma generateDates_west startDate0 endDate0 w ts te :
  - msPerDay ≤ LocalTZA < 0 →
  Date_parse startDate0 = Some ts → Date_parse endDate0 = Some te →
  generateDates LocalTZA startDate0 endDate0 w
  = (λ z, iso_date (z * msPerDay))
      <$> filter (λ z, WeekDay ((z - 1) * msPerDay) = w)
            (seqZ (Day ts) (Day te - Day ts + 1)).
Proof.
  intros Htz Hs He. rewrite (generateDates_days _ _ _ _ _ Hs He).
  f_equal. apply list_filter_iff. intros z. by rewrite getDay_west.
Qed.

End HostTimeZone.
End GenerateDatesFacts.

(** In UTC and in China Standard Time (UTC+8) the Wednesdays of January
    2025 come out as expected. *)
Example wednesdays_of_january_2025_utc :
  WeekdayBatch.generateDates 0 "2025-01-01" "2025-01-31" 3
  = ["2025-01-01"; "2025-01-08"; "2025-01-15"; "2025-01-22"; "2025-01-29"].
Proof. vm_compute. reflexivity. Qed.

Example wednesdays_of_january_2025_shanghai :
  WeekdayBatch.generateDates 28800000 "2025-01-01" "2025-01-31" 3
  = ["2025-01-01"; "2025-01-08"; "2025-01-15"; "2025-01-22"; "2025-01-29"].
Proof. vm_compute. reflexivity. Qed.

Example end_before_start_gives_no_dates :
  WeekdayBatch.generateDates 28800000 "2025-01-31" "2025-01-01" 3 = [].
Proof. vm_compute. reflexivity. Qed.

(** C3 does not hold of the code.  On a host seven hours west of
    Greenwich (Mountain Standard Time, UTC-7), start 2025-01-01, end
    2025-01-31 and weekday 3 give the five Thursdays 2025-01-02 ...
    2025-01-30 (weekday 4), not the five Wednesdays 2025-01-01 ...
    2025-01-29: the weekday is read in local time ([getDay]) while the
    date is printed in UTC ([toISOString]). *)
Theorem generateDates_west_of_greenwich_is_a_day_late :
  WeekdayBatch.generateDates (-25200000) "2025-01-01" "2025-01-31" 3
  = ["2025-01-02"; "2025-01-09"; "2025-01-16"; "2025-01-23"; "2025-01-30"]
  ∧ (WeekDay <$> Date_parse "2025-01-02") = Some 4%Z
  ∧ (WeekDay <$> Date_parse "2025-01-01") = Some 3%Z
  ∧ WeekdayBatch.generateDates (-25200000) "2025-01-01" "2025-01-31" 3
    ≠ ["2025-01-01"; "2025-01-08"; "2025-01-15"; "2025-01-22"; "2025-01-29"].
Proof.
  assert (Hrun :
    WeekdayBatch.generateDates (-25200000) "2025-01-01" "2025-01-31" 3
    = ["2025-01-02"; "2025-01-09"; "2025-01-16"; "2025-01-23"; "2025-01-30"])
    by (vm_compute; reflexivity).
  split; [exact Hrun|]. split; [vm_compute; reflexivity|].
  split; [vm_compute; reflexivity|]. rewrite Hrun. discriminate.
Qed.

(** * Further properties of the two pages *)

(** ** Toggling dates and members *)

Lemma elem_of_toggleDate d x sel :
  x ∈ CalendarBatch.toggleDate d sel ↔ (x = d ∧ d ∉ sel) ∨ (x ≠ d ∧ x ∈ sel).
Proof.
  unfold CalendarBatch.toggleDate. case_bool_decide; set_solver.
Qed.

(** X1.  Clicking a date twice restores the selection; one click changes
    the membership of the clicked date only, and changes the number of
    selected dates by exactly one. *)
Theorem toggleDate_twice_and_once (d : string) (sel : gset string) :
  CalendarBatch.toggleDate d (CalendarBatch.toggleDate d sel) = sel
  ∧ (d ∈ CalendarBatch.toggleDate d sel ↔ d ∉ sel)
  ∧ (∀ x, x ≠ d → (x ∈ CalendarBatch.toggleDate d sel ↔ x ∈ sel))
  ∧ size (CalendarBatch.toggleDate d sel)
    = (if decide (d ∈ sel) then size sel - 1 else size sel + 1)%nat.
Proof.
  split; [|split; [|split]].
  - apply set_eq. intros x. rewrite !elem_of_toggleDate.
    destruct (decide (x = d)) as [->|]; [|naive_solver].
    destruct (decide (d ∈ sel)); naive_solver.
  - rewrite elem_of_toggleDate. naive_solver.
  - intros x Hx. rewrite elem_of_toggleDate. naive_solver.
  - unfold CalendarBatch.toggleDate. case_decide as Hd.
    + rewrite bool_decide_eq_true_2 by done.
      rewrite size_difference by set_solver. by rewrite size_singleton.
    + rewrite bool_decide_eq_false_2 by done.
      rewrite size_union by set_solver. by rewrite size_singleton.
Qed.

(** The number of clicks on date [d] in a sequence of clicks. *)
Lemma toggle_all_parity d clicks sel :
  bool_decide (d ∈ CalendarBatch.toggle_all clicks sel)
  = xorb (bool_decide (d ∈ sel))
         (Nat.odd (length (filter (λ x, x = d) clicks))).
Proof.
  unfold CalendarBatch.toggle_all. revert sel.
  induction clicks as [|c clicks IH]; intros sel; simpl.
  - by rewrite xorb_false_r.
  - rewrite IH, filter_cons. case_decide as Hc.
    + subst c. simpl length. rewrite Nat.odd_succ, <- Nat.negb_odd.
      assert (bool_decide (d ∈ CalendarBatch.toggleDate d sel)
              = negb (bool_decide (d ∈ sel))) as ->.
      { destruct (decide (d ∈ sel)) as [Hin|Hin].
        - rewrite (bool_decide_eq_true_2 _ Hin).
          apply bool_decide_eq_false_2.
          rewrite elem_of_toggleDate. naive_solver.
        - rewrite (bool_decide_eq_false_2 _ Hin).
          apply bool_decide_eq_true_2.
          rewrite elem_of_toggleDate. naive_solver. }
      by destruct (bool_decide _), (Nat.odd _).
    + f_equal. apply bool_decide_ext.
      rewrite elem_of_toggleDate. naive_solver.
Qed.

(** X2.  Starting from the empty selection, a date is in the date set
    exactly when it was clicked an odd number of times. *)
Theorem date_selected_iff_clicked_odd_times
    (clicks : list string) (d : string) :
  d ∈ CalendarBatch.dates (CalendarBatch.toggle_all clicks ∅)
  ↔ Nat.Odd (length (filter (λ x, x = d) clicks)).
Proof.
  rewrite CalendarFacts.elem_of_dates, <- Nat.odd_spec.
  pose proof (toggle_all_parity d clicks ∅) as Hpar.
  rewrite (bool_decide_eq_false_2 (d ∈ (∅ : gset string))) in Hpar
    by set_solver.
  rewrite xorb_false_l in Hpar. rewrite <- Hpar.
  by rewrite bool_decide_eq_true.
Qed.

Lemma filter_ne_absent (m : string) (roster : list string) :
  m ∉ roster → filter (λ x, x ≠ m) roster = roster.
Proof.
  induction roster as [|x roster IH]; [done|].
  intros Hm. apply not_elem_of_cons in Hm as [Hne Hm].
  rewrite filter_cons_True by done. by rewrite IH.
Qed.

Lemma elem_of_toggleMember m x roster :
  x ∈ toggleMember m roster
  ↔ (x = m ∧ m ∉ roster) ∨ (x ≠ m ∧ x ∈ roster).
Proof.
  unfold toggleMember. case_bool_decide as Hm.
  - rewrite list_elem_of_filter. naive_solver.
  - rewrite elem_of_app, list_elem_of_singleton.
    destruct (decide (x = m)); naive_solver.
Qed.

(** X3.  Checking or unchecking a member changes the membership of that
    member only, keeps the other members in their order, and keeps a
    roster of distinct ids distinct. *)
Theorem toggleMember_changes_one_member (m : string) (roster : list string) :
  (m ∈ toggleMember m roster ↔ m ∉ roster)
  ∧ (∀ x, x ≠ m → (x ∈ toggleMember m roster ↔ x ∈ roster))
  ∧ filter (λ x, x ≠ m) (toggleMember m roster) = filter (λ x, x ≠ m) roster
  ∧ (NoDup roster → NoDup (toggleMember m roster)).
Proof.
  split; [|split; [|split]].
  - rewrite elem_of_toggleMember. naive_solver.
  - intros x Hx. rewrite elem_of_toggleMember. naive_solver.
  - unfold toggleMember. case_bool_decide.
    + apply list_filter_filter_l. done.
    + rewrite filter_app, filter_cons_False, filter_nil by naive_solver.
      by rewrite app_nil_r.
  - apply toggleMember_NoDup.
Qed.

Lemma toggleMember_changes_one_member_witness :
  NoDup (toggleMember "B" ["A"; "B"; "C"]).
Proof.
  refine (proj2 (proj2 (proj2
            (toggleMember_changes_one_member "B" ["A"; "B"; "C"]))) _).
  compute_done.
Defined.

(** X4.  Checking a member that is not in the roster and unchecking it
    again restores the roster.  Unchecking a roster member and checking it
    again does not: the member moves to the end of the rotation order. *)
Theorem toggleMember_twice (m : string) (roster : list string) :
  (m ∉ roster → toggleMember m (toggleMember m roster) = roster)
  ∧ (m ∈ roster →
     toggleMember m (toggleMember m roster)
     = filter (λ x, x ≠ m) roster ++ [m]).
Proof.
  split; intros Hm.
  - assert (Hin : m ∈ toggleMember m roster)
      by (rewrite elem_of_toggleMember; naive_solver).
    unfold toggleMember at 1. rewrite bool_decide_eq_true_2 by done.
    unfold toggleMember. rewrite bool_decide_eq_false_2 by done.
    rewrite filter_app, filter_cons_False, filter_nil by naive_solver.
    by rewrite app_nil_r, filter_ne_absent.
  - assert (Hout : m ∉ toggleMember m roster)
      by (rewrite elem_of_toggleMember; naive_solver).
    unfold toggleMember at 1. rewrite bool_decide_eq_false_2 by done.
    unfold toggleMember. by rewrite bool_decide_eq_true_2.
Qed.

Lemma toggleMember_twice_witness :
  toggleMember "D" (toggleMember "D" ["A"; "B"; "C"]) = ["A"; "B"; "C"]
  ∧ toggleMember "A" (toggleMember "A" ["A"; "B"; "C"]) = ["B"; "C"; "A"].
Proof.
  split.
  - refine (proj1 (toggleMember_twice "D" ["A"; "B"; "C"]) _). compute_done.
  - refine (proj2 (toggleMember_twice "A" ["A"; "B"; "C"]) _). compute_done.
Defined.

(** ** More on the preview *)

(** Either guard of the preview gives [[]]; past the guards the preview is
    the round-robin loop over a non-empty roster. *)
Lemma calendar_preview_cases stid sel roster members0 :
  CalendarBatch.previewAssignments stid sel roster members0 = []
  ∨ (roster ≠ []
     ∧ CalendarBatch.previewAssignments stid sel roster members0
       = rotate (CalendarBatch.dates sel) roster members0).
Proof.
  unfold CalendarBatch.previewAssignments.
  destruct (falsy stid); [by left|].
  case_bool_decide as Hr; [by left|].
  destruct (bool_decide _); [by left|]. right.
  split; [|done]. by intros ->.
Qed.

Lemma weekday_preview_cases tz stid s e w roster members0 :
  WeekdayBatch.previewAssignments tz stid s e w roster members0 = []
  ∨ (roster ≠ []
     ∧ WeekdayBatch.previewAssignments tz stid s e w roster members0
       = rotate (WeekdayBatch.generateDates tz s e w) roster members0).
Proof.
  unfold WeekdayBatch.previewAssignments.
  destruct (falsy stid); [by left|].
  case_bool_decide as Hr; [by left|]. right.
  split; [|done]. by intros ->.
Qed.

Lemma rotate_elem dates0 roster members0 p :
  roster ≠ [] → p ∈ rotate dates0 roster members0 →
  memberId p ∈ roster ∧ date p ∈ dates0.
Proof.
  intros Hne (i & Hi)%list_elem_of_lookup. split.
  - eapply list_elem_of_lookup_2. by eapply rotate_memberId.
  - rewrite rotate_lookup in Hi.
    apply fmap_Some in Hi as (d & Hd & ->). simpl.
    by eapply list_elem_of_lookup_2.
Qed.

(** X5.  Whatever the inputs, every entry of the preview is for a member
    of the roster and for a date of the date set: the preview never names
    a member that was not checked nor a date that was not chosen. *)
Theorem preview_stays_within_roster_and_dates
    (stid : string) (roster : list string) (members0 : list Member)
    (p : PreviewAssignment) :
  (∀ sel : gset string,
     p ∈ CalendarBatch.previewAssignments stid sel roster members0 →
     memberId p ∈ roster ∧ date p ∈ sel)
  ∧ (∀ tz s e w,
     p ∈ WeekdayBatch.previewAssignments tz stid s e w roster members0 →
     memberId p ∈ roster ∧ date p ∈ WeekdayBatch.generateDates tz s e w).
Proof.
  split.
  - intros sel Hp.
    destruct (calendar_preview_cases stid sel roster members0)
      as [Hnil | [Hne Heq]].
    + rewrite Hnil in Hp. by apply elem_of_nil in Hp.
    + rewrite Heq in Hp. apply rotate_elem in Hp as [Hm Hd]; [|done].
      split; [done|]. by apply CalendarFacts.elem_of_dates.
  - intros tz s e w Hp.
    destruct (weekday_preview_cases tz stid s e w roster members0)
      as [Hnil | [Hne Heq]].
    + rewrite Hnil in Hp. by apply elem_of_nil in Hp.
    + rewrite Heq in Hp. by apply rotate_elem in Hp.
Qed.

Lemma preview_stays_within_roster_and_dates_witness :
  memberId {| date := "2025-01-12"; memberId := "B"; memberName := "未知" |}
    ∈ ["A"; "B"]
  ∧ date {| date := "2025-01-12"; memberId := "B"; memberName := "未知" |}
    ∈ (list_to_set ["2025-01-05"; "2025-01-12"] : gset string).
Proof.
  refine (proj1 (preview_stays_within_roster_and_dates "sermon" ["A"; "B"] []
            {| date := "2025-01-12"; memberId := "B"; memberName := "未知" |})
            (list_to_set ["2025-01-05"; "2025-01-12"]) _).
  vm_compute. apply list_elem_of_In. right. left. reflexivity.
Defined.

Lemma mod_succ_ne (i n : nat) : 2 ≤ n → i mod n ≠ S i mod n.
Proof.
  intros Hn.
  pose proof (succ_div_mod i n 0 ltac:(lia)) as H0.
  pose proof (Nat.div_mod_eq i n) as Hi.
  pose proof (Nat.div_mod_eq (S i) n) as Hs.
  pose proof (Nat.mod_upper_bound i n ltac:(lia)).
  pose proof (Nat.mod_upper_bound (S i) n ltac:(lia)).
  intros Heq. rewrite <- Heq in Hs.
  assert (n * (S i / n) = S (n * (i / n))) by lia.
  assert (Hdiv : i / n ≤ S i / n).
  { apply Nat.Div0.div_le_mono. lia. }
  destruct (decide (S i / n = i / n)) as [E|E]; [rewrite E in *; lia|].
  assert (n * (S i / n) ≥ n * (i / n) + n) by nia. lia.
Qed.

Lemma mod_add_period (i n : nat) : (i + n) mod n = i mod n.
Proof.
  destruct n as [|n]; [simpl; lia|].
  replace (i + S n) with (i + 1 * S n) by lia.
  by rewrite Nat.Div0.mod_add.
Qed.

Lemma rotate_no_repeat dates0 roster members0 i p q :
  NoDup roster → 2 ≤ length roster →
  rotate dates0 roster members0 !! i = Some p →
  rotate dates0 roster members0 !! S i = Some q →
  memberId p ≠ memberId q.
Proof.
  intros Hnd Hlen Hp Hq Heq.
  assert (Hne : roster ≠ []) by (intros ->; simpl in Hlen; lia).
  apply rotate_memberId in Hp, Hq; try done.
  rewrite <- Heq in Hq.
  by apply (mod_succ_ne i (length roster) Hlen), (NoDup_lookup roster _ _ _ Hnd Hp Hq).
Qed.

Lemma rotate_period dates0 roster members0 i p q :
  roster ≠ [] →
  rotate dates0 roster members0 !! i = Some p →
  rotate dates0 roster members0 !! (i + length roster) = Some q →
  memberId p = memberId q ∧ memberName p = memberName q.
Proof.
  intros Hne Hp Hq.
  assert (Hid : memberId p = memberId q).
  { apply rotate_memberId in Hp, Hq; try done.
    rewrite mod_add_period in Hq. congruence. }
  split; [done|].
  rewrite (rotate_memberName roster members0 dates0 p),
    (rotate_memberName roster members0 dates0 q), Hid; [done|..];
    by eapply list_elem_of_lookup_2.
Qed.

(** X6.  With a roster of at least two distinct members, nobody is
    assigned two consecutive dates of the preview; and the rotation is
    periodic: the entries [len(roster)] places apart name the same
    member. *)
Theorem preview_alternates_and_repeats
    (stid : string) (roster : list string) (members0 : list Member) :
  (∀ (sel : gset string) i p q,
     let out := CalendarBatch.previewAssignments stid sel roster members0 in
     out !! i = Some p →
     (NoDup roster → 2 ≤ length roster → out !! S i = Some q →
      memberId p ≠ memberId q)
     ∧ (out !! (i + length roster) = Some q →
        memberId p = memberId q ∧ memberName p = memberName q))
  ∧ (∀ tz s e w i p q,
     let out :=
       WeekdayBatch.previewAssignments tz stid s e w roster members0 in
     out !! i = Some p →
     (NoDup roster → 2 ≤ length roster → out !! S i = Some q →
      memberId p ≠ memberId q)
     ∧ (out !! (i + length roster) = Some q →
        memberId p = memberId q ∧ memberName p = memberName q)).
Proof.
  split.
  - intros sel i p q out Hp. subst out.
    destruct (calendar_preview_cases stid sel roster members0)
      as [Hnil | [Hne Heq]].
    + by rewrite Hnil in Hp.
    + rewrite Heq in *. split.
      * intros Hnd Hlen Hq. by eapply rotate_no_repeat.
      * intros Hq. by eapply rotate_period.
  - intros tz s e w i p q out Hp. subst out.
    destruct (weekday_preview_cases tz stid s e w roster members0)
      as [Hnil | [Hne Heq]].
    + by rewrite Hnil in Hp.
    + rewrite Heq in *. split.
      * intros Hnd Hlen Hq. by eapply rotate_no_repeat.
      * intros Hq. by eapply rotate_period.
Qed.

Lemma preview_alternates_and_repeats_witness :
  memberId {| date := "2025-01-05"; memberId := "A"; memberName := "未知" |}
  ≠ memberId {| date := "2025-01-12"; memberId := "B"; memberName := "未知" |}.
Proof.
  refine (proj1 (proj1 (preview_alternates_and_repeats "sermon" ["A"; "B"] [])
            (list_to_set ["2025-01-05"; "2025-01-12"; "2025-01-19"]) 0
            {| date := "2025-01-05"; memberId := "A"; memberName := "未知" |}
            {| date := "2025-01-12"; memberId := "B"; memberName := "未知" |}
            _) _ _ _).
  - vm_compute. reflexivity.
  - compute_done.
  - simpl. lia.
  - vm_compute. reflexivity.
Defined.

Lemma find_member_unique members0 m :
  NoDup (id <$> members0) → m ∈ members0 →
  find_member members0 (id m) = Some m.
Proof.
  unfold find_member. induction members0 as [|x members0 IH]; intros Hnd Hm.
  - by apply elem_of_nil in Hm.
  - rewrite fmap_cons in Hnd. apply NoDup_cons in Hnd as [Hx Hnd].
    simpl. destruct (String.eqb_spec (id x) (id m)) as [Heq|Hne].
    + apply elem_of_cons in Hm as [->|Hm]; [done|].
      destruct Hx. rewrite Heq. by apply list_elem_of_fmap_2.
    + apply elem_of_cons in Hm as [->|Hm]; [done|]. by apply IH.
Qed.

(** X7.  When the member directory has distinct ids, every preview entry
    of a listed member with a non-empty name carries that name, on both
    pages; a listed member whose name is empty is shown with the
    placeholder. *)
Theorem known_member_shown_by_name
    (stid : string) (roster : list string) (members0 : list Member)
    (m : Member) (p : PreviewAssignment) :
  NoDup (id <$> members0) → m ∈ members0 → memberId p = id m →
  (∀ sel : gset string,
     p ∈ CalendarBatch.previewAssignments stid sel roster members0 →
     memberName p = (if decide (name m = "") then "未知" else name m))
  ∧ (∀ tz s e w,
     p ∈ WeekdayBatch.previewAssignments tz stid s e w roster members0 →
     memberName p = (if decide (name m = "") then "未知" else name m)).
Proof.
  intros Hnd Hm Hid.
  assert (Hname : ∀ dates0, p ∈ rotate dates0 roster members0 →
            memberName p = (if decide (name m = "") then "未知" else name m)).
  { intros dates0 Hp. rewrite (rotate_memberName _ _ _ _ Hp), Hid.
    rewrite find_member_unique by done. simpl. unfold or_else, falsy.
    case_decide as Hn.
    - by rewrite Hn.
    - by apply String.eqb_neq in Hn as ->. }
  split.
  - intros sel Hp.
    destruct (calendar_preview_cases stid sel roster members0)
      as [Hnil | [Hne Heq]].
    + rewrite Hnil in Hp. by apply elem_of_nil in Hp.
    + rewrite Heq in Hp. by eapply Hname.
  - intros tz s e w Hp.
    destruct (weekday_preview_cases tz stid s e w roster members0)
      as [Hnil | [Hne Heq]].
    + rewrite Hnil in Hp. by apply elem_of_nil in Hp.
    + rewrite Heq in Hp. by eapply Hname.
Qed.

Lemma known_member_shown_by_name_witness :
  memberName {| date := "2025-01-05"; memberId := "A"; memberName := "Ann" |}
  = "Ann".
Proof.
  refine (proj1 (known_member_shown_by_name "sermon" ["A"; "B"]
            [{| id := "A"; name := "Ann" |}] {| id := "A"; name := "Ann" |}
            {| date := "2025-01-05"; memberId := "A"; memberName := "Ann" |}
            _ _ _) (list_to_set ["2025-01-05"; "2025-01-12"]) _).
  - compute_done.
  - compute_done.
  - reflexivity.
  - vm_compute. apply list_elem_of_In. left. reflexivity.
Defined.

(** ** The page state after a commit *)

(** X8.  [handleSubmit] never changes the form: organisation, member
    directory, service type, date parameters and roster are as before.
    When the preview is non-empty and the store accepts the insert, the
    error stays cleared, the submitting flag stays set and the page
    navigates to ["/services"] once.  When the store rejects it, the page
    does not navigate, the submitting flag is cleared and the error is the
    store's message, or ["创建失败"] if that message is empty. *)
Theorem commit_outcome_on_page :
  (∀ reply st w,
     let st' := (CalendarBatch.handleSubmit reply st w).1 in
     let w' := (CalendarBatch.handleSubmit reply st w).2 in
     (CalendarBatch.orgId st' = CalendarBatch.orgId st
      ∧ CalendarBatch.members st' = CalendarBatch.members st
      ∧ CalendarBatch.serviceTypeId st' = CalendarBatch.serviceTypeId st
      ∧ CalendarBatch.selectedDates st' = CalendarBatch.selectedDates st
      ∧ CalendarBatch.selectedMemberIds st'
        = CalendarBatch.selectedMemberIds st)
     ∧ (CalendarBatch.preview_of st ≠ [] →
        match reply with
        | Inserted =>
            CalendarBatch.error st' = ""
            ∧ CalendarBatch.submitting st' = true
            ∧ router_pushes w' = router_pushes w ++ ["/services"]
        | InsertError message =>
            CalendarBatch.error st'
            = (if decide (message = "") then "创建失败" else message)
            ∧ CalendarBatch.submitting st' = false
            ∧ router_pushes w' = router_pushes w
        end))
  ∧ (∀ LocalTZA reply st w,
     let st' := (WeekdayBatch.handleSubmit LocalTZA reply st w).1 in
     let w' := (WeekdayBatch.handleSubmit LocalTZA reply st w).2 in
     (WeekdayBatch.orgId st' = WeekdayBatch.orgId st
      ∧ WeekdayBatch.members st' = WeekdayBatch.members st
      ∧ WeekdayBatch.serviceTypeId st' = WeekdayBatch.serviceTypeId st
      ∧ WeekdayBatch.startDate st' = WeekdayBatch.startDate st
      ∧ WeekdayBatch.endDate st' = WeekdayBatch.endDate st
      ∧ WeekdayBatch.dayOfWeek st' = WeekdayBatch.dayOfWeek st
      ∧ WeekdayBatch.selectedMemberIds st'
        = WeekdayBatch.selectedMemberIds st)
     ∧ (WeekdayBatch.preview_of LocalTZA st ≠ [] →
        match reply with
        | Inserted =>
            WeekdayBatch.error st' = ""
            ∧ WeekdayBatch.submitting st' = true
            ∧ router_pushes w' = router_pushes w ++ ["/services"]
        | InsertError message =>
            WeekdayBatch.error st'
            = (if decide (message = "") then "创建失败" else message)
            ∧ WeekdayBatch.submitting st' = false
            ∧ router_pushes w' = router_pushes w
        end)).
Proof.
  assert (Hor : ∀ message,
            or_else message "创建失败"
            = (if decide (message = "") then "创建失败" else message)).
  { intros message. unfold or_else, falsy. case_decide as Hm.
    - by rewrite Hm.
    - by apply String.eqb_neq in Hm as ->. }
  split.
  - intros reply st w. cbn zeta. split.
    + unfold CalendarBatch.handleSubmit.
      destruct (falsy _ || bool_decide (length _ = 0)); [done|].
      destruct (bool_decide (size _ = 0)); [done|].
      by destruct reply.
    + intros Hne.
      destruct (CalendarCommit.calendar_preview_nonempty_guards st Hne)
        as [H1 H2].
      unfold CalendarBatch.handleSubmit. rewrite H1, H2.
      destruct reply as [|message]; simpl; [done|].
      by rewrite Hor.
  - intros tz reply st w. cbn zeta. split.
    + unfold WeekdayBatch.handleSubmit.
      destruct (falsy _ || bool_decide (length _ = 0)); [done|].
      destruct (bool_decide (length _ = 0)); [done|].
      by destruct reply.
    + intros Hne.
      destruct (WeekdayCommit.weekday_preview_nonempty_guards tz st Hne)
        as [H1 H2].
      unfold WeekdayBatch.handleSubmit. rewrite H1, H2.
      destruct reply as [|message]; simpl; [done|].
      by rewrite Hor.
Qed.

Lemma commit_outcome_on_page_witness :
  CalendarBatch.error
    (CalendarBatch.handleSubmit (InsertError "permission denied")
       calendar_sample no_requests).1 = "permission denied"
  ∧ CalendarBatch.submitting
      (CalendarBatch.handleSubmit (InsertError "permission denied")
         calendar_sample no_requests).1 = false
  ∧ router_pushes
      (CalendarBatch.handleSubmit (InsertError "permission denied")
         calendar_sample no_requests).2 = router_pushes no_requests.
Proof.
  refine (proj2 (proj1 commit_outcome_on_page
                   (InsertError "permission denied") calendar_sample
                   no_requests) _).
  vm_compute. discriminate.
Defined.

(** ** The calendar, month by month *)

Section Months.
Local Open Scope Z_scope.

(** The day [k] days after the first of month [m] of year [y] is the
    [k + 1]-th of that month, as long as the month has that many days. *)
Lemma civil_of_day_in_month y m k :
  0 ≤ m ≤ 11 → 0 ≤ k < DaysInMonth y m →
  civil_of_day (day_of_month_start y m + k) = (y, m, k + 1).
Proof.
  intros Hm. unfold DaysInMonth, MakeDay.
  rewrite (Z.div_small m), (Z.mod_small m), Z.add_0_r by lia.
  unfold civil_of_day, day_of_month_start.
  set (y2 := y + (m + 1) `div` 12). set (m2 := (m + 1) `mod` 12).
  set (c := if bool_decide (m ≤ 1) then 1 else 0).
  set (mp := if bool_decide (m ≤ 1) then m + 10 else m - 2).
  set (c2 := if bool_decide (m2 ≤ 1) then 1 else 0).
  set (mp2 := if bool_decide (m2 ≤ 1) then m2 + 10 else m2 - 2).
  assert (Hnext : 0 ≤ mp < 12 ∧ 0 ≤ c ≤ 1
                  ∧ (if bool_decide (mp < 10) then mp + 2 else mp - 10) = m
                  ∧ ((mp < 11 ∧ y2 - c2 = y - c ∧ mp2 = mp + 1)
                     ∨ (mp = 11 ∧ y2 - c2 = y - c + 1 ∧ mp2 = 0))).
  { subst y2 m2 c mp c2 mp2.
    repeat case_bool_decide; Z.div_mod_to_equations; lia. }
  destruct Hnext as (Hmp & Hc & Hback & Hnext).
  set (Y := y - c) in *. set (Y2 := y2 - c2) in *.
  clearbody mp mp2 Y2. clear y2 m2 c2.
  set (era := Y `div` 400). set (yoe := Y `mod` 400).
  assert (HY : Y = era * 400 + yoe ∧ 0 ≤ yoe < 400).
  { subst era yoe. Z.div_mod_to_equations. lia. }
  destruct HY as (HY & Hyoe).
  set (ys := yoe * 365 + yoe `div` 4 - yoe `div` 100).
  set (doe := ys + (153 * mp + 2) `div` 5).
  intros Hk.
  assert (Hlen : 0 ≤ doe ∧ doe + k < 146097 ∧ ys ≤ doe + k
    ∧ (yoe < 399 → doe + k < (yoe + 1) * 365 + (yoe + 1) `div` 4
                              - (yoe + 1) `div` 100)
    ∧ (153 * mp + 2) `div` 5 ≤ doe + k - ys
    ∧ (mp < 11 → doe + k - ys < (153 * (mp + 1) + 2) `div` 5)).
  { destruct Hnext as [(Hlt & -> & ->) | (-> & -> & ->)].
    - fold era yoe in Hk. fold ys in Hk. fold doe in Hk. subst doe ys.
      Z.div_mod_to_equations. lia.
    - assert (Hera : ((Y + 1) `div` 400 = era ∧ (Y + 1) `mod` 400 = yoe + 1
                      ∧ yoe < 399)
                     ∨ ((Y + 1) `div` 400 = era + 1 ∧ (Y + 1) `mod` 400 = 0
                        ∧ yoe = 399)).
      { Z.div_mod_to_equations. lia. }
      fold era yoe in Hk. fold ys in Hk. fold doe in Hk.
      destruct Hera as [(E1 & E2 & ?) | (E1 & E2 & ?)];
        rewrite E1, E2 in Hk; subst doe ys;
        (Z.div_mod_to_equations; lia). }
  destruct Hlen as (Hdoe & Hlt & Hlo & Hhi & Hmlo & Hmhi).
  replace (era * 146097 + doe - 719468 + k + 719468)
    with (doe + k + era * 146097) by lia.
  rewrite Z.div_add, Z.mod_add, (Z.div_small (doe + k)),
    (Z.mod_small (doe + k)) by lia.
  cbn zeta. set (e := doe + k) in *.
  assert (Hyoe' : (e - e `div` 1460 + e `div` 36524 - e `div` 146096)
                  `div` 365 = yoe).
  { subst ys. clearbody e doe. Z.div_mod_to_equations. lia. }
  rewrite Hyoe'.
  set (doy := e - (365 * yoe + yoe `div` 4 - yoe `div` 100)).
  assert (Hmp' : (5 * doy + 2) `div` 153 = mp).
  { subst doy ys. clearbody e doe. Z.div_mod_to_equations. lia. }
  rewrite Hmp', Hback.
  f_equal; [f_equal|]; subst doy e doe ys c Y; lia.
Qed.

(** The month and year that follow month [m] of year [y]. *)
Lemma MakeDay_normal y m d :
  0 ≤ m ≤ 11 → MakeDay y m d = day_of_month_start y m + d - 1.
Proof.
  intros Hm. unfold MakeDay.
  by rewrite (Z.div_small m), (Z.mod_small m), Z.add_0_r by lia.
Qed.

Lemma MakeDay_carry y m d :
  MakeDay (y + m `div` 12) (m `mod` 12) d = MakeDay y m d.
Proof.
  unfold MakeDay. f_equal. f_equal. f_equal.
  - rewrite (Z.div_small (m `mod` 12)) by (apply Z.mod_pos_bound; lia). lia.
  - apply Z.mod_mod. lia.
Qed.

Lemma MakeDay_month_add y m i d :
  MakeDay (y + m `div` 12) (m `mod` 12 + i) d = MakeDay y (m + i) d.
Proof.
  unfold MakeDay. f_equal. f_equal. f_equal.
  - Z.div_mod_to_equations. lia.
  - Z.div_mod_to_equations. lia.
Qed.

Lemma DaysInMonth_bounds y m : 0 ≤ m ≤ 11 → 28 ≤ DaysInMonth y m ≤ 31.
Proof.
  intros Hm. unfold DaysInMonth, MakeDay.
  rewrite (Z.div_small m), (Z.mod_small m), Z.add_0_r by lia.
  unfold day_of_month_start.
  set (y2 := y + (m + 1) `div` 12). set (m2 := (m + 1) `mod` 12).
  set (c := if bool_decide (m ≤ 1) then 1 else 0).
  set (mp := if bool_decide (m ≤ 1) then m + 10 else m - 2).
  set (c2 := if bool_decide (m2 ≤ 1) then 1 else 0).
  set (mp2 := if bool_decide (m2 ≤ 1) then m2 + 10 else m2 - 2).
  assert (Hnext : 0 ≤ mp < 12
                  ∧ ((mp < 11 ∧ y2 - c2 = y - c ∧ mp2 = mp + 1)
                     ∨ (mp = 11 ∧ y2 - c2 = y - c + 1 ∧ mp2 = 0))).
  { subst y2 m2 c mp c2 mp2.
    repeat case_bool_decide; Z.div_mod_to_equations; lia. }
  destruct Hnext as (Hmp & Hnext).
  set (Y := y - c) in *. set (Y2 := y2 - c2) in *.
  clearbody mp mp2 Y2 Y.
  destruct Hnext as [(Hlt & -> & ->) | (-> & -> & ->)];
    Z.div_mod_to_equations; lia.
Qed.

(** Every day number is a day of its month. *)
Lemma civil_of_day_valid z :
  (civil_of_day z).2 ≤ DaysInMonth (civil_of_day z).1.1 (civil_of_day z).1.2.
Proof.
  destruct (civil_of_day_inverse z) as (Hz & Hm & Hd).
  destruct (civil_of_day z) as [[y m] d] eqn:Hc. simpl in *.
  destruct (decide (d ≤ DaysInMonth y m)) as [|Hgt]; [done|].
  exfalso.
  pose proof (DaysInMonth_bounds y m Hm) as Hlen.
  set (y2 := y + (m + 1) `div` 12). set (m2 := (m + 1) `mod` 12).
  assert (Hm2 : 0 ≤ m2 ≤ 11).
  { subst m2. Z.div_mod_to_equations. lia. }
  pose proof (DaysInMonth_bounds y2 m2 Hm2) as Hlen2.
  assert (Hstart : day_of_month_start y2 m2
                   = day_of_month_start y m + DaysInMonth y m).
  { unfold DaysInMonth. rewrite (MakeDay_normal y m) by done.
    unfold MakeDay. fold y2 m2. lia. }
  pose proof (civil_of_day_in_month y2 m2 (d - 1 - DaysInMonth y m) Hm2) as Hin.
  rewrite Hstart in Hin.
  replace (day_of_month_start y m + DaysInMonth y m
           + (d - 1 - DaysInMonth y m)) with z in Hin by lia.
  rewrite Hc in Hin. specialize (Hin ltac:(lia)).
  injection Hin as Hy2 Hm2' _. subst m2.
  Z.div_mod_to_equations. lia.
Qed.

End Months.

(** ** Reading and printing dates *)

Section DateStrings.
Local Open Scope Z_scope.

Lemma digit_char_mod n : digit_char n = digit_char (n `mod` 10).
Proof. unfold digit_char. by rewrite Z.mod_mod. Qed.

Lemma digit_value_char n : digit_value (digit_char n) = Some (n `mod` 10).
Proof.
  unfold digit_value, digit_char.
  pose proof (Z.mod_pos_bound n 10 ltac:(lia)) as Hn.
  rewrite nat_ascii_embedding by lia.
  rewrite bool_decide_eq_true_2 by lia. f_equal. lia.
Qed.

Lemma digit_value_spec c x :
  digit_value c = Some x → 0 ≤ x ≤ 9 ∧ digit_char x = c.
Proof.
  unfold digit_value. case_bool_decide as Hc; [|done].
  intros [= <-]. split; [lia|]. unfold digit_char.
  rewrite Z.mod_small by lia.
  replace (48 + Z.to_nat (Z.of_nat (nat_of_ascii c) - 48))%nat
    with (nat_of_ascii c) by lia.
  apply ascii_nat_embedding.
Qed.

Lemma pad_2 n :
  pad 2 n "" = String (digit_char (n `div` 10)) (String (digit_char n) "").
Proof. reflexivity. Qed.

Lemma pad_4 n :
  pad 4 n ""
  = String (digit_char (((n `div` 10) `div` 10) `div` 10))
      (String (digit_char ((n `div` 10) `div` 10))
         (String (digit_char (n `div` 10)) (String (digit_char n) ""))).
Proof. reflexivity. Qed.

Lemma number2_spec a b n :
  number2 a b = Some n →
  0 ≤ n ≤ 99 ∧ pad 2 n "" = String a (String b "").
Proof.
  unfold number2. intros Hn.
  destruct (digit_value a) as [x|] eqn:Ha; [|done].
  destruct (digit_value b) as [y|] eqn:Hb; [|done].
  simpl in Hn. injection Hn as <-.
  apply digit_value_spec in Ha as [Hx <-], Hb as [Hy <-].
  split; [lia|]. rewrite pad_2.
  rewrite (digit_char_mod (10 * x + y)), (digit_char_mod y).
  repeat (apply (f_equal2 String);
          [apply (f_equal digit_char); Z.div_mod_to_equations; lia|]).
  reflexivity.
Qed.

Lemma number4_spec a b c d n :
  number4 a b c d = Some n →
  0 ≤ n ≤ 9999 ∧ pad 4 n "" = String a (String b (String c (String d ""))).
Proof.
  unfold number4. intros Hn.
  destruct (number2 a b) as [x|] eqn:Hab; [|done].
  destruct (number2 c d) as [y|] eqn:Hcd; [|done].
  simpl in Hn. injection Hn as <-.
  apply number2_spec in Hab as [Hx Hab], Hcd as [Hy Hcd].
  split; [lia|]. rewrite pad_4.
  rewrite pad_2 in Hab, Hcd.
  injection Hab as <- <-. injection Hcd as <- <-.
  rewrite (digit_char_mod ((100 * x + y) `div` 10)),
    (digit_char_mod (100 * x + y)), (digit_char_mod y),
    (digit_char_mod (x `div` 10)), (digit_char_mod x),
    (digit_char_mod (y `div` 10)),
    (digit_char_mod (((100 * x + y) `div` 10) `div` 10)),
    (digit_char_mod ((((100 * x + y) `div` 10) `div` 10) `div` 10)).
  repeat (apply (f_equal2 String);
          [apply (f_equal digit_char); Z.div_mod_to_equations; lia|]).
  reflexivity.
Qed.

Lemma number2_pad n : 0 ≤ n ≤ 99 →
  number2 (digit_char (n `div` 10)) (digit_char n) = Some n.
Proof.
  intros Hn. unfold number2. rewrite !digit_value_char. simpl.
  f_equal. Z.div_mod_to_equations. lia.
Qed.

Lemma number4_pad n : 0 ≤ n ≤ 9999 →
  number4 (digit_char (((n `div` 10) `div` 10) `div` 10))
    (digit_char ((n `div` 10) `div` 10)) (digit_char (n `div` 10))
    (digit_char n) = Some n.
Proof.
  intros Hn. unfold number4, number2. rewrite !digit_value_char. simpl.
  f_equal. Z.div_mod_to_equations. lia.
Qed.

(** What a successful parse says about the string and the time value. *)
Lemma Date_parse_inv s t :
  Date_parse s = Some t →
  ∃ y m d,
    s = pad 4 y "" +:+ "-" +:+ pad 2 m "" +:+ "-" +:+ pad 2 d ""
    ∧ 0 ≤ y ≤ 9999 ∧ 1 ≤ m ≤ 12 ∧ 1 ≤ d ≤ DaysInMonth y (m - 1)
    ∧ t = (day_of_month_start y (m - 1) + d - 1) * msPerDay.
Proof.
  unfold Date_parse. intros Hp.
  repeat (match type of Hp with
          | match ?x with _ => _ end = Some _ => destruct x; try done
          end).
  destruct (number4 _ _ _ _) as [y|] eqn:Hy; [|done].
  destruct (number2 a3 a4) as [m|] eqn:Hm; [|done].
  destruct (number2 a5 a6) as [d|] eqn:Hd; [|done].
  simpl in Hp. case_bool_decide as Hvalid; [|done].
  injection Hp as <-.
  apply number4_spec in Hy as [Hy Hys].
  apply number2_spec in Hm as [_ Hms], Hd as [_ Hds].
  exists y, m, d. rewrite Hys, Hms, Hds.
  split; [done|]. split; [done|]. split; [lia|]. split; [lia|].
  unfold MakeDate. rewrite MakeDay_normal by lia. lia.
Qed.

Lemma civil_fields_of_day z y m d :
  civil_of_day z = (y, m, d) →
  YearFromTime (z * msPerDay) = y ∧ MonthFromTime (z * msPerDay) = m
  ∧ DateFromTime (z * msPerDay) = d.
Proof.
  intros Hc. unfold YearFromTime, MonthFromTime, DateFromTime.
  by rewrite Day_of_midnight, Hc.
Qed.

(** Printing a parsed date gives the string that was parsed. *)
Lemma iso_date_Date_parse s t : Date_parse s = Some t → iso_date t = s.
Proof.
  intros (y & m & d & -> & Hy & Hm & Hd & ->)%Date_parse_inv.
  pose proof (civil_of_day_in_month y (m - 1) (d - 1) ltac:(lia) ltac:(lia))
    as Hc.
  replace (day_of_month_start y (m - 1) + (d - 1))
    with (day_of_month_start y (m - 1) + d - 1) in Hc by lia.
  apply civil_fields_of_day in Hc as (Hyr & Hmo & Hda).
  unfold iso_date, iso_year. rewrite Hyr, Hmo, Hda.
  rewrite bool_decide_eq_true_2 by done.
  by replace (m - 1 + 1) with m by lia; replace (d - 1 + 1) with d by lia.
Qed.

(** Parsing the printed date of a day of the years 0000 to 9999 gives the
    midnight of that day. *)
Lemma Date_parse_iso_date z :
  0 ≤ (civil_of_day z).1.1 ≤ 9999 →
  Date_parse (iso_date (z * msPerDay)) = Some (z * msPerDay).
Proof.
  intros Hy.
  destruct (civil_of_day_inverse z) as (Hz & Hm & Hd).
  pose proof (civil_of_day_valid z) as Hlen.
  destruct (civil_of_day z) as [[y m] d] eqn:Hc. simpl in *.
  apply civil_fields_of_day in Hc as (Hyr & Hmo & Hda).
  unfold iso_date, iso_year. rewrite Hyr, Hmo, Hda.
  rewrite bool_decide_eq_true_2 by done.
  rewrite pad_4, !pad_2.
  change (Date_parse _) with
    (y' ← number4 (digit_char (((y `div` 10) `div` 10) `div` 10))
           (digit_char ((y `div` 10) `div` 10)) (digit_char (y `div` 10))
           (digit_char y);
     m' ← number2 (digit_char ((m + 1) `div` 10)) (digit_char (m + 1));
     d' ← number2 (digit_char (d `div` 10)) (digit_char d);
     if bool_decide (1 ≤ m' ≤ 12 ∧ 1 ≤ d' ≤ DaysInMonth y' (m' - 1))
     then Some (MakeDate (MakeDay y' (m' - 1) d') 0) else None).
  rewrite number4_pad, !number2_pad by lia. simpl.
  replace (m + 1 - 1) with m by lia.
  rewrite bool_decide_eq_true_2 by lia.
  unfold MakeDate. rewrite MakeDay_normal by lia. f_equal. lia.
Qed.

(** The days of the years 0000 to 9999. *)
Lemma year_in_range z :
  -719528 ≤ z < 2932897 ↔ 0 ≤ (civil_of_day z).1.1 ≤ 9999.
Proof.
  unfold civil_of_day. cbn [fst snd].
  set (era := (z + 719468) `div` 146097).
  set (doe := (z + 719468) `mod` 146097).
  assert (Hz : z = era * 146097 + doe - 719468 ∧ 0 ≤ doe < 146097).
  { subst era doe. Z.div_mod_to_equations. lia. }
  clearbody era doe. destruct Hz as (-> & Hdoe).
  set (yoe := (doe - doe `div` 1460 + doe `div` 36524 - doe `div` 146096)
                `div` 365).
  set (doy := doe - (365 * yoe + yoe `div` 4 - yoe `div` 100)).
  set (mp := (5 * doy + 2) `div` 153).
  assert (Hf : 0 ≤ yoe < 400 ∧ 0 ≤ mp < 12 ∧ 0 ≤ doy < 366
               ∧ (mp < 10 ↔ doy < 306)
               ∧ doe = yoe * 365 + yoe `div` 4 - yoe `div` 100 + doy).
  { subst mp doy yoe. Z.div_mod_to_equations. lia. }
  clearbody doy mp yoe.
  destruct Hf as (Hyoe & Hmp & Hdoy & Hmar & ->).
  repeat case_bool_decide; Z.div_mod_to_equations; lia.
Qed.

Lemma Date_parse_range s t :
  Date_parse s = Some t → -719528 ≤ Day t < 2932897.
Proof.
  intros Hp. pose proof (iso_date_Date_parse s t Hp) as Hprint.
  apply Date_parse_inv in Hp as (y & m & d & _ & Hy & Hm & Hd & ->).
  rewrite Day_of_midnight. apply year_in_range.
  rewrite <- Z.add_sub_assoc.
  by rewrite civil_of_day_in_month by lia.
Qed.

End DateStrings.

(** ** The weekday rule, date by date *)

Section WeekdayRule.
Local Open Scope Z_scope.

Lemma WeekDay_midnight z : WeekDay (z * msPerDay) = (z + 4) `mod` 7.
Proof. unfold WeekDay. by rewrite Day_of_midnight. Qed.

(** The local weekday at a UTC midnight is the weekday of the day shifted
    by the whole days of the offset: none east of Greenwich (below 24 h),
    one day back west of it. *)
Lemma getDay_midnight tz z :
  getDay tz (z * msPerDay) = (z + tz `div` msPerDay + 4) `mod` 7.
Proof.
  unfold getDay, WeekDay, LocalTime, Day. f_equal. f_equal.
  rewrite Z.add_comm, Z.div_add by (unfold msPerDay; lia). lia.
Qed.

Lemma getDay_range tz t : 0 ≤ getDay tz t ≤ 6.
Proof.
  unfold getDay, WeekDay.
  pose proof (Z.mod_pos_bound (Day (LocalTime tz t) + 4) 7). lia.
Qed.

(** The days [z] of [a, a + n) with [(z + c) mod 7 = w] are one week
    apart, from the first such day on. *)
Lemma filter_weekday_seqZ (a c w : Z) (n : nat) :
  0 ≤ w < 7 →
  filter (λ z, (z + c) `mod` 7 = w) (seqZ a (Z.of_nat n))
  = (λ k, a + (w - a - c) `mod` 7 + 7 * k)
      <$> seqZ 0 ((Z.of_nat n - (w - a - c) `mod` 7 + 6) `div` 7).
Proof.
  intros Hw. set (r := (w - a - c) `mod` 7).
  assert (Hr : 0 ≤ r < 7) by (apply Z.mod_pos_bound; lia).
  induction n as [|n IH].
  - simpl. rewrite seqZ_nil by lia.
    rewrite (seqZ_nil 0); [done|]. Z.div_mod_to_equations. lia.
  - rewrite seqZ_S, filter_app, IH, filter_cons, filter_nil.
    set (cnt := (Z.of_nat n - r + 6) `div` 7).
    assert (Hcnt : 0 ≤ cnt).
    { subst cnt. Z.div_mod_to_equations. lia. }
    case_decide as Hmatch.
    + assert (Hnext : (Z.of_nat (S n) - r + 6) `div` 7 = cnt + 1
                      ∧ a + Z.of_nat n = a + r + 7 * cnt).
      { subst cnt r. Z.div_mod_to_equations. lia. }
      destruct Hnext as [-> ->].
      rewrite seqZ_app by lia. rewrite fmap_app. f_equal.
    + assert (Hnext : (Z.of_nat (S n) - r + 6) `div` 7 = cnt).
      { subst cnt r. Z.div_mod_to_equations. lia. }
      rewrite Hnext. by rewrite app_nil_r.
Qed.

Variable LocalTZA : Z.

(** [generateDates] in closed form: the first day on or after the start
    whose local weekday is the chosen one, and then every seventh day up to
    the end. *)
Lemma generateDates_weekly startDate0 endDate0 w ts te :
  Date_parse startDate0 = Some ts → Date_parse endDate0 = Some te →
  0 ≤ w < 7 →
  let first :=
    Day ts + (w - Day ts - (LocalTZA `div` msPerDay + 4)) `mod` 7 in
  WeekdayBatch.generateDates LocalTZA startDate0 endDate0 w
  = (λ k, iso_date ((first + 7 * k) * msPerDay))
      <$> seqZ 0 ((Day te - first + 7) `div` 7).
Proof.
  intros Hs He Hw first.
  rewrite (GenerateDatesFacts.generateDates_days _ _ _ _ _ _ Hs He).
  rewrite (list_filter_iff _
             (λ z, (z + (LocalTZA `div` msPerDay + 4)) `mod` 7 = w))
    by (intros z; rewrite getDay_midnight; by rewrite Z.add_assoc).
  subst first.
  set (r := (w - Day ts - (LocalTZA `div` msPerDay + 4)) `mod` 7).
  assert (Hr : 0 ≤ r < 7) by (apply Z.mod_pos_bound; lia).
  destruct (decide (0 ≤ Day te - Day ts + 1)) as [Hn|Hn].
  - rewrite <- (Z2Nat.id (Day te - Day ts + 1)) at 1 by done.
    rewrite filter_weekday_seqZ by done. fold r.
    rewrite Z2Nat.id by done. rewrite <- list_fmap_compose.
    clearbody r.
    replace (Day te - Day ts + 1 - r + 6) with (Day te - (Day ts + r) + 7)
      by lia.
    done.
  - rewrite seqZ_nil by lia. rewrite seqZ_nil; [done|].
    clearbody r. Z.div_mod_to_equations. lia.
Qed.

(** Which strings [generateDates] returns. *)
Lemma generateDates_elem startDate0 endDate0 w ts te x :
  Date_parse startDate0 = Some ts → Date_parse endDate0 = Some te →
  x ∈ WeekdayBatch.generateDates LocalTZA startDate0 endDate0 w
  ↔ ∃ t, Date_parse x = Some t ∧ ts ≤ t ≤ te
         ∧ WeekDay (t + LocalTZA `div` msPerDay * msPerDay) = w.
Proof.
  intros Hs He.
  rewrite (GenerateDatesFacts.generateDates_days _ _ _ _ _ _ Hs He).
  pose proof (GenerateDatesFacts.Date_parse_midnight _ _ Hs) as Hts.
  pose proof (GenerateDatesFacts.Date_parse_midnight _ _ He) as Hte.
  pose proof (Date_parse_range _ _ Hs) as Hrs.
  pose proof (Date_parse_range _ _ He) as Hre.
  rewrite list_elem_of_fmap. split.
  - intros (z & -> & Hz). apply list_elem_of_filter in Hz as [Hday Hz].
    apply elem_of_seqZ in Hz. exists (z * msPerDay).
    split; [|split].
    + apply Date_parse_iso_date, year_in_range. lia.
    + rewrite Hts, Hte. unfold msPerDay. lia.
    + rewrite <- Z.mul_add_distr_r, WeekDay_midnight.
      by rewrite getDay_midnight in Hday.
  - intros (t & Hx & Ht & Hday).
    pose proof (GenerateDatesFacts.Date_parse_midnight _ _ Hx) as Htt.
    exists (Day t). split.
    + rewrite <- Htt. symmetry. by apply iso_date_Date_parse.
    + apply list_elem_of_filter. split.
      * rewrite getDay_midnight. rewrite Htt in Hday.
        by rewrite <- Z.mul_add_distr_r, WeekDay_midnight in Hday.
      * apply elem_of_seqZ. rewrite Hts, Hte, Htt in Ht.
        unfold msPerDay in Ht. lia.
Qed.

End WeekdayRule.

(** X9.  On a host in UTC or east of Greenwich (offset below 24 hours),
    and for valid start and end dates, [generateDates] returns exactly the
    dates from start to end, both included, that fall on the chosen
    weekday. *)
Theorem weekday_rule_east_of_greenwich
    (LocalTZA : Z) (startDate0 endDate0 : string) (w ts te : Z) :
  (0 ≤ LocalTZA < msPerDay)%Z →
  Date_parse startDate0 = Some ts → Date_parse endDate0 = Some te →
  ∀ x, x ∈ WeekdayBatch.generateDates LocalTZA startDate0 endDate0 w
       ↔ ∃ t, Date_parse x = Some t ∧ (ts ≤ t ≤ te)%Z ∧ WeekDay t = w.
Proof.
  intros Htz Hs He x.
  rewrite (generateDates_elem LocalTZA _ _ _ _ _ _ Hs He).
  by rewrite Z.div_small, Z.mul_0_l by done; setoid_rewrite Z.add_0_r.
Qed.

Lemma weekday_rule_east_of_greenwich_witness :
  "2025-01-15" ∈ WeekdayBatch.generateDates 28800000 "2025-01-01"
                   "2025-01-31" 3.
Proof.
  refine (proj2 (weekday_rule_east_of_greenwich 28800000 "2025-01-01"
                   "2025-01-31" 3 1735689600000 1738281600000 _ _ _
                   "2025-01-15") _).
  - unfold msPerDay. lia.
  - vm_compute. reflexivity.
  - vm_compute. reflexivity.
  - exists 1736899200000%Z. vm_compute. intuition discriminate.
Defined.

(** X10.  On a host west of Greenwich (offset of at most 24 hours), and
    for valid start and end dates, [generateDates] returns exactly the
    dates from start to end whose previous day falls on the chosen
    weekday: each returned date is one weekday later than asked. *)
Theorem weekday_rule_west_of_greenwich
    (LocalTZA : Z) (startDate0 endDate0 : string) (w ts te : Z) :
  (- msPerDay ≤ LocalTZA < 0)%Z →
  Date_parse startDate0 = Some ts → Date_parse endDate0 = Some te →
  ∀ x, x ∈ WeekdayBatch.generateDates LocalTZA startDate0 endDate0 w
       ↔ ∃ t, Date_parse x = Some t ∧ (ts ≤ t ≤ te)%Z
              ∧ WeekDay (t - msPerDay) = w.
Proof.
  intros Htz Hs He x.
  rewrite (generateDates_elem LocalTZA _ _ _ _ _ _ Hs He).
  assert (LocalTZA `div` msPerDay = -1)%Z as ->.
  { unfold msPerDay in *. Z.div_mod_to_equations. lia. }
  split; intros (t & Hx & Ht & Hd); exists t; (split; [done|split; [done|]]).
  - by replace (t - msPerDay)%Z with (t + -1 * msPerDay)%Z by lia.
  - by replace (t + -1 * msPerDay)%Z with (t - msPerDay)%Z by lia.
Qed.

Lemma weekday_rule_west_of_greenwich_witness :
  "2025-01-16" ∈ WeekdayBatch.generateDates (-25200000) "2025-01-01"
                   "2025-01-31" 3.
Proof.
  refine (proj2 (weekday_rule_west_of_greenwich (-25200000) "2025-01-01"
                   "2025-01-31" 3 1735689600000 1738281600000 _ _ _
                   "2025-01-16") _).
  - unfold msPerDay. lia.
  - vm_compute. reflexivity.
  - vm_compute. reflexivity.
  - exists 1736985600000%Z. vm_compute. intuition discriminate.
Defined.

(** X11.  [generateDates] returns no date at all when the start or the end
    is the empty string (what a cleared date field gives), when both are
    calendar dates and the end is before the start, and when the weekday
    is not one of 0..6; none of this depends on the offset of the host. *)
Theorem weekday_rule_without_dates
    (LocalTZA : Z) (startDate0 endDate0 : string) (w : Z) :
  WeekdayBatch.generateDates LocalTZA "" endDate0 w = []
  ∧ WeekdayBatch.generateDates LocalTZA startDate0 "" w = []
  ∧ (∀ ts te, Date_parse startDate0 = Some ts →
              Date_parse endDate0 = Some te → (te < ts)%Z →
              WeekdayBatch.generateDates LocalTZA startDate0 endDate0 w = [])
  ∧ (¬ (0 ≤ w ≤ 6)%Z →
     WeekdayBatch.generateDates LocalTZA startDate0 endDate0 w = []).
Proof.
  split; [by apply GenerateDatesFacts.generateDates_invalid; left|].
  split; [by apply GenerateDatesFacts.generateDates_invalid; right|].
  split.
  - intros ts te Hs He Hlt.
    rewrite (GenerateDatesFacts.generateDates_days _ _ _ _ _ _ Hs He).
    rewrite seqZ_nil; [done|].
    rewrite (GenerateDatesFacts.Date_parse_midnight _ _ Hs),
      (GenerateDatesFacts.Date_parse_midnight _ _ He) in Hlt.
    unfold msPerDay in Hlt. lia.
  - intros Hw.
    destruct (Date_parse startDate0) as [ts|] eqn:Hs;
      [|by apply GenerateDatesFacts.generateDates_invalid; left].
    destruct (Date_parse endDate0) as [te|] eqn:He;
      [|by apply GenerateDatesFacts.generateDates_invalid; right].
    rewrite (GenerateDatesFacts.generateDates_days _ _ _ _ _ _ Hs He).
    rewrite (elem_of_nil_inv (filter _ _)); [done|].
    intros z [Hday _]%list_elem_of_filter.
    pose proof (getDay_range LocalTZA (z * msPerDay)). lia.
Qed.

Lemma weekday_rule_without_dates_witness :
  WeekdayBatch.generateDates 0 "2025-01-31" "2025-01-01" 3 = []
  ∧ WeekdayBatch.generateDates 0 "2025-01-01" "2025-01-31" 7 = [].
Proof.
  split.
  - refine (proj1 (proj2 (proj2 (weekday_rule_without_dates 0
              "2025-01-31" "2025-01-01" 3)))
              1738281600000%Z 1735689600000%Z _ _ _).
    + vm_compute. reflexivity.
    + vm_compute. reflexivity.
    + lia.
  - refine (proj2 (proj2 (proj2 (weekday_rule_without_dates 0
              "2025-01-01" "2025-01-31" 7))) _). lia.
Defined.


(** ** The month grid *)

Module CalendarGridFacts.
Section HostTimeZone.
Import CalendarGrid.
Local Open Scope Z_scope.

Variable LocalTZA : Z.

Lemma TimeWithinDay_range t : 0 ≤ TimeWithinDay t < msPerDay.
Proof. unfold TimeWithinDay. apply Z.mod_pos_bound. unfold msPerDay. lia. Qed.

Lemma Day_MakeDate day time :
  0 ≤ time < msPerDay → Day (MakeDate day time) = day.
Proof.
  intros Ht. unfold Day, MakeDate.
  rewrite Z.add_comm, Z.div_add, Z.div_small by (unfold msPerDay in *; lia).
  lia.
Qed.

(** The printed date only depends on the day. *)
Lemma iso_date_Day t : iso_date t = iso_date (Day t * msPerDay).
Proof.
  unfold iso_date, YearFromTime, MonthFromTime, DateFromTime.
  by rewrite Day_of_midnight.
Qed.

(** The day of the month [dt ≤ 28] of a month, counted from any month
    number, is where [MakeDay] puts it. *)
Lemma civil_of_MakeDay y mo dt :
  1 ≤ dt ≤ 28 →
  civil_of_day (MakeDay y mo dt) = (y + mo `div` 12, mo `mod` 12, dt).
Proof.
  intros Hdt. unfold MakeDay.
  assert (Hm : 0 ≤ mo `mod` 12 ≤ 11).
  { pose proof (Z.mod_pos_bound mo 12). lia. }
  pose proof (DaysInMonth_bounds (y + mo `div` 12) (mo `mod` 12) Hm).
  rewrite <- Z.add_sub_assoc, civil_of_day_in_month by lia.
  f_equal. lia.
Qed.

Lemma MakeDay_date y mo dt : MakeDay y mo dt = MakeDay y mo 1 + dt - 1.
Proof. unfold MakeDay. lia. Qed.

(** The last day of a month, found as day 0 of the next month. *)
Lemma civil_of_month_end y mo :
  civil_of_day (MakeDay y (mo + 1) 0)
  = (y + mo `div` 12, mo `mod` 12,
     MakeDay y (mo + 1) 1 - MakeDay y mo 1).
Proof.
  set (Y := y + mo `div` 12). set (M := mo `mod` 12).
  assert (Hm : 0 ≤ M ≤ 11).
  { subst M. pose proof (Z.mod_pos_bound mo 12). lia. }
  pose proof (DaysInMonth_bounds Y M Hm) as Hlen.
  assert (Hspan : MakeDay y (mo + 1) 1 - MakeDay y mo 1 = DaysInMonth Y M).
  { unfold DaysInMonth. subst Y M.
    by rewrite MakeDay_month_add, MakeDay_carry. }
  rewrite Hspan.
  replace (MakeDay y (mo + 1) 0)
    with (day_of_month_start Y M + (DaysInMonth Y M - 1)).
  - rewrite civil_of_day_in_month by lia. f_equal. lia.
  - rewrite <- Hspan. rewrite (MakeDay_date y (mo + 1) 0).
    subst Y M. rewrite <- (MakeDay_carry y mo 1).
    rewrite (MakeDay_normal (y + mo `div` 12) (mo `mod` 12)) by done. lia.
Qed.

Lemma month_span_bounds y mo (n : nat) :
  28 * Z.of_nat n ≤ MakeDay y (mo + Z.of_nat n) 1 - MakeDay y mo 1
  ≤ 31 * Z.of_nat n.
Proof.
  induction n as [|n IH].
  - rewrite Z.add_0_r. lia.
  - pose proof (civil_of_month_end y (mo + Z.of_nat n)) as Hend.
    assert (Hm : 0 ≤ (mo + Z.of_nat n) `mod` 12 ≤ 11).
    { pose proof (Z.mod_pos_bound (mo + Z.of_nat n) 12). lia. }
    pose proof (DaysInMonth_bounds (y + (mo + Z.of_nat n) `div` 12)
                  ((mo + Z.of_nat n) `mod` 12) Hm) as Hlen.
    unfold DaysInMonth in Hlen.
    rewrite MakeDay_month_add, MakeDay_carry in Hlen.
    replace (mo + Z.of_nat (S n)) with (mo + Z.of_nat n + 1) by lia.
    lia.
Qed.

Lemma not_two_digit_year (year : Z) :
  100 ≤ year → (if bool_decide (0 ≤ year ≤ 99) then 1900 + year else year)
               = year.
Proof. intros Hy. by rewrite bool_decide_eq_false_2 by lia. Qed.

(** The loop of [generateMonthDates] from a date whose local day is the
    [dt]-th (at most the 28th) of month [mo] of year [y]: the local
    midnights of all days of the [n] months, each printed in UTC. *)
Lemma generateMonthDates_loop_days (n : nat) :
  ∀ current y mo dt,
    Day (LocalTime LocalTZA current) = MakeDay y mo dt →
    1 ≤ dt ≤ 28 → 100 ≤ y + mo `div` 12 →
    generateMonthDates_loop LocalTZA n current
    = (λ z, iso_date (z * msPerDay - LocalTZA))
        <$> seqZ (MakeDay y mo 1)
              (MakeDay y (mo + Z.of_nat n) 1 - MakeDay y mo 1).
Proof.
  induction n as [|n IH]; intros current y mo dt Hday Hdt Hyear.
  - simpl. rewrite Z.add_0_r, Z.sub_diag. by rewrite seqZ_nil.
  - cbn [generateMonthDates_loop]. cbn zeta.
    pose proof (civil_of_MakeDay y mo dt Hdt) as Hciv.
    rewrite <- Hday in Hciv.
    assert (HY : getFullYear LocalTZA current = y + mo `div` 12).
    { unfold getFullYear, YearFromTime. by rewrite Hciv. }
    assert (HM : getMonth LocalTZA current = mo `mod` 12).
    { unfold getMonth, MonthFromTime. by rewrite Hciv. }
    assert (HD : DateFromTime (LocalTime LocalTZA current) = dt).
    { unfold DateFromTime. by rewrite Hciv. }
    rewrite HY, HM.
    set (L := MakeDay y (mo + 1) 1 - MakeDay y mo 1).
    assert (Hdays : getDate LocalTZA
                      (Date_of_components LocalTZA (y + mo `div` 12)
                         (mo `mod` 12 + 1) 0) = L).
    { unfold getDate, Date_of_components, LocalTime, UTC, DateFromTime.
      rewrite not_two_digit_year by done.
      rewrite Z.sub_add, Day_MakeDate by (unfold msPerDay; lia).
      rewrite MakeDay_month_add, civil_of_month_end. done. }
    rewrite Hdays.
    assert (Hmonth :
      (λ day, split_T_0
                (toISOString
                   (Date_of_components LocalTZA (y + mo `div` 12)
                      (mo `mod` 12) day))) <$> seqZ 1 L
      = (λ z, iso_date (z * msPerDay - LocalTZA))
          <$> seqZ (MakeDay y mo 1) L).
    { replace (MakeDay y mo 1) with (MakeDay y mo 1 - 1 + 1) at 1 by lia.
      rewrite <- fmap_add_seqZ, <- list_fmap_compose.
      apply list_fmap_ext. intros _ day _. unfold compose. cbv beta.
      rewrite split_T_0_toISOString.
      unfold Date_of_components, UTC, MakeDate.
      rewrite not_two_digit_year, MakeDay_carry by done.
      rewrite (MakeDay_date y mo day). f_equal. lia. }
    rewrite Hmonth.
    rewrite (IH _ y (mo + 1) dt); [| |done|].
    + pose proof (month_span_bounds y mo 1) as H1.
      change (Z.of_nat 1) with 1 in H1. fold L in H1.
      pose proof (month_span_bounds y (mo + 1) n) as Hn.
      rewrite <- fmap_app. f_equal.
      replace (MakeDay y (mo + Z.of_nat (S n)) 1 - MakeDay y mo 1)
        with (L + (MakeDay y (mo + 1 + Z.of_nat n) 1 - MakeDay y (mo + 1) 1))
        by (subst L; replace (mo + Z.of_nat (S n))
                       with (mo + 1 + Z.of_nat n) by lia; lia).
      rewrite seqZ_app by lia. f_equal. f_equal. subst L. lia.
    + unfold setMonth, LocalTime, UTC in *.
      rewrite Z.sub_add, Day_MakeDate by apply TimeWithinDay_range.
      unfold YearFromTime, MonthFromTime, DateFromTime.
      rewrite Hciv. simpl. by rewrite MakeDay_month_add.
    + Z.div_mod_to_equations. lia.
Qed.

(** After [today.setDate(1)] the local date is the first of the month. *)
Lemma setDate_first now :
  Day (LocalTime LocalTZA (setDate LocalTZA now 1))
  = MakeDay (getFullYear LocalTZA now) (getMonth LocalTZA now) 1.
Proof.
  unfold setDate, LocalTime, UTC, getFullYear, getMonth.
  by rewrite Z.sub_add, Day_MakeDate by apply TimeWithinDay_range.
Qed.

Lemma getMonth_range t : 0 ≤ getMonth LocalTZA t ≤ 11.
Proof.
  unfold getMonth, MonthFromTime.
  by destruct (civil_of_day_inverse (Day (LocalTime LocalTZA t))) as (_ & ? & _).
Qed.

Lemma calendarDates_days now (n : nat) :
  100 ≤ getFullYear LocalTZA now →
  calendarDates LocalTZA now n
  = (λ z, iso_date (z * msPerDay - LocalTZA))
      <$> seqZ (MakeDay (getFullYear LocalTZA now) (getMonth LocalTZA now) 1)
            (MakeDay (getFullYear LocalTZA now)
               (getMonth LocalTZA now + Z.of_nat n) 1
             - MakeDay (getFullYear LocalTZA now) (getMonth LocalTZA now) 1).
Proof.
  intros Hy. unfold calendarDates, generateMonthDates.
  apply (generateMonthDates_loop_days n _ _ _ 1).
  - apply setDate_first.
  - lia.
  - pose proof (getMonth_range now). rewrite Z.div_small by lia. lia.
Qed.

End HostTimeZone.
End CalendarGridFacts.

(** ** Spacing and number of the generated dates *)

(** X12.  For valid start and end dates and a weekday in 0..6, on a host
    with a fixed offset: consecutive dates of [generateDates] are exactly one week apart,
    the first one lies in the first week from the start, no date comes
    twice, and a range of [n] days gives [n div 7] or [n div 7 + 1]
    dates. *)
Theorem generated_dates_are_weekly
    (LocalTZA : Z) (startDate0 endDate0 : string) (w ts te : Z) :
  Date_parse startDate0 = Some ts → Date_parse endDate0 = Some te →
  (0 ≤ w ≤ 6)%Z →
  let out := WeekdayBatch.generateDates LocalTZA startDate0 endDate0 w in
  (∀ i x y, out !! i = Some x → out !! S i = Some y →
     ∃ t, Date_parse x = Some t
          ∧ Date_parse y = Some (t + 7 * msPerDay)%Z)
  ∧ (∀ x, out !! 0%nat = Some x →
     ∃ t, Date_parse x = Some t ∧ (ts ≤ t < ts + 7 * msPerDay)%Z)
  ∧ NoDup out
  ∧ ((ts ≤ te)%Z →
     let n := (Day te - Day ts + 1)%Z in
     (n `div` 7 ≤ Z.of_nat (length out) ≤ n `div` 7 + 1)%Z).
Proof.
  intros Hs He Hw out. subst out.
  rewrite (generateDates_weekly LocalTZA _ _ _ _ _ Hs He) by lia.
  cbn zeta.
  set (r := ((w - Day ts - (LocalTZA `div` msPerDay + 4)) `mod` 7)%Z).
  assert (Hr : (0 ≤ r < 7)%Z) by (apply Z.mod_pos_bound; lia).
  clearbody r.
  set (cnt := ((Day te - (Day ts + r) + 7) `div` 7)%Z).
  assert (Hcnt : (7 * cnt ≤ Day te - (Day ts + r) + 7 < 7 * cnt + 7)%Z).
  { subst cnt. Z.div_mod_to_equations. lia. }
  clearbody cnt.
  pose proof (Date_parse_range _ _ Hs) as Hrs.
  pose proof (Date_parse_range _ _ He) as Hre.
  pose proof (GenerateDatesFacts.Date_parse_midnight _ _ Hs) as Hts.
  pose proof (GenerateDatesFacts.Date_parse_midnight _ _ He) as Hte.
  assert (Hparse : ∀ k : Z, (0 ≤ k < cnt)%Z →
            Date_parse (iso_date ((Day ts + r + 7 * k) * msPerDay))
            = Some ((Day ts + r + 7 * k) * msPerDay)%Z).
  { intros k Hk. apply Date_parse_iso_date, year_in_range. lia. }
  assert (Hlook : ∀ (i : nat) x,
            ((λ k : Z, iso_date ((Day ts + r + 7 * k) * msPerDay))
               <$> seqZ 0 cnt) !! i = Some x →
            (Z.of_nat i < cnt)%Z
            ∧ x = iso_date ((Day ts + r + 7 * Z.of_nat i) * msPerDay)).
  { intros i x Hi. rewrite list_lookup_fmap in Hi.
    apply fmap_Some in Hi as (k & Hk & ->).
    apply lookup_seqZ in Hk as [-> Hk]. by rewrite Z.add_0_l. }
  split; [|split; [|split]].
  - intros i x y Hx Hy.
    apply Hlook in Hx as [Hi ->], Hy as [Hj ->].
    exists ((Day ts + r + 7 * Z.of_nat i) * msPerDay)%Z.
    rewrite !Hparse by lia. split; [done|]. f_equal.
    unfold msPerDay. lia.
  - intros x Hx. apply Hlook in Hx as [Hi ->].
    exists ((Day ts + r + 7 * Z.of_nat 0) * msPerDay)%Z.
    rewrite Hparse by lia. split; [done|].
    rewrite Hts at 1 4. unfold msPerDay. lia.
  - apply NoDup_fmap_2_strong; [|apply NoDup_seqZ].
    intros k1 k2 Hk1%elem_of_seqZ Hk2%elem_of_seqZ Heq.
    apply (f_equal Date_parse) in Heq.
    rewrite !Hparse in Heq by lia. injection Heq as Heq.
    unfold msPerDay in Heq. lia.
  - intros Hle. rewrite length_fmap, length_seqZ.
    rewrite Hts, Hte in Hle. unfold msPerDay in Hle.
    Z.div_mod_to_equations. lia.
Qed.

Lemma generated_dates_are_weekly_witness :
  NoDup (WeekdayBatch.generateDates 28800000 "2025-01-01" "2025-01-31" 3).
Proof.
  refine (proj1 (proj2 (proj2 (generated_dates_are_weekly 28800000
            "2025-01-01" "2025-01-31" 3 1735689600000 1738281600000
            _ _ _)))).
  - vm_compute. reflexivity.
  - vm_compute. reflexivity.
  - lia.
Defined.

(** ** The initial date range *)

Lemma setDate_add_days tz t k :
  setDate tz t (getDate tz t + k) = (t + k * msPerDay)%Z.
Proof.
  unfold setDate, getDate. rewrite MakeDay_of_fields, MakeDate_Day.
  unfold UTC, LocalTime. lia.
Qed.

Lemma Day_add_days t k : Day (t + k * msPerDay) = (Day t + k)%Z.
Proof. unfold Day. by rewrite Z.div_add by (unfold msPerDay; lia). Qed.

Lemma setDate_across_add_days tz_now tz_then t k :
  setDate_across tz_now tz_then t (getDate tz_now t + k)
  = (t + k * msPerDay + (tz_now - tz_then))%Z.
Proof.
  unfold setDate_across, getDate. rewrite MakeDay_of_fields, MakeDate_Day.
  unfold UTC, LocalTime. lia.
Qed.

(** X13.  The initial end date of the weekday page is the UTC date of the
    clock reading plus 28 days plus the difference between the offset of
    the host at the clock reading and its offset 28 local days later.  On
    a host whose offset stays the same over that time (no daylight-saving
    change), when the two readings of the clock fall on the same UTC day
    (of the years 0000 to 9999), the end date is exactly 28 days after the
    initial start date, and with these dates every weekday 0..6 generates
    four or five dates. *)
Theorem default_range_gives_four_or_five_dates
    (tz_now tz_then now1 now2 w : Z) :
  Day now1 = Day now2 →
  (-719528 ≤ Day now1)%Z → (Day now1 + 28 < 2932897)%Z → (0 ≤ w ≤ 6)%Z →
  Date_parse (initial_startDate now1) = Some (Day now1 * msPerDay)%Z
  ∧ initial_endDate tz_now tz_then now2
    = iso_date (now2 + 28 * msPerDay + (tz_now - tz_then))
  ∧ (tz_then = tz_now →
     Date_parse (initial_endDate tz_now tz_then now2)
     = Some (Day now1 * msPerDay + 28 * msPerDay)%Z
     ∧ (length (WeekdayBatch.generateDates tz_now (initial_startDate now1)
                  (initial_endDate tz_now tz_then now2) w) = 4
        ∨ length (WeekdayBatch.generateDates tz_now (initial_startDate now1)
                    (initial_endDate tz_now tz_then now2) w) = 5)).
Proof.
  intros Hsame Hlo Hhi Hw.
  assert (Hs : Date_parse (initial_startDate now1)
               = Some (Day now1 * msPerDay)%Z).
  { unfold initial_startDate.
    rewrite split_T_0_toISOString, CalendarGridFacts.iso_date_Day.
    apply Date_parse_iso_date, year_in_range. lia. }
  assert (Hend : initial_endDate tz_now tz_then now2
                 = iso_date (now2 + 28 * msPerDay + (tz_now - tz_then))).
  { unfold initial_endDate.
    by rewrite setDate_across_add_days, split_T_0_toISOString. }
  split; [done|]. split; [done|]. intros ->.
  assert (He : Date_parse (initial_endDate tz_now tz_now now2)
               = Some (Day now1 * msPerDay + 28 * msPerDay)%Z).
  { rewrite Hend, Z.sub_diag, Z.add_0_r.
    rewrite CalendarGridFacts.iso_date_Day, Day_add_days, <- Hsame.
    rewrite Date_parse_iso_date by (apply year_in_range; lia).
    f_equal. lia. }
  split; [done|].
  rewrite (generateDates_weekly tz_now _ _ _ _ _ Hs He) by lia.
  cbn zeta. rewrite length_fmap, length_seqZ.
  rewrite <- Z.mul_add_distr_r, !Day_of_midnight.
  set (r := ((w - Day now1 - (tz_now `div` msPerDay + 4)) `mod` 7)%Z).
  assert (Hr : (0 ≤ r < 7)%Z) by (apply Z.mod_pos_bound; lia).
  clearbody r.
  destruct (decide (r = 0%Z)) as [->|Hne]; [right|left].
  - replace (Day now1 + 28 - (Day now1 + 0) + 7)%Z with (5 * 7)%Z by lia.
    by rewrite Z.div_mul.
  - assert (((Day now1 + 28 - (Day now1 + r) + 7) `div` 7 = 4)%Z) as ->;
      [|done].
    Z.div_mod_to_equations. lia.
Qed.

Lemma default_range_gives_four_or_five_dates_witness :
  Date_parse (initial_endDate 28800000 28800000 1736899200123)
  = Some (Day 1736899200000 * msPerDay + 28 * msPerDay)%Z.
Proof.
  refine (proj1 (proj2 (proj2 (default_range_gives_four_or_five_dates
            28800000 28800000 1736899200000 1736899200123 3 _ _ _ _))
            eq_refl)).
  - vm_compute. reflexivity.
  - vm_compute. discriminate.
  - vm_compute. reflexivity.
  - lia.
Defined.

(** Across the start of daylight saving the range is a day shorter: in
    Berlin (one hour east in winter, two in summer) a page opened at
    2025-03-15T00:00Z starts with the range 15 March to 11 April. *)
Example default_range_across_daylight_saving :
  initial_startDate 1741996800000 = "2025-03-15"
  ∧ initial_endDate 3600000 7200000 1741996800000 = "2025-04-11".
Proof. by vm_compute. Qed.

(** ** The calendar grid on the two sides of Greenwich *)

(** X14.  On a host in UTC or west of Greenwich (offset above -24
    hours), in a year from 100 on, the calendar lists exactly the days of
    [monthCount] months from the first of the current local month, one
    entry per day and in order; it has between [28 * monthCount] and
    [31 * monthCount] entries. *)
Theorem calendar_lists_whole_months_west_of_greenwich
    (LocalTZA now : Z) (monthCount : nat) :
  (- msPerDay < LocalTZA ≤ 0)%Z → (100 ≤ getFullYear LocalTZA now)%Z →
  let y := getFullYear LocalTZA now in
  let m := getMonth LocalTZA now in
  let days := (MakeDay y (m + Z.of_nat monthCount) 1 - MakeDay y m 1)%Z in
  CalendarGrid.calendarDates LocalTZA now monthCount
  = (λ z, iso_date (z * msPerDay)) <$> seqZ (MakeDay y m 1) days
  ∧ Z.of_nat (length (CalendarGrid.calendarDates LocalTZA now monthCount))
    = days
  ∧ (28 * Z.of_nat monthCount ≤ days ≤ 31 * Z.of_nat monthCount)%Z.
Proof.
  intros Htz Hy y m days.
  pose proof (CalendarGridFacts.month_span_bounds y m monthCount) as Hspan.
  fold days in Hspan.
  assert (Heq : CalendarGrid.calendarDates LocalTZA now monthCount
                = (λ z, iso_date (z * msPerDay)) <$> seqZ (MakeDay y m 1) days).
  { rewrite CalendarGridFacts.calendarDates_days by done.
    apply list_fmap_ext. intros _ z _.
    rewrite CalendarGridFacts.iso_date_Day. do 2 f_equal.
    unfold Day, msPerDay in *. Z.div_mod_to_equations. lia. }
  split; [done|]. split; [|done].
  rewrite Heq, length_fmap, length_seqZ. lia.
Qed.

Lemma calendar_lists_whole_months_west_of_greenwich_witness :
  Z.of_nat (length (CalendarGrid.calendarDates 0 1736899200123 3))
  = (MakeDay (getFullYear 0 1736899200123)
       (getMonth 0 1736899200123 + Z.of_nat 3) 1
     - MakeDay (getFullYear 0 1736899200123) (getMonth 0 1736899200123) 1)%Z.
Proof.
  refine (proj1 (proj2 (calendar_lists_whole_months_west_of_greenwich 0
            1736899200123 3 _ _))).
  - unfold msPerDay. lia.
  - vm_compute. discriminate.
Defined.

(** X15.  On a host east of Greenwich (offset of at most 24 hours), in a
    year from 100 on, every entry of the calendar is the date of the day
    before: the list runs from the last day of the previous month to the
    last day but one of the last month. *)
Theorem calendar_is_a_day_early_east_of_greenwich
    (LocalTZA now : Z) (monthCount : nat) :
  (0 < LocalTZA ≤ msPerDay)%Z → (100 ≤ getFullYear LocalTZA now)%Z →
  let y := getFullYear LocalTZA now in
  let m := getMonth LocalTZA now in
  let days := (MakeDay y (m + Z.of_nat monthCount) 1 - MakeDay y m 1)%Z in
  CalendarGrid.calendarDates LocalTZA now monthCount
  = (λ z, iso_date ((z - 1) * msPerDay)) <$> seqZ (MakeDay y m 1) days.
Proof.
  intros Htz Hy y m days.
  rewrite CalendarGridFacts.calendarDates_days by done.
  apply list_fmap_ext. intros _ z _.
  rewrite CalendarGridFacts.iso_date_Day. do 2 f_equal.
  unfold Day, msPerDay in *. Z.div_mod_to_equations. lia.
Qed.

Lemma calendar_is_a_day_early_east_of_greenwich_witness :
  CalendarGrid.calendarDates 28800000 1736899200123 1
  = (λ z, iso_date ((z - 1) * msPerDay))%Z
      <$> seqZ (MakeDay (getFullYear 28800000 1736899200123)
                  (getMonth 28800000 1736899200123) 1)
            (MakeDay (getFullYear 28800000 1736899200123)
               (getMonth 28800000 1736899200123 + Z.of_nat 1) 1
             - MakeDay (getFullYear 28800000 1736899200123)
                 (getMonth 28800000 1736899200123) 1)%Z.
Proof.
  refine (calendar_is_a_day_early_east_of_greenwich 28800000
            1736899200123 1 _ _).
  - unfold msPerDay. lia.
  - vm_compute. discriminate.
Defined.

Example calendar_in_shanghai_january_2025 :
  head (CalendarGrid.calendarDates 28800000 1736899200123 1)
  = Some "2024-12-31"
  ∧ last (CalendarGrid.calendarDates 28800000 1736899200123 1)
    = Some "2025-01-30".
Proof. split; vm_compute; reflexivity. Qed.

(** ** Grouping the calendar by month *)

Section Grouping.
Import CalendarGrid.

Variable key : string → string.

Lemma Map_push_keys k v groups : (Map_push k v groups).*1 = groups.*1.
Proof.
  induction groups as [|[k0 vs0] rest IH]; [done|].
  cbn [Map_push]. case_bool_decide; rewrite !fmap_cons; [done|].
  by rewrite IH.
Qed.

Lemma elem_of_Map_push k v groups k' vs' :
  NoDup groups.*1 → (k', vs') ∈ Map_push k v groups →
  (k' ≠ k ∧ (k', vs') ∈ groups)
  ∨ (k' = k ∧ ∃ vs, (k, vs) ∈ groups ∧ vs' = vs ++ [v]).
Proof.
  induction groups as [|[k0 vs0] rest IH]; intros Hnd Hin.
  - by apply elem_of_nil in Hin.
  - rewrite fmap_cons in Hnd. apply NoDup_cons in Hnd as [Hk0 Hnd].
    simpl in Hin. case_bool_decide as Hk; subst.
    + apply elem_of_cons in Hin as [[= -> ->]|Hin].
      * right. split; [done|]. exists vs0. split; [left|done].
      * left. split; [|by right]. intros ->. apply Hk0.
        by apply (list_elem_of_fmap_2 fst) in Hin.
    + apply elem_of_cons in Hin as [[= -> ->]|Hin].
      * left. split; [done|left].
      * destruct (IH Hnd Hin) as [[? ?]|[-> (vs & ? & ->)]].
        -- left. split; [done|by right].
        -- right. split; [done|]. exists vs. split; [by right|done].
Qed.

Lemma grouped_step seen groups d :
  grouped key seen groups →
  grouped key (seen ++ [d]) (group_step key groups d).
Proof.
  intros (Hnd & Hgroups & Hseen). unfold group_step.
  set (k := key d).
  set (groups' := if Map_has k groups then groups else groups ++ [(k, [])]).
  assert (Hnd' : NoDup groups'.*1).
  { subst groups'. unfold Map_has. case_bool_decide as Hk; [done|].
    rewrite fmap_app. apply NoDup_app. split; [done|].
    split; [|apply NoDup_singleton].
    intros x Hx ->%list_elem_of_singleton. done. }
  assert (Hk' : k ∈ groups'.*1).
  { subst groups'. unfold Map_has. case_bool_decide as Hk; [done|].
    rewrite fmap_app. apply elem_of_app. right. by left. }
  assert (Hold : ∀ k' vs, (k', vs) ∈ groups' →
            vs = filter (λ d, key d = k') seen ∧ (k' ≠ k → vs ≠ [])
            ∧ (k' ≠ k → (k', vs) ∈ groups)).
  { subst groups'. unfold Map_has. intros k' vs Hin.
    case_bool_decide as Hk.
    - destruct (Hgroups k' vs Hin) as [? ?]. done.
    - apply elem_of_app in Hin as [Hin|[= -> ->]%list_elem_of_singleton].
      + destruct (Hgroups k' vs Hin) as [? ?]. done.
      + split; [|done]. symmetry. apply elem_of_nil_inv.
        intros x [Hx Hin]%list_elem_of_filter.
        apply Hk. rewrite <- Hx. by apply Hseen. }
  split; [by rewrite Map_push_keys|]. split.
  - intros k' vs' Hin.
    apply elem_of_Map_push in Hin; [|done].
    destruct Hin as [[Hne Hin]|[-> (vs & Hin & ->)]].
    + destruct (Hold k' vs' Hin) as (-> & Hvs & _). split; [by apply Hvs|].
      rewrite filter_app, filter_cons_False, filter_nil by done.
      by rewrite app_nil_r.
    + destruct (Hold k vs Hin) as (-> & _). split.
      * by destruct (filter _ seen).
      * by rewrite filter_app, filter_cons_True, filter_nil by done.
  - intros d' Hd'. rewrite Map_push_keys.
    apply elem_of_app in Hd' as [Hd'|Hd'];
      [|by apply list_elem_of_singleton in Hd' as ->].
    subst groups'. destruct (Map_has k groups); [by apply Hseen|].
    rewrite fmap_app. apply elem_of_app. left. by apply Hseen.
Qed.

Lemma grouped_foldl dates0 :
  grouped key dates0 (foldl (group_step key) [] dates0).
Proof.
  induction dates0 as [|d dates0 IH] using rev_ind.
  - split; [constructor|]. split.
    + intros k vs Hin. by apply elem_of_nil in Hin.
    + intros d Hd. by apply elem_of_nil in Hd.
  - rewrite foldl_snoc. by apply grouped_step.
Qed.

End Grouping.

(** X16.  [datesByMonth] files every date under its month key, once: the
    keys are distinct, no group is empty, each group holds exactly the
    dates of its key in their order in the calendar, and every calendar
    date is in the group of its key. *)
Theorem dates_grouped_by_month_key
    (LocalTZA : Z) (calendarDates0 : list string) :
  let groups := CalendarGrid.datesByMonth LocalTZA calendarDates0 in
  NoDup groups.*1
  ∧ (∀ k vs, (k, vs) ∈ groups →
       vs ≠ []
       ∧ vs = filter (λ d, CalendarGrid.monthKey LocalTZA d = k)
                calendarDates0)
  ∧ (∀ d, d ∈ calendarDates0 →
       ∃ vs, (CalendarGrid.monthKey LocalTZA d, vs) ∈ groups ∧ d ∈ vs).
Proof.
  destruct (grouped_foldl (CalendarGrid.monthKey LocalTZA) calendarDates0)
    as (Hnd & Hgroups & Hseen).
  split; [done|]. split; [done|].
  intros d Hd.
  destruct (proj1 (list_elem_of_fmap _ _ _) (Hseen d Hd))
    as ([k vs] & Hk & Hin). simpl in Hk. subst k.
  exists vs. split; [done|].
  destruct (Hgroups _ _ Hin) as [_ ->].
  by apply list_elem_of_filter.
Qed.

Lemma dates_grouped_by_month_key_witness :
  ["2025-01-31"; "2025-01-02"] ≠ []
  ∧ ["2025-01-31"; "2025-01-02"]
    = filter (λ d, CalendarGrid.monthKey 0 d = "2025-01")
        ["2025-01-31"; "2025-02-01"; "x"; "2025-01-02"].
Proof.
  refine (proj1 (proj2 (dates_grouped_by_month_key 0
            ["2025-01-31"; "2025-02-01"; "x"; "2025-01-02"]))
            "2025-01" ["2025-01-31"; "2025-01-02"] _).
  vm_compute. apply list_elem_of_In. left. reflexivity.
Defined.

Lemma toggleDate_twice_and_once_witness :
  "2025-01-05" ∈ CalendarBatch.toggleDate "2025-01-12" {["2025-01-05"]}
  ↔ "2025-01-05" ∈ ({["2025-01-05"]} : gset string).
Proof.
  refine (proj1 (proj2 (proj2 (toggleDate_twice_and_once "2025-01-12"
            {["2025-01-05"]}))) "2025-01-05" _).
  discriminate.
Defined.

(** ** One member per date *)

(** [generateDates] never returns a date twice, whatever it is given. *)
Lemma generateDates_NoDup tz startDate0 endDate0 w :
  NoDup (WeekdayBatch.generateDates tz startDate0 endDate0 w).
Proof.
  destruct (Date_parse startDate0) as [ts|] eqn:Hs;
    [|rewrite GenerateDatesFacts.generateDates_invalid by (by left);
      constructor].
  destruct (Date_parse endDate0) as [te|] eqn:He;
    [|rewrite GenerateDatesFacts.generateDates_invalid by (by right);
      constructor].
  rewrite (GenerateDatesFacts.generateDates_days _ _ _ _ _ _ Hs He).
  pose proof (Date_parse_range _ _ Hs) as Hrs.
  pose proof (Date_parse_range _ _ He) as Hre.
  apply NoDup_fmap_2_strong; [|apply NoDup_filter, NoDup_seqZ].
  intros z1 z2 [_ Hz1%elem_of_seqZ]%list_elem_of_filter
    [_ Hz2%elem_of_seqZ]%list_elem_of_filter Heq.
  apply (f_equal Date_parse) in Heq.
  rewrite !Date_parse_iso_date in Heq by (apply year_in_range; lia).
  injection Heq as Heq. unfold msPerDay in Heq. lia.
Qed.

(** X17.  For all inputs, no date occurs twice in the preview, and no two
    rows of the batch built from it have the same service date: within one
    batch a date is given to exactly one member. *)
Theorem one_member_per_date
    (orgId0 stid : string) (roster : list string) (members0 : list Member) :
  (∀ sel : gset string,
     NoDup (date <$> CalendarBatch.previewAssignments stid sel roster members0)
     ∧ NoDup (service_date <$>
                (to_assignment orgId0 stid
                   <$> CalendarBatch.previewAssignments stid sel roster
                         members0)))
  ∧ (∀ tz s e w,
     NoDup (date <$> WeekdayBatch.previewAssignments tz stid s e w roster
                       members0)
     ∧ NoDup (service_date <$>
                (to_assignment orgId0 stid
                   <$> WeekdayBatch.previewAssignments tz stid s e w roster
                         members0))).
Proof.
  assert (Hrows : ∀ out : list PreviewAssignment,
            service_date <$> (to_assignment orgId0 stid <$> out)
            = date <$> out).
  { intros out. rewrite <- list_fmap_compose. by apply list_fmap_ext. }
  split.
  - intros sel. rewrite Hrows.
    assert (NoDup (date <$> CalendarBatch.previewAssignments stid sel roster
                              members0)); [|done].
    destruct (calendar_preview_cases stid sel roster members0)
      as [-> | [_ ->]]; [constructor|].
    rewrite rotate_dates. apply CalendarFacts.dates_NoDup.
  - intros tz s e w. rewrite Hrows.
    assert (NoDup (date <$> WeekdayBatch.previewAssignments tz stid s e w
                              roster members0)); [|done].
    destruct (weekday_preview_cases tz stid s e w roster members0)
      as [-> | [_ ->]]; [constructor|].
    rewrite rotate_dates. apply generateDates_NoDup.
Qed.

(** ** The workload table *)

Module WorkloadFacts.
Import Workload.

Lemma Map_get_set {V} (k k' : string) (v : V) m :
  Map_get k (Map_set k' v m) = if decide (k' = k) then Some v else Map_get k m.
Proof.
  induction m as [|[k0 v0] m IH]; simpl.
  - case_bool_decide; case_decide; done.
  - case_bool_decide as H0; simpl.
    + subst k0. case_bool_decide; case_decide; done.
    + rewrite IH. case_bool_decide; case_decide; congruence.
Qed.

Lemma Map_set_fresh {V} (k : string) (v : V) m :
  k ∉ m.*1 → Map_set k v m = m ++ [(k, v)].
Proof.
  induction m as [|[k0 v0] m IH]; [done|].
  rewrite fmap_cons. intros [Hne Hk]%not_elem_of_cons. simpl in *.
  rewrite bool_decide_eq_false_2 by done. by rewrite IH.
Qed.

Lemma Map_set_keys {V} (k : string) (v : V) m :
  (Map_set k v m).*1 = if decide (k ∈ m.*1) then m.*1 else m.*1 ++ [k].
Proof.
  induction m as [|[k0 v0] m IH].
  - rewrite decide_False; [done|]. apply not_elem_of_nil.
  - cbn [Map_set]. rewrite fmap_cons. cbn [fst].
    case_bool_decide as H0.
    + subst k0. rewrite fmap_cons. cbn [fst].
      rewrite decide_True; [done|]. by left.
    + rewrite fmap_cons, IH. cbn [fst].
      destruct (decide (k ∈ m.*1)) as [Hin|Hout].
      * rewrite decide_True; [done|]. by right.
      * rewrite decide_False; [done|].
        intros [?|?]%elem_of_cons; congruence.
Qed.

Lemma Map_set_NoDup {V} (k : string) (v : V) m :
  NoDup m.*1 → NoDup (Map_set k v m).*1.
Proof.
  intros Hnd. rewrite Map_set_keys. case_decide as Hk; [done|].
  apply NoDup_app. split; [done|]. split; [|apply NoDup_singleton].
  intros x Hx ->%list_elem_of_singleton. done.
Qed.

Lemma Map_set_sum (k : string) (v : nat) (m : list (string * nat)) :
  sum_list (Map_set k v m).*2 + default 0 (Map_get k m)
  = sum_list m.*2 + v.
Proof.
  induction m as [|[k0 v0] m IH]; [simpl; lia|].
  cbn [Map_set Map_get]. case_bool_decide; rewrite !fmap_cons; simpl in *; lia.
Qed.

Lemma Map_get_elem {V} (k : string) (v : V) m :
  NoDup m.*1 → (k, v) ∈ m → Map_get k m = Some v.
Proof.
  induction m as [|[k0 v0] m IH]; intros Hnd Hin.
  - by apply elem_of_nil in Hin.
  - rewrite fmap_cons in Hnd. apply NoDup_cons in Hnd as [Hk0 Hnd]. simpl.
    apply elem_of_cons in Hin as [[= -> ->]|Hin].
    + by rewrite bool_decide_eq_true_2.
    + rewrite bool_decide_eq_false_2; [by apply IH|].
      intros ->. apply Hk0. by apply (list_elem_of_fmap_2 fst) in Hin.
Qed.

(** The table with entry [g m] for each member [m]. *)
Lemma init_table members0 :
  NoDup (id <$> members0) →
  foldl (λ table member, Map_set (id member) (blank member) table) []
    members0
  = (λ m, (id m, blank m)) <$> members0.
Proof.
  induction members0 as [|x members0 IH] using rev_ind; [done|].
  rewrite fmap_app. intros (Hnd & Hx & _)%NoDup_app.
  rewrite foldl_snoc, IH by done.
  rewrite Map_set_fresh, fmap_app; [done|].
  rewrite <- list_fmap_compose. intros Hin. apply (Hx (id x)); [done|].
  simpl. by left.
Qed.

Lemma count_other k v table a :
  k ≠ member_id a → count ((k, v) :: table) a = (k, v) :: count table a.
Proof.
  intros Hne. unfold count. simpl.
  rewrite bool_decide_eq_false_2 by done.
  by destruct (Map_get _ table).
Qed.

Lemma count_absent (g : Member → Entry) members0 a :
  member_id a ∉ id <$> members0 →
  count ((λ m, (id m, g m)) <$> members0) a
  = (λ m, (id m, g m)) <$> members0.
Proof.
  induction members0 as [|x members0 IH]; [done|].
  rewrite !fmap_cons. intros [Hne Hout]%not_elem_of_cons.
  rewrite count_other by done. by rewrite IH.
Qed.

Lemma count_table (g : Member → Entry) members0 a :
  NoDup (id <$> members0) →
  count ((λ m, (id m, g m)) <$> members0) a
  = (λ m, (id m, if decide (id m = member_id a) then record (g m) a
                 else g m)) <$> members0.
Proof.
  induction members0 as [|x members0 IH]; [done|].
  rewrite fmap_cons. intros [Hx Hnd]%NoDup_cons. rewrite !fmap_cons.
  destruct (decide (id x = member_id a)) as [Heq|Hne].
  - unfold count. simpl. rewrite !bool_decide_eq_true_2 by done.
    f_equal. apply list_fmap_ext. intros i m Hm.
    rewrite decide_False; [done|]. intros Hm'. apply Hx.
    rewrite Heq, <- Hm'. apply list_elem_of_fmap_2.
    by eapply list_elem_of_lookup_2.
  - rewrite count_other by done. by rewrite IH.
Qed.

Lemma own_snoc k assignments a :
  own k (assignments ++ [a])
  = own k assignments ++ (if decide (member_id a = k) then [a] else []).
Proof.
  unfold own. rewrite filter_app, filter_cons, filter_nil.
  by case_decide.
Qed.

(** The entry of each member only depends on the assignments of that
    member. *)
Lemma workloadMap_table members0 assignments :
  NoDup (id <$> members0) →
  workloadMap members0 assignments
  = (λ m, (id m, foldl record (blank m) (own (id m) assignments)))
      <$> members0.
Proof.
  intros Hnd. unfold workloadMap. rewrite init_table by done.
  induction assignments as [|a assignments IH] using rev_ind; [done|].
  rewrite foldl_snoc, IH, count_table by done.
  apply list_fmap_ext. intros i m Hm. f_equal.
  rewrite own_snoc. case_decide as H1; case_decide as H2; try congruence.
  - by rewrite foldl_snoc.
  - by rewrite app_nil_r.
Qed.

Lemma workloadMap_entry members0 assignments k e :
  NoDup (id <$> members0) → (k, e) ∈ workloadMap members0 assignments →
  ∃ m, m ∈ members0 ∧ k = id m
       ∧ e = foldl record (blank m) (own k assignments).
Proof.
  intros Hnd. rewrite workloadMap_table by done.
  intros (m & [= -> ->] & Hm)%list_elem_of_fmap. by exists m.
Qed.

(** An entry after the assignments [l] have been recorded. *)
Lemma recorded_counts e0 l :
  memberId (foldl record e0 l) = memberId e0
  ∧ memberName (foldl record e0 l) = memberName e0
  ∧ totalCount (foldl record e0 l) = totalCount e0 + length l.
Proof.
  induction l as [|a l IH] using rev_ind; [simpl; auto with lia|].
  rewrite foldl_snoc, length_app. simpl.
  destruct IH as (-> & -> & ->). auto with lia.
Qed.

Lemma recorded_types e0 l :
  serviceTypes e0 = [] →
  let types := serviceTypes (foldl record e0 l) in
  NoDup types.*1
  ∧ sum_list types.*2 = length l
  ∧ ∀ n, default 0 (Map_get n types)
         = length (filter (λ a, type_name a = n) l).
Proof.
  intros He0. induction l as [|a l IH] using rev_ind.
  - simpl. rewrite He0. split; [constructor|]. by split.
  - rewrite foldl_snoc. destruct IH as (Hnd & Hsum & Hget). simpl.
    fold (type_name a).
    split; [by apply Map_set_NoDup|]. split.
    + pose proof (Map_set_sum (type_name a)
                    (default 0 (Map_get (type_name a)
                                  (serviceTypes (foldl record e0 l))) + 1)
                    (serviceTypes (foldl record e0 l))) as Hs.
      rewrite length_app. simpl. lia.
    + intros n. rewrite Map_get_set, filter_app, length_app.
      rewrite filter_cons, filter_nil.
      destruct (decide (type_name a = n)) as [<-|Hne]; simpl;
        rewrite Hget; lia.
Qed.

Lemma ltb_le a b : String.ltb a b = true → String.le a b.
Proof.
  unfold String.ltb, String.le, String.leb.
  destruct (String.compare a b); done.
Qed.

Lemma not_ltb_le a b : String.ltb a b = false → String.le b a.
Proof.
  unfold String.ltb, String.le, String.leb.
  rewrite (String.compare_antisym a b).
  destruct (String.compare b a); done.
Qed.

Lemma le_empty s : String.le "" s.
Proof. by destruct s. Qed.

Lemma recorded_last e0 l :
  lastServiceDate e0 = None →
  match lastServiceDate (foldl record e0 l) with
  | None => l = []
  | Some d =>
      (∃ a, a ∈ l ∧ service_date a = d)
      ∧ ∀ a, a ∈ l → String.le (service_date a) d
  end.
Proof.
  intros He0. induction l as [|a l IH] using rev_ind.
  - simpl. by rewrite He0.
  - rewrite foldl_snoc. simpl.
    destruct (lastServiceDate (foldl record e0 l)) as [d|] eqn:Hlast.
    + destruct IH as ((b & Hb & Hbd) & Hmax). simpl.
      assert (Hnew : String.le d (service_date a) →
                (∃ a0, a0 ∈ l ++ [a] ∧ service_date a0 = service_date a)
                ∧ ∀ a0, a0 ∈ l ++ [a] →
                    String.le (service_date a0) (service_date a)).
      { intros Hle. split.
        - exists a. split; [|done]. apply elem_of_app. right. by left.
        - intros c [Hc|Hc]%elem_of_app.
          + transitivity d; [by apply Hmax|done].
          + apply list_elem_of_singleton in Hc as ->. reflexivity. }
      destruct (falsy d) eqn:Hd; simpl.
      * apply Hnew. apply falsy_true in Hd as ->. apply le_empty.
      * destruct (String.ltb d (service_date a)) eqn:Hlt.
        -- by apply Hnew, ltb_le.
        -- split.
           ++ exists b. split; [|done]. apply elem_of_app. by left.
           ++ intros c [Hc|Hc]%elem_of_app; [by apply Hmax|].
              apply list_elem_of_singleton in Hc as ->.
              by apply not_ltb_le.
    + subst l. simpl. split.
      * exists a. split; [by left|done].
      * intros c Hc. apply list_elem_of_singleton in Hc as ->. reflexivity.
Qed.

Lemma recorded_type_names e0 l n :
  serviceTypes e0 = [] →
  n ∈ (serviceTypes (foldl record e0 l)).*1 →
  ∃ a, a ∈ l ∧ type_name a = n.
Proof.
  intros He0. induction l as [|a l IH] using rev_ind.
  - simpl. rewrite He0. intros Hn. by apply elem_of_nil in Hn.
  - rewrite foldl_snoc. simpl. fold (type_name a). rewrite Map_set_keys.
    intros Hn.
    assert (Hcases : n ∈ (serviceTypes (foldl record e0 l)).*1
                     ∨ n = type_name a).
    { case_decide; [by left|].
      apply elem_of_app in Hn as [Hn|Hn]; [by left|].
      apply list_elem_of_singleton in Hn. by right. }
    destruct Hcases as [Hold| ->].
    + destruct (IH Hold) as (b & Hb & Hbn). exists b.
      split; [|done]. apply elem_of_app. by left.
    + exists a. split; [|done]. apply elem_of_app. right. by left.
Qed.

(** Every assignment of a listed member is counted for exactly one member. *)
Lemma own_total members0 assignments :
  NoDup (id <$> members0) →
  sum_list ((λ m, length (own (id m) assignments)) <$> members0)
  = length (filter (λ a, member_id a ∈ id <$> members0) assignments).
Proof.
  intros Hnd. induction assignments as [|a assignments IH].
  - simpl. clear Hnd. induction members0 as [|m members0 IHm]; [done|].
    rewrite fmap_cons. simpl. by rewrite IHm.
  - rewrite filter_cons.
    assert (Hone : sum_list ((λ m, length (own (id m) (a :: assignments)))
                               <$> members0)
                   = (if decide (member_id a ∈ id <$> members0) then 1 else 0)
                     + sum_list ((λ m, length (own (id m) assignments))
                                   <$> members0)).
    { clear IH. induction members0 as [|m members0 IHm].
      - rewrite decide_False; [done|]. apply not_elem_of_nil.
      - rewrite !fmap_cons in *. apply NoDup_cons in Hnd as [Hm Hnd].
        cbn [sum_list sum_list_with]. rewrite IHm by done.
        unfold own at 1. rewrite filter_cons. fold (own (id m) assignments).
        destruct (decide (member_id a = id m)) as [Heq|Hne];
          destruct (decide (member_id a ∈ id <$> members0)) as [Hin|Hout];
          destruct (decide (member_id a ∈ id m :: (id <$> members0)))
            as [Hin'|Hout']; simpl; try lia.
        all: try (exfalso; apply Hm; by rewrite <- Heq).
        all: try (exfalso; apply Hout', elem_of_cons; by left).
        all: try (exfalso; apply Hout', elem_of_cons; by right).
        apply elem_of_cons in Hin' as [?|?]; congruence. }
    rewrite Hone, IH. by case_decide.
Qed.

End WorkloadFacts.

(** X18.  With distinct member ids, the workload table has one entry per
    member, in the order of the member list and under the member's id and
    name, and the total of an entry is the number of assignments of that
    member. *)
Theorem workload_counts_own_assignments
    (members0 : list Member) (assignments : list Workload.Assignment) :
  NoDup (id <$> members0) →
  let table := Workload.workloadMap members0 assignments in
  table.*1 = id <$> members0
  ∧ Workload.memberName <$> table.*2 = name <$> members0
  ∧ ∀ k e, (k, e) ∈ table →
      Workload.memberId e = k
      ∧ Workload.totalCount e = length (Workload.own k assignments).
Proof.
  intros Hnd table. subst table. split; [|split].
  - rewrite WorkloadFacts.workloadMap_table by done.
    rewrite <- list_fmap_compose. by apply list_fmap_ext.
  - rewrite WorkloadFacts.workloadMap_table by done.
    rewrite <- !list_fmap_compose. apply list_fmap_ext. intros i m Hm.
    unfold compose. cbn [snd].
    by destruct (WorkloadFacts.recorded_counts (Workload.blank m)
                   (Workload.own (id m) assignments)) as (_ & -> & _).
  - intros k e Hin.
    destruct (WorkloadFacts.workloadMap_entry _ _ _ _ Hnd Hin)
      as (m & Hm & -> & ->).
    destruct (WorkloadFacts.recorded_counts (Workload.blank m)
                (Workload.own (id m) assignments)) as (-> & _ & ->).
    done.
Qed.

Lemma workload_counts_own_assignments_witness :
  NoDup (id <$> workload_members)
  ∧ (Workload.workloadMap workload_members workload_assignments).*1
    = ["A"; "B"].
Proof.
  assert (Hnd : NoDup (id <$> workload_members)) by compute_done.
  split; [done|].
  exact (proj1 (workload_counts_own_assignments workload_members
                  workload_assignments Hnd)).
Defined.

(** X19.  With distinct member ids, the totals of the table add up to the
    number of assignments whose member is listed: an assignment of a member
    without an entry is counted nowhere, so the totals never exceed the
    number of assignments. *)
Theorem workload_totals_count_listed_members
    (members0 : list Member) (assignments : list Workload.Assignment) :
  NoDup (id <$> members0) →
  let totals :=
    sum_list (Workload.totalCount
                <$> (Workload.workloadMap members0 assignments).*2) in
  totals
  = length (filter (λ a, Workload.member_id a ∈ id <$> members0)
              assignments)
  ∧ totals ≤ length assignments.
Proof.
  intros Hnd totals.
  assert (Heq : totals
                = length (filter (λ a, Workload.member_id a ∈ id <$> members0)
                            assignments)).
  { subst totals. rewrite WorkloadFacts.workloadMap_table by done.
    rewrite <- WorkloadFacts.own_total by done. f_equal.
    rewrite <- !list_fmap_compose. apply list_fmap_ext. intros i m Hm.
    unfold compose. cbn [snd].
    destruct (WorkloadFacts.recorded_counts (Workload.blank m)
                (Workload.own (id m) assignments)) as (_ & _ & ->).
    done. }
  split; [done|]. rewrite Heq. apply length_filter.
Qed.

Lemma workload_totals_count_listed_members_witness :
  NoDup (id <$> workload_members)
  ∧ sum_list (Workload.totalCount
                <$> (Workload.workloadMap workload_members
                       workload_assignments).*2)
    ≤ length workload_assignments.
Proof.
  assert (Hnd : NoDup (id <$> workload_members)) by compute_done.
  split; [done|].
  exact (proj2 (workload_totals_count_listed_members workload_members
                  workload_assignments Hnd)).
Defined.

(** X20.  With distinct member ids, the service types of an entry are
    distinct names, each with the number (at least one) of the member's
    assignments of that type, where an assignment without a type name
    counts as ["未知"]; the numbers add up to the total of the entry. *)
Theorem service_type_counts_add_up
    (members0 : list Member) (assignments : list Workload.Assignment)
    (k : string) (e : Workload.Entry) :
  NoDup (id <$> members0) →
  (k, e) ∈ Workload.workloadMap members0 assignments →
  NoDup (Workload.serviceTypes e).*1
  ∧ sum_list (Workload.serviceTypes e).*2 = Workload.totalCount e
  ∧ ∀ n c, (n, c) ∈ Workload.serviceTypes e →
      0 < c
      ∧ c = length (filter (λ a, Workload.type_name a = n)
                      (Workload.own k assignments)).
Proof.
  intros Hnd Hin.
  destruct (WorkloadFacts.workloadMap_entry _ _ _ _ Hnd Hin)
    as (m & Hm & -> & ->).
  destruct (WorkloadFacts.recorded_types (Workload.blank m)
              (Workload.own (id m) assignments) eq_refl)
    as (Hkeys & Hsum & Hget).
  destruct (WorkloadFacts.recorded_counts (Workload.blank m)
              (Workload.own (id m) assignments)) as (_ & _ & Htotal).
  split; [done|]. split; [by rewrite Hsum, Htotal|].
  intros n c Hnc.
  assert (Hc : c = length (filter (λ a, Workload.type_name a = n)
                             (Workload.own (id m) assignments))).
  { rewrite <- Hget.
    by rewrite (WorkloadFacts.Map_get_elem _ _ _ Hkeys Hnc). }
  split; [|done].
  destruct (WorkloadFacts.recorded_type_names (Workload.blank m)
              (Workload.own (id m) assignments) n eq_refl)
    as (a & Ha & Hname).
  { by apply (list_elem_of_fmap_2 fst) in Hnc. }
  assert (Hfa : a ∈ filter (λ a, Workload.type_name a = n)
                      (Workload.own (id m) assignments))
    by (by apply list_elem_of_filter).
  rewrite Hc.
  destruct (filter _ (Workload.own (id m) assignments)); simpl; [|lia].
  by apply elem_of_nil in Hfa.
Qed.

Lemma service_type_counts_add_up_witness :
  ∃ e, ("A", e) ∈ Workload.workloadMap workload_members workload_assignments
       ∧ Workload.serviceTypes e = [("sermon", 2); ("未知", 1)]
       ∧ sum_list (Workload.serviceTypes e).*2 = Workload.totalCount e.
Proof.
  assert (Hnd : NoDup (id <$> workload_members)) by compute_done.
  set (e := {| Workload.memberId := "A";
               Workload.memberName := "Ann";
               Workload.totalCount := 3;
               Workload.serviceTypes := [("sermon", 2); ("未知", 1)];
               Workload.lastServiceDate := Some "2025-01-19" |}).
  assert (Hin : ("A", e)
                ∈ Workload.workloadMap workload_members workload_assignments)
    by (vm_compute; apply list_elem_of_In; left; reflexivity).
  exists e. split; [done|]. split; [done|].
  exact (proj1 (proj2 (service_type_counts_add_up workload_members
                         workload_assignments "A" e Hnd Hin))).
Defined.

(** X21.  With distinct member ids, the last service date of an entry is
    empty exactly for a member without assignments, and is otherwise the
    greatest service date of the member's assignments, whatever the order
    of the assignments. *)
Theorem last_service_date_is_latest
    (members0 : list Member) (assignments : list Workload.Assignment)
    (k : string) (e : Workload.Entry) :
  NoDup (id <$> members0) →
  (k, e) ∈ Workload.workloadMap members0 assignments →
  match Workload.lastServiceDate e with
  | None => Workload.own k assignments = []
  | Some d =>
      (∃ a, a ∈ Workload.own k assignments ∧ Workload.service_date a = d)
      ∧ ∀ a, a ∈ Workload.own k assignments →
          String.le (Workload.service_date a) d
  end.
Proof.
  intros Hnd Hin.
  destruct (WorkloadFacts.workloadMap_entry _ _ _ _ Hnd Hin)
    as (m & Hm & -> & ->).
  by apply WorkloadFacts.recorded_last.
Qed.

Lemma last_service_date_is_latest_witness :
  (∃ a, a ∈ Workload.own "A" workload_assignments
        ∧ Workload.service_date a = "2025-01-19")
  ∧ ∀ a, a ∈ Workload.own "A" workload_assignments →
      String.le (Workload.service_date a) "2025-01-19".
Proof.
  assert (Hnd : NoDup (id <$> workload_members)) by compute_done.
  set (e := {| Workload.memberId := "A";
               Workload.memberName := "Ann";
               Workload.totalCount := 3;
               Workload.serviceTypes := [("sermon", 2); ("未知", 1)];
               Workload.lastServiceDate := Some "2025-01-19" |}).
  assert (Hin : ("A", e)
                ∈ Workload.workloadMap workload_members workload_assignments)
    by (vm_compute; apply list_elem_of_In; left; reflexivity).
  exact (last_service_date_is_latest workload_members
           workload_assignments "A" e Hnd Hin).
Defined.
